(** * wells-project: the transport-tracking backend, embedded and verified

    A shallow embedding of the Express/Mongoose server under [src/]:
    the two middlewares ([auth], [admin]), the trip, passenger, site and
    user route handlers, and the parts of the Mongoose models they rely on.

    Conventions of the embedding.
    - A handler is a function from the stored collections and the request
      to the new collections and the HTTP response.  [try]/[catch] is an
      error monad ([Result]); a thrown JavaScript error is a record with
      the [name], [kind] and [message] the handlers dispatch on.
    - Calls that leave the process ([dbConnect], a query, a transaction
      commit) can fail for reasons outside the program.  Every such call
      site is numbered in program order and asks an oracle
      [Faults := nat -> option JsError] whether the driver raises there.
    - What the JavaScript host or a library computes and the repository
      does not define ([Date.parse], [jwt.verify], [bcrypt.hash], the
      ObjectId cast) is a [Variable] of the section that uses it.
    - The collections are keyed by the ids as ObjectIds print, 24
      hexadecimal digits in lower case, and a request is taken to write
      its id so.  The deletion of a passenger compares the written id
      with the [passengerId] strings of the trips as well, so there the
      cast is explicit and the id may be written in any way.

    The definitions come first, in modules that follow the source files;
    the predicates the statements use and the sample data follow; the
    proofs close the file.

    Not embedded: PUT /api/sites/:siteName/pob (its upsert can insert a
    site without [maximumPOB], which [Site.Doc] does not represent),
    PUT /api/passengers, PUT /api/users/me and PUT /api/users/:id (they
    hand body values of any type to Mongoose's casts of ids and strings,
    which are not embedded), the email service, the diagnostics script
    and the Express application set-up. *)

From Stdlib Require Import ZArith List String Ascii Bool Lia Sorted Permutation.
From stdpp Require Import base gmap list strings.

Open Scope Z_scope.

(** ** JavaScript values and the built-ins the handlers call *)
Module Js.

(** A value found in a parsed JSON request body, plus [Date] objects.
    Numbers are the integral ones, as the body writes them; a [DateObj]
    carries its time value in milliseconds since the epoch, [None] for an
    invalid date (NaN). *)
Inductive value :=
| Undefined
| Null
| Bool (b : bool)
| Number (n : Z)
| Str (s : string)
| DateObj (t : option Z).

(** [Boolean(v)] and the truthiness test of [!v], [v || w]. *)
Definition ToBoolean (v : value) : bool :=
  match v with
  | Undefined | Null => false
  | Bool b => b
  | Number n => negb (n =? 0)
  | Str s => negb (String.eqb s "")
  | DateObj _ => true
  end.

Definition code (c : ascii) : Z := Z.of_nat (nat_of_ascii c).

(** White space and line terminators of the ASCII range, as
    [String.prototype.trim] strips them. *)
Definition isWhiteSpace (c : ascii) : bool :=
  let n := code c in
  (n =? 9) || (n =? 10) || (n =? 11) || (n =? 12) || (n =? 13) || (n =? 32).

Fixpoint trimStart (s : string) : string :=
  match s with
  | EmptyString => EmptyString
  | String c r => if isWhiteSpace c then trimStart r else s
  end.

Fixpoint trimEnd (s : string) : string :=
  match s with
  | EmptyString => EmptyString
  | String c r =>
      let r' := trimEnd r in
      if isWhiteSpace c && String.eqb r' "" then EmptyString else String c r'
  end.

Definition trim (s : string) : string := trimEnd (trimStart s).

Definition startsWith (s pat : string) : bool := String.prefix pat s.

(** [s.includes(pat)] *)
Fixpoint includes (s pat : string) : bool :=
  String.prefix pat s
  || match s with
     | EmptyString => false
     | String _ r => includes r pat
     end.

Fixpoint drop (n : nat) (s : string) : string :=
  match n, s with
  | O, _ => s
  | S _, EmptyString => EmptyString
  | S k, String _ r => drop k r
  end.

(** [s.replace(pat, rep)] with a string pattern: the first occurrence only. *)
Fixpoint replace (s pat rep : string) : string :=
  if String.prefix pat s then rep +:+ drop (String.length pat) s
  else match s with
       | EmptyString => EmptyString
       | String c r => String c (replace r pat rep)
       end.

Definition isDigit (c : ascii) : bool := (48 <=? code c) && (code c <=? 57).
Definition isLower (c : ascii) : bool := (97 <=? code c) && (code c <=? 122).
Definition isUpper (c : ascii) : bool := (65 <=? code c) && (code c <=? 90).

Definition toLowerChar (c : ascii) : ascii :=
  if isUpper c then ascii_of_nat (nat_of_ascii c + 32) else c.

(** [s.toLowerCase()], on the letters of the ASCII range. *)
Fixpoint toLowerCase (s : string) : string :=
  match s with
  | EmptyString => EmptyString
  | String c r => String (toLowerChar c) (toLowerCase r)
  end.

Fixpoint forallb_string (p : ascii -> bool) (s : string) : bool :=
  match s with
  | EmptyString => true
  | String c r => p c && forallb_string p r
  end.

Definition digitValue (c : ascii) : option Z :=
  if isDigit c then Some (code c - 48) else None.

Definition hexValue (c : ascii) : option Z :=
  if isDigit c then Some (code c - 48)
  else if (97 <=? code c) && (code c <=? 102) then Some (code c - 87)
  else if (65 <=? code c) && (code c <=? 70) then Some (code c - 55)
  else None.

(** The longest prefix of digits in the given radix, [None] when empty. *)
Fixpoint leadingDigits (val : ascii -> option Z) (radix : Z)
         (acc : option Z) (s : string) : option Z :=
  match s with
  | EmptyString => acc
  | String c r =>
      match val c with
      | Some d => leadingDigits val radix (Some (default 0 acc * radix + d)) r
      | None => acc
      end
  end.

Definition parseUnsigned (s : string) : option Z :=
  match s with
  | String "0" (String x r) =>
      if (code x =? 120) || (code x =? 88)
      then leadingDigits hexValue 16 None r
      else leadingDigits digitValue 10 None s
  | _ => leadingDigits digitValue 10 None s
  end.

(** A number that is not NaN, as [parseInt] returns it: an integer that
    is a double, or an infinity. *)
Inductive number :=
| Finite (n : Z)
| Infinity (negative : bool).

(** The double nearest to an integer, as the conversion of a numeric
    literal and [parseInt] round: 53 bits of significand are kept, a
    tie goes to the even significand, and what rounds to 2^1024 or
    more is an infinity. *)
Definition toDouble (n : Z) : number :=
  let a := Z.abs n in
  if a <? 2 ^ 53 then Finite n
  else
    let e := Z.log2 a - 52 in
    let q := Z.shiftr a e in
    let r := a - Z.shiftl q e in
    let half := 2 ^ (e - 1) in
    let q' := if (half <? r) || ((r =? half) && Z.odd q) then q + 1 else q in
    if 2 ^ 1024 <=? Z.shiftl q' e then Infinity (n <? 0)
    else Finite (Z.sgn n * Z.shiftl q' e).

(** [parseInt] of a string: the sign, the digits, and the double nearest
    to the integer they denote.  [None] is NaN. *)
Definition parseIntString (s : string) : option number :=
  toDouble <$> match trimStart s with
               | String "-" r => Z.opp <$> parseUnsigned r
               | String "+" r => parseUnsigned r
               | t => parseUnsigned t
               end.

(** The first decimal digit of a positive integer. *)
Fixpoint leadingDigit (fuel : nat) (n : Z) : Z :=
  match fuel with
  | O => n
  | S k => if n <? 10 then n else leadingDigit k (n / 10)
  end.

(** The number of decimal digits of a positive integer. *)
Fixpoint countDigits (fuel : nat) (n : Z) : Z :=
  match fuel with
  | O => 1
  | S k => if n <? 10 then 1 else 1 + countDigits k (n / 10)
  end.

(** Whether the integer [x] rounds to the double [d]. *)
Definition denotes (d x : Z) : bool :=
  match toDouble x with
  | Finite y => y =? d
  | Infinity _ => false
  end.

(** The decimal that [Number::toString] prints for a positive double
    [d]: the fewest digits, from [k] on, that still denote [d]; of the
    two candidates around [d] the nearer one, and of two equally near
    the one with the even last digit.  The value is returned with its
    zeros. *)
Fixpoint shortestFrom (fuel : nat) (k digits d : Z) : Z :=
  match fuel with
  | O => d
  | S fuel' =>
      let scale := 10 ^ (digits - k) in
      let below := d / scale * scale in
      let above := below + scale in
      match denotes d below, denotes d above with
      | true, true =>
          if d - below <? above - d then below
          else if above - d <? d - below then above
          else if Z.even (d / scale) then below else above
      | true, false => below
      | false, true => above
      | false, false => shortestFrom fuel' (k + 1) digits d
      end
  end.

Definition shortestDecimal (d : Z) : Z :=
  let digits := countDigits (Z.to_nat (Z.log2 d)) d in
  shortestFrom (Z.to_nat digits) 1 digits d.

(** [parseInt(v)]: the argument is converted to a string first.  A
    number of the body is the double its literal denotes; below 10^21 it
    is printed with all its digits and comes back unchanged, and a
    larger one, printed in exponent notation, yields the first digit of
    what is printed.  ["Infinity"] has no digit.  [None] is NaN. *)
Definition parseInt (v : value) : option number :=
  match v with
  | Str s => parseIntString s
  | Number n =>
      match toDouble n with
      | Infinity _ => None
      | Finite d =>
          if Z.abs d <? 10 ^ 21 then Some (Finite d)
          else Some (Finite (Z.sgn d
                             * leadingDigit (Z.to_nat (Z.log2 (Z.abs d)))
                                            (shortestDecimal (Z.abs d))))
      end
  | Undefined | Null | Bool _ | DateObj _ => None
  end.

(** A thrown error, with the properties the handlers look at. *)
Record JsError := mkError {
  name : string;
  kind : option string;
  message : string
}.

Definition TypeError (msg : string) : JsError := mkError "TypeError" None msg.
Definition Error (msg : string) : JsError := mkError "Error" None msg.

(** The outcome of a block that may throw. *)
Inductive Result (A : Type) :=
| Ok (a : A)
| Throw (e : JsError).
Arguments Ok {A} a.
Arguments Throw {A} e.

Definition bind {A B} (r : Result A) (k : A -> Result B) : Result B :=
  match r with
  | Ok a => k a
  | Throw e => Throw e
  end.

(** [v?.trim()]: [undefined] on a nullish receiver, the trimmed string on
    a string, and a [TypeError] on any other value, which has no [trim]. *)
Definition optTrim (v : value) : Result (option string) :=
  match v with
  | Undefined | Null => Ok None
  | Str s => Ok (Some (trim s))
  | Bool _ | Number _ | DateObj _ => Throw (TypeError "trim is not a function")
  end.

(** [!v?.trim()] *)
Definition blank (v : value) : Result bool :=
  bind (optTrim v) (fun o =>
    Ok (match o with
        | None => true
        | Some t => String.eqb t ""
        end)).

(** [v.trim()] where the receiver has passed [blank]. *)
Definition trimOf (v : value) : string :=
  match v with
  | Str s => trim s
  | _ => ""
  end.

End Js.

Export Js(value, Undefined, Null, Bool, Number, Str, DateObj,
          JsError, mkError, Result, Ok, Throw).

#[export] Instance Result_bind : MBind Result := fun A B k r => Js.bind r k.
#[export] Instance Result_ret : MRet Result := fun A a => Ok a.

(** ** The driver: faults, ObjectIds and HTTP responses *)

(** The oracle of driver-level failures: [f n] is the error raised by the
    [n]-th external call of the handler, if any. *)
Definition Faults := nat -> option JsError.

Definition no_faults : Faults := fun _ => None.

(** An awaited external call at site [n]: it raises what the oracle holds
    for the site, and yields its result otherwise. *)
Definition await {A} (f : Faults) (n : nat) (r : Result A) : Result A :=
  match f n with
  | Some e => Throw e
  | None => r
  end.

(** [await dbConnect()] of lib/mongodb.js, for the handler that calls it:
    the connection is there, or the call throws. *)
Definition dbConnect (f : Faults) (n : nat) : Result unit := await f n (Ok tt).

Definition isHexDigit (c : ascii) : bool :=
  match Js.hexValue c with Some _ => true | None => false end.

(** The strings every version of Mongoose casts to an ObjectId: 24
    hexadecimal digits.  The handlers are stated for any cast
    ([isObjectId] below); this one serves the sample runs. *)
Definition isObjectIdHex (s : string) : bool :=
  (String.length s =? 24)%nat && Js.forallb_string isHexDigit s.

Definition dquote : string := String (ascii_of_nat 34) EmptyString.

(** Mongoose's [CastError] for a value that is not of the [kind] of its
    path. *)
Definition CastError (kind path : string) : JsError :=
  mkError "CastError" (Some kind) ("Cast to " +:+ kind +:+ " failed at path " +:+ path).

Definition ValidationError (msg : string) : JsError :=
  mkError "ValidationError" None msg.

Definition MongoServerError (msg : string) : JsError :=
  mkError "MongoServerError" None msg.

(** A query that addresses a document by [_id] at call site [n]: Mongoose
    casts the id before anything is sent, and throws a [CastError] when the
    string is no ObjectId. *)
Definition castId (isObjectId : string -> bool) (id : string) : Result unit :=
  if isObjectId id then Ok tt else Throw (CastError "ObjectId" "_id").

Definition byId {A} (isObjectId : string -> bool) (f : Faults) (n : nat)
           (id : string) (hit : A) : Result A :=
  _ ← castId isObjectId id; await f n (Ok hit).

(** An HTTP response: the status and the JSON body.  A failure body is
    [{ error, message?, code? }]; a success body is the payload [D] of the
    route. *)
Inductive Body (D : Type) :=
| Failure (error : string) (message : option string) (code : option string)
| Payload (d : D).
Arguments Failure {D} error message code.
Arguments Payload {D} d.

Record Response (D : Type) := mkResponse {
  status : Z;
  body : Body D
}.
Arguments mkResponse {D} status body.
Arguments status {D} r.
Arguments body {D} r.

(** [res.status(s).json({ error, message })] *)
Definition fail {D} (s : Z) (error message : string) : Response D :=
  mkResponse s (Failure error (Some message) None).

(** A field of a stored document: not in the document at all, present with
    the value [null], or present with a value. *)
Inductive Stored (A : Type) :=
| Missing
| IsNull
| Val (a : A).
Arguments Missing {A}.
Arguments IsNull {A}.
Arguments Val {A} a.

(** ** models/userModel.js *)
Module User.

(** A user document.  [password] is [None] on a document that was loaded
    without the field ([select: false], [.select('-password')]); [version]
    is Mongoose's [__v]. *)
Record Doc := mkDoc {
  _id : string;
  userName : string;
  password : option string;
  firstName : string;
  lastName : string;
  isAdmin : bool;
  homeLocation : option string;
  tokens : option (list string);
  resetPasswordToken : option string;
  resetPasswordExpire : option Z;
  lastLogin : option Z;
  createdAt : Z;
  updatedAt : Z;
  version : option Z
}.

(** [/^[a-zA-Z0-9\-]+$/] *)
Definition userNameChar (c : ascii) : bool :=
  Js.isLower c || Js.isUpper c || Js.isDigit c || (Js.code c =? 45).

Definition userNamePattern (s : string) : bool :=
  negb (String.eqb s "") && Js.forallb_string userNameChar s.

Definition len (s : string) : Z := Z.of_nat (String.length s).

(** The validators of [UserSchema], one message per failing rule, in the
    order of the schema's paths.  They run on the document as the setters
    left it and before the [pre('save')] hook. *)
Definition validators (d : Doc) : list string :=
  (if String.eqb (userName d) "" then ["Username is required"]
   else (if len (userName d) <? 3 then ["Username must be at least 3 characters"] else [])
        ++ (if 30 <? len (userName d) then ["Username cannot exceed 30 characters"] else [])
        ++ (if userNamePattern (userName d) then []
            else ["Username can only contain letters, numbers, and hyphens"]))
  ++ match password d with
     | None => ["Password is required"]
     | Some p =>
         if String.eqb p "" then ["Password is required"]
         else (if len p <? 8 then ["Password must be at least 8 characters"] else [])
              ++ (if 128 <? len p then ["Password must be less than 128 characters"] else [])
     end
  ++ (if String.eqb (firstName d) "" then ["First name is required"]
      else if 50 <? len (firstName d) then ["First name cannot exceed 50 characters"] else [])
  ++ (if String.eqb (lastName d) "" then ["Last name is required"]
      else if 50 <? len (lastName d) then ["Last name cannot exceed 50 characters"] else []).

Fixpoint join (sep : string) (l : list string) : string :=
  match l with
  | [] => ""
  | [x] => x
  | x :: r => x +:+ sep +:+ join sep r
  end.

Definition validate (d : Doc) : Result unit :=
  match validators d with
  | [] => Ok tt
  | msgs => Throw (ValidationError ("User validation failed: " +:+ join ", " msgs))
  end.

Section Hashing.
(** [bcrypt.hash(password, salt)] of bcryptjs. *)
Variable bcrypt_hash : string -> string -> string.

(** [UserSchema.pre('save')]: the password is replaced by its hash when it
    was modified since the document was loaded; [salt] is the value
    [bcrypt.genSalt(12)] produced. *)
Definition preSave (passwordModified : bool) (salt : string) (d : Doc) : Doc :=
  if negb passwordModified then d
  else match password d with
       | Some p =>
           mkDoc (_id d) (userName d) (Some (bcrypt_hash p salt)) (firstName d)
                 (lastName d) (isAdmin d) (homeLocation d) (tokens d)
                 (resetPasswordToken d) (resetPasswordExpire d) (lastLogin d)
                 (createdAt d) (updatedAt d) (version d)
       | None => d
       end.
End Hashing.

(** [this.toObject()]: a plain copy with every loaded field. *)
Definition toObject (d : Doc) : Doc := d.

(** [delete user.password] *)
Definition deletePassword (d : Doc) : Doc :=
  mkDoc (_id d) (userName d) None (firstName d) (lastName d) (isAdmin d)
        (homeLocation d) (tokens d) (resetPasswordToken d)
        (resetPasswordExpire d) (lastLogin d) (createdAt d) (updatedAt d)
        (version d).

(** [delete user.tokens] *)
Definition deleteTokens (d : Doc) : Doc :=
  mkDoc (_id d) (userName d) (password d) (firstName d) (lastName d) (isAdmin d)
        (homeLocation d) None (resetPasswordToken d)
        (resetPasswordExpire d) (lastLogin d) (createdAt d) (updatedAt d)
        (version d).

(** [delete user.resetPasswordToken; delete user.resetPasswordExpire] *)
Definition deleteReset (d : Doc) : Doc :=
  mkDoc (_id d) (userName d) (password d) (firstName d) (lastName d) (isAdmin d)
        (homeLocation d) (tokens d) None None (lastLogin d) (createdAt d)
        (updatedAt d) (version d).

(** [UserSchema.methods.toJSON], which [res.json(document)] goes through. *)
Definition toJSON (d : Doc) : Doc :=
  deleteReset (deleteTokens (deletePassword (toObject d))).

(** [.select('-password -__v')] *)
Definition selectPublic (d : Doc) : Doc :=
  mkDoc (_id d) (userName d) None (firstName d) (lastName d) (isAdmin d)
        (homeLocation d) (tokens d) (resetPasswordToken d)
        (resetPasswordExpire d) (lastLogin d) (createdAt d) (updatedAt d) None.

End User.

(** ** models/passengerModel.js, models/tripModel.js, models/siteModel.js *)
Module Passenger.
Record Doc := mkDoc {
  firstName : string;
  lastName : string;
  jobRole : option string
}.
End Passenger.

Module Trip.
Record Doc := mkDoc {
  passengerId : string;
  fromOrigin : string;
  toDestination : string;
  tripDate : string;
  confirmed : bool;
  numberOfPassengers : Stored Z
}.

(** The validators of [numberOfPassengers]: [min: 1] and the custom one,
    which accepts null and the integers from 1 on. *)
Definition validCount (n : Stored Z) : bool :=
  match n with
  | Missing | IsNull => true
  | Val k => 1 <=? k
  end.
End Trip.

Module Site.
Record Doc := mkDoc {
  siteName : string;
  currentPOB : Z;
  maximumPOB : Z;
  pobUpdatedDate : Z
}.
End Site.

(** The database: one collection per model, keyed by [_id] where the
    handlers address documents by id, and the number of driver sessions
    that are open. *)
Record Db := mkDb {
  users : gmap string User.Doc;
  passengers : gmap string Passenger.Doc;
  trips : gmap string Trip.Doc;
  sites : list Site.Doc;
  openSessions : nat
}.

(** ** The request context and the middleware chain *)
Record Request := mkRequest {
  authorization : option string;
  req_token : option string;
  req_user : option User.Doc;
  req_userId : option string
}.

(** What a middleware does with a request: answer it, or hand it on. *)
Inductive Step :=
| Respond (r : Response unit)
| Next (req : Request).

(** A middleware in general may use the driver and read the database. *)
Definition Middleware := Faults -> Db -> Request -> Step.

(** A middleware that is a function of the request alone. *)
Definition pureMiddleware (m : Request -> Step) : Middleware :=
  fun _ _ req => m req.

(** ** middleware/admin.js *)
Module Admin.

Definition admin (req : Request) : Step :=
  match req_user req with
  | None =>
      Respond (fail 401 "Authentication required"
                    "Please log in to access this resource")
  | Some u =>
      if negb (User.isAdmin u)
      then Respond (fail 403 "Admin access required"
                         "This action requires administrator privileges")
      else Next req
  end.

End Admin.

(** ** middleware/auth.js *)
Module Auth.

Section Auth.
(** [jwt.verify(token, process.env.JWT_SECRET)]: the [_id] of the decoded
    payload, or the error the library throws. *)
Variable jwt_verify : string -> Result string.
(** Whether Mongoose can cast a string to an ObjectId. *)
Variable isObjectId : string -> bool.

Definition reject (error message code : string) : Response unit :=
  mkResponse 401 (Failure error (Some message) (Some code)).

(** The [catch] block. *)
Definition onError (err : JsError) : Response unit :=
  if String.eqb (Js.name err) "JsonWebTokenError"
  then reject "Invalid token" "Malformed JWT token" "JWT_INVALID"
  else if String.eqb (Js.name err) "TokenExpiredError"
  then reject "Token expired" "Please log in again" "JWT_EXPIRED"
  else if String.eqb (Js.name err) "MongooseError" || Js.includes (Js.name err) "Mongo"
  then mkResponse 503 (Failure "Service unavailable"
                               (Some "Database connection issue") (Some "DB_ERROR"))
  else reject "Authentication failed" "Please authenticate" "AUTH_FAILED".

(** The [try] block; call site 0 is [dbConnect], 1 is [User.findById].
    [!authHeader] holds of a header that is not there and of one whose
    value is the empty string. *)
Definition authTry (f : Faults) (db : Db) (req : Request) : Result Step :=
  _ ← dbConnect f 0;
  match authorization req with
  | None =>
      Ok (Respond (fail 401 "Authentication required"
                        "No authorization header provided"))
  | Some authHeader =>
      if String.eqb authHeader ""
      then Ok (Respond (fail 401 "Authentication required"
                             "No authorization header provided"))
      else if negb (Js.startsWith authHeader "Bearer ")
      then Ok (Respond (fail 401 "Invalid token format"
                             ("Authorization header must start with "
                              +:+ dquote +:+ "Bearer " +:+ dquote)))
      else
        let token := Js.trim (Js.replace authHeader "Bearer " "") in
        if String.eqb token ""
        then Ok (Respond (fail 401 "Invalid token"
                               "Token is missing after Bearer prefix"))
        else
          decoded ← jwt_verify token;
          user ← byId isObjectId f 1 decoded
                      (User.selectPublic <$> users db !! decoded);
          match user with
          | None => Ok (Respond (fail 401 "Invalid token" "User not found"))
          | Some u =>
              Ok (Next (mkRequest (authorization req) (Some token) (Some u)
                                  (Some (User._id u))))
          end
  end.

Definition auth : Middleware := fun f db req =>
  match authTry f db req with
  | Ok step => step
  | Throw err => Respond (onError err)
  end.

End Auth.
End Auth.

(** ** The host's [Date] *)
Module JsDate.

Definition msPerDay : Z := 86400000.

(** [TimeClip]: a time value is at most 8.64e15 ms away from the epoch. *)
Definition TimeClip (t : Z) : option Z :=
  if Z.abs t <=? 8640000000000000 then Some t else None.

(** [new Date(v).getTime()], [None] for NaN.  Parsing a string is left to
    the host's [Date.parse]. *)
Definition construct (Date_parse : string -> option Z) (v : value) : option Z :=
  match v with
  | DateObj t => t
  | Undefined => None
  | Null => Some 0
  | Bool b => Some (if b then 1 else 0)
  | Number n => TimeClip n
  | Str s => Date_parse s
  end.

(** Year, month and day of the proleptic Gregorian calendar for a number
    of days since 1970-01-01. *)
Definition civil (days : Z) : Z * Z * Z :=
  let z := days + 719468 in
  let era := z / 146097 in
  let doe := z - era * 146097 in
  let yoe := (doe - doe / 1460 + doe / 36524 - doe / 146096) / 365 in
  let doy := doe - (365 * yoe + yoe / 4 - yoe / 100) in
  let mp := (5 * doy + 2) / 153 in
  let d := doy - (153 * mp + 2) / 5 + 1 in
  let m := if mp <? 10 then mp + 3 else mp - 9 in
  let y := yoe + era * 400 + (if m <=? 2 then 1 else 0) in
  (y, m, d).

Definition digit (n : Z) : ascii := ascii_of_nat (48 + Z.to_nat (n mod 10)).

(** [n] in decimal on [width] digits, zero padded. *)
Fixpoint pad (width : nat) (n : Z) : string :=
  match width with
  | O => EmptyString
  | S w => pad w (n / 10) +:+ String (digit n) EmptyString
  end.

Definition isoYear (y : Z) : string :=
  if (0 <=? y) && (y <=? 9999) then pad 4 y
  else (if y <? 0 then "-" else "+") +:+ pad 6 (Z.abs y).

(** [date.toISOString()] of a valid date: always UTC. *)
Definition toISOString (t : Z) : string :=
  let '(y, m, d) := civil (t / msPerDay) in
  let ms := t mod msPerDay in
  isoYear y +:+ "-" +:+ pad 2 m +:+ "-" +:+ pad 2 d +:+ "T"
  +:+ pad 2 (ms / 3600000) +:+ ":" +:+ pad 2 (ms / 60000 mod 60) +:+ ":"
  +:+ pad 2 (ms / 1000 mod 60) +:+ "." +:+ pad 3 (ms mod 1000) +:+ "Z".

(** [s.split('T')[0]] *)
Fixpoint beforeT (s : string) : string :=
  match s with
  | EmptyString => EmptyString
  | String c r => if Ascii.eqb c "T" then EmptyString else String c (beforeT r)
  end.

End JsDate.

(** ** routes/tripRoutes.js *)
Module TripRoutes.

Inductive Sent :=
| OneTrip (id : string) (t : Trip.Doc)
| ManyTrips (l : list (string * Trip.Doc))
| TripDeleted (id : string).

Definition Reply := Response Sent.

Definition handleError (error : JsError) (customMessage : string) : Reply :=
  if String.eqb (Js.name error) "CastError"
     || match Js.kind error with Some k => String.eqb k "ObjectId" | None => false end
  then fail 400 "Invalid ID format" "Please provide a valid trip ID"
  else if String.eqb (Js.name error) "ValidationError"
  then fail 400 "Validation failed" (Js.message error)
  else if String.eqb (Js.name error) "MongoError" || Js.includes (Js.name error) "Mongo"
  then fail 503 "Database service unavailable" "Please try again later"
  else mkResponse 500 (Failure customMessage None None).

(** [/^\d{4}-\d{2}-\d{2}$/.test(s)] *)
Definition ymdPattern (s : string) : bool :=
  match list_ascii_of_string s with
  | [y1; y2; y3; y4; h1; m1; m2; h2; d1; d2] =>
      Js.isDigit y1 && Js.isDigit y2 && Js.isDigit y3 && Js.isDigit y4
      && Ascii.eqb h1 "-" && Js.isDigit m1 && Js.isDigit m2
      && Ascii.eqb h2 "-" && Js.isDigit d1 && Js.isDigit d2
  | _ => false
  end.

Section Host.
(** [Date.parse] of the JavaScript host, [None] for NaN. *)
Variable Date_parse : string -> option Z.
(** Whether Mongoose can cast a string to an ObjectId. *)
Variable isObjectId : string -> bool.

Definition formatTripDate (dateInput : value) : Result string :=
  let viaDate :=
    match JsDate.construct Date_parse dateInput with
    | None => Throw (Js.Error "Invalid date format")
    | Some t => Ok (JsDate.beforeT (JsDate.toISOString t))
    end in
  match dateInput with
  | Str s => if ymdPattern s then Ok s else viaDate
  | _ => viaDate
  end.

(** The fields a trip body is destructured into. *)
Record TripBody := mkTripBody {
  b_passengerId : value;
  b_fromOrigin : value;
  b_toDestination : value;
  b_tripDate : value;
  b_confirmed : value;
  b_numberOfPassengers : value
}.

(** [a || b] where either side may throw. *)
Definition orElse (a b : Result bool) : Result bool :=
  Js.bind a (fun x : bool => if x then Ok true else b).

(** The "all fields are required" test of POST and PUT. *)
Definition missingField (b : TripBody) : Result bool :=
  orElse (Js.blank (b_passengerId b))
    (orElse (Js.blank (b_fromOrigin b))
       (orElse (Js.blank (b_toDestination b))
          (Ok (negb (Js.ToBoolean (b_tripDate b))
               || match b_confirmed b with Undefined => true | _ => false end)))).

(** [numberOfPassengers !== undefined && numberOfPassengers !== null ?
    parseInt(numberOfPassengers) : null] *)
Inductive CountArg :=
| ArgNull
| ArgNaN
| ArgInt (n : Z)
| ArgInfinity (negative : bool).

Definition countArg (v : value) : CountArg :=
  match v with
  | Undefined | Null => ArgNull
  | _ => match Js.parseInt v with
         | Some (Js.Finite n) => ArgInt n
         | Some (Js.Infinity negative) => ArgInfinity negative
         | None => ArgNaN
         end
  end.

(** [tripData] and [updateData], before Mongoose casts the count. *)
Record TripData := mkTripData {
  d_passengerId : string;
  d_fromOrigin : string;
  d_toDestination : string;
  d_tripDate : string;
  d_confirmed : bool;
  d_numberOfPassengers : CountArg
}.

Definition tripDataOf (b : TripBody) (formattedDate : string) : TripData :=
  mkTripData (Js.trimOf (b_passengerId b)) (Js.trimOf (b_fromOrigin b))
             (Js.trimOf (b_toDestination b)) formattedDate
             (Js.ToBoolean (b_confirmed b)) (countArg (b_numberOfPassengers b)).

Definition missingReply : Reply :=
  fail 400 "Validation failed"
       "All fields (passengerId, fromOrigin, toDestination, tripDate, confirmed) are required".

Definition badDateReply : Reply :=
  fail 400 "Validation failed"
       "Invalid trip date format. Use YYYY-MM-DD format or a valid date string".

Definition notFound : Reply := fail 404 "Not found" "Trip not found".

(** The count as the schema stores it, with the validators of the path. *)
Definition castCount (onNaN : JsError) (c : CountArg) : Result (Stored Z) :=
  match c with
  | ArgNull => Ok IsNull
  | ArgNaN => Throw onNaN
  | ArgInt n =>
      if Trip.validCount (Val n) then Ok (Val n)
      else Throw (ValidationError
                    "Validation failed: numberOfPassengers: Number of passengers must be a positive integer or empty")
  | ArgInfinity _ =>
      Throw (ValidationError
               "Validation failed: numberOfPassengers: Number of passengers must be a positive integer or empty")
  end.

Definition docOf (d : TripData) (n : Stored Z) : Trip.Doc :=
  Trip.mkDoc (d_passengerId d) (d_fromOrigin d) (d_toDestination d)
             (d_tripDate d) (d_confirmed d) n.

Definition setTrips (db : Db) (t : gmap string Trip.Doc) : Db :=
  mkDb (users db) (passengers db) t (sites db) (openSessions db).

(** [new Trip(tripData).save()]; [newId] is the ObjectId the document was
    given.  A count that does not cast surfaces as a validation error. *)
Definition save (f : Faults) (n : nat) (db : Db) (newId : string) (d : TripData)
  : Result (Db * Trip.Doc) :=
  c ← castCount (ValidationError
                   "Trip validation failed: numberOfPassengers: Cast to Number failed")
                (d_numberOfPassengers d);
  _ ← await f n (Ok tt);
  match trips db !! newId with
  | Some _ => Throw (MongoServerError "E11000 duplicate key error")
  | None => Ok (setTrips db (<[newId := docOf d c]> (trips db)), docOf d c)
  end.

(** POST /api/trips *)
Definition createTry (f : Faults) (db : Db) (newId : string) (b : TripBody)
  : Result (Db * Reply) :=
  _ ← dbConnect f 0;
  missing ← missingField b;
  if missing : bool then Ok (db, missingReply)
  else match formatTripDate (b_tripDate b) with
       | Throw _ => Ok (db, badDateReply)
       | Ok formattedDate =>
           '(db', savedTrip) ← save f 1 db newId (tripDataOf b formattedDate);
           Ok (db', mkResponse 201 (Payload (OneTrip newId savedTrip)))
       end.

Definition create (f : Faults) (db : Db) (newId : string) (b : TripBody)
  : Db * Reply :=
  match createTry f db newId b with
  | Ok r => r
  | Throw err => (db, handleError err "Failed to create trip")
  end.

(** GET /api/trips/date/:date *)
Definition byDateTry (f : Faults) (db : Db) (dateParam : string) : Result Reply :=
  _ ← dbConnect f 0;
  match formatTripDate (Str dateParam) with
  | Throw _ =>
      Ok (fail 400 "Validation failed" "Invalid date format. Use YYYY-MM-DD format")
  | Ok queryDate =>
      found ← await f 1
        (Ok (map_to_list
               (filter (fun kt : string * Trip.Doc => Trip.tripDate kt.2 = queryDate)
                       (trips db))));
      Ok (mkResponse 200 (Payload (ManyTrips found)))
  end.

Definition byDate (f : Faults) (db : Db) (dateParam : string) : Reply :=
  match byDateTry f db dateParam with
  | Ok r => r
  | Throw err => handleError err "Failed to fetch trips by date"
  end.

(** PUT /api/trips/:id.  [findByIdAndUpdate] casts the id and the update,
    runs the validators of the paths under [$set], and then replaces the
    six fields of the document the id names. *)
Definition updateTry (f : Faults) (db : Db) (id : string) (b : TripBody)
  : Result (Db * Reply) :=
  _ ← dbConnect f 0;
  missing ← missingField b;
  if missing : bool then Ok (db, missingReply)
  else match formatTripDate (b_tripDate b) with
       | Throw _ => Ok (db, badDateReply)
       | Ok formattedDate =>
           let updateData := tripDataOf b formattedDate in
           _ ← castId isObjectId id;
           c ← castCount (CastError "Number" "numberOfPassengers")
                         (d_numberOfPassengers updateData);
           found ← await f 1 (Ok (trips db !! id));
           match found with
           | None => Ok (db, notFound)
           | Some _ =>
               let updatedTrip := docOf updateData c in
               Ok (setTrips db (<[id := updatedTrip]> (trips db)),
                   mkResponse 200 (Payload (OneTrip id updatedTrip)))
           end
       end.

Definition update (f : Faults) (db : Db) (id : string) (b : TripBody)
  : Db * Reply :=
  match updateTry f db id b with
  | Ok r => r
  | Throw err => (db, handleError err "Failed to update trip")
  end.

(** An update document on the path [numberOfPassengers]:
    [{ $inc: { numberOfPassengers: ... } }], with or without a
    [$setOnInsert: { numberOfPassengers: ... }].  Both counter routes
    send one with. *)
Record CounterUpdate := mkCounterUpdate {
  u_inc : Z;
  u_setOnInsert : option Z
}.

(** Two operators of one update document name the same path.  The server
    refuses such a document when it parses it, before it looks at any
    stored document and whether or not it would upsert. *)
Definition conflicting (u : CounterUpdate) : bool :=
  match u_setOnInsert u with
  | Some _ => true
  | None => false
  end.

Definition conflict : JsError :=
  MongoServerError
    "Updating the path 'numberOfPassengers' would create a conflict at 'numberOfPassengers'".

(** [$inc] on a stored field: a missing field is created at the amount, a
    number is added to, and the server refuses a null. *)
Definition applyInc (amount : Z) (c : Stored Z) : Result (Stored Z) :=
  match c with
  | Missing => Ok (Val amount)
  | IsNull =>
      Throw (MongoServerError "Cannot apply $inc to a value of non-numeric type")
  | Val n => Ok (Val (n + amount))
  end.

(** An update without conflict applied to a document the filter
    matched.  The update validators of [runValidators] do not look at
    [$inc]. *)
Definition applyCounterUpdate (u : CounterUpdate) (t : Trip.Doc) : Result Trip.Doc :=
  c ← applyInc (u_inc u) (Trip.numberOfPassengers t);
  Ok (Trip.mkDoc (Trip.passengerId t) (Trip.fromOrigin t) (Trip.toDestination t)
                 (Trip.tripDate t) (Trip.confirmed t) c).

(** [Trip.findOneAndUpdate({ _id: id, ...filter }, update, { new: true })]
    without upsert, at call site [n].  Mongoose casts the id, the driver
    sends the command, and the server parses the update document: one
    with a conflict is refused with a [MongoServerError], whatever is
    stored.  Otherwise the result is the updated document, or [null]
    when no document has the id and passes the filter. *)
Definition findOneAndUpdate (f : Faults) (n : nat) (db : Db) (id : string)
           (matches : Trip.Doc -> bool) (u : CounterUpdate)
  : Result (Db * option Trip.Doc) :=
  _ ← byId isObjectId f n id tt;
  if conflicting u then Throw conflict
  else
    match trips db !! id with
    | None => Ok (db, None)
    | Some t =>
        if matches t
        then t' ← applyCounterUpdate u t;
             Ok (setTrips db (<[id := t']> (trips db)), Some t')
        else Ok (db, None)
    end.

(** PATCH /api/trips/:id/passengers/increment *)
Definition incrementTry (f : Faults) (db : Db) (id : string) : Result (Db * Reply) :=
  _ ← dbConnect f 0;
  '(db', updatedTrip) ← findOneAndUpdate f 1 db id (fun _ => true)
                                          (mkCounterUpdate 1 (Some 2));
  match updatedTrip with
  | None => Ok (db', notFound)
  | Some t => Ok (db', mkResponse 200 (Payload (OneTrip id t)))
  end.

Definition increment (f : Faults) (db : Db) (id : string) : Db * Reply :=
  match incrementTry f db id with
  | Ok r => r
  | Throw err => (db, handleError err "Failed to increment passengers")
  end.

(** [{ numberOfPassengers: { $gt: 1 } }] *)
Definition gt1 (c : Stored Z) : bool :=
  match c with
  | Val n => 1 <? n
  | Missing | IsNull => false
  end.

(** [{ numberOfPassengers: { $exists: false } }] *)
Definition notExists (c : Stored Z) : bool :=
  match c with
  | Missing => true
  | IsNull | Val _ => false
  end.

(** The [$or] of the decrement's filter. *)
Definition decrementFilter (t : Trip.Doc) : bool :=
  gt1 (Trip.numberOfPassengers t) || notExists (Trip.numberOfPassengers t).

Definition belowOne : Reply :=
  fail 400 "Validation failed" "Number of passengers cannot be less than 1".

(** PATCH /api/trips/:id/passengers/decrement *)
Definition decrementTry (f : Faults) (db : Db) (id : string) : Result (Db * Reply) :=
  _ ← dbConnect f 0;
  '(db', updatedTrip) ← findOneAndUpdate f 1 db id decrementFilter
                                          (mkCounterUpdate (-1) (Some 1));
  match updatedTrip with
  | None => Ok (db', belowOne)
  | Some t => Ok (db', mkResponse 200 (Payload (OneTrip id t)))
  end.

Definition decrement (f : Faults) (db : Db) (id : string) : Db * Reply :=
  match decrementTry f db id with
  | Ok r => r
  | Throw err => (db, handleError err "Failed to decrement passengers")
  end.

End Host.
End TripRoutes.

(** ** routes/passengerRoutes.js *)
Module PassengerRoutes.

(** The body of the successful DELETE: the confirmation and the id. *)
Inductive Sent :=
| PassengerDeleted (message passengerId : string).

Definition Reply := Response Sent.

Definition handleError (error : JsError) (customMessage : string) : Reply :=
  if String.eqb (Js.name error) "CastError"
     || match Js.kind error with Some k => String.eqb k "ObjectId" | None => false end
  then mkResponse 400 (Failure "Invalid ID format" None None)
  else if String.eqb (Js.name error) "ValidationError"
  then mkResponse 400 (Failure (Js.message error) None None)
  else if String.eqb (Js.name error) "MongoError" || Js.includes (Js.name error) "Mongo"
  then mkResponse 503 (Failure "Database service unavailable" None None)
  else mkResponse 500 (Failure customMessage None None).

Definition setPassengers (db : Db) (p : gmap string Passenger.Doc) : Db :=
  mkDb (users db) p (trips db) (sites db) (openSessions db).

(** [mongooseConnection.startSession()] and [session.endSession()] *)
Definition startSession (db : Db) : Db :=
  mkDb (users db) (passengers db) (trips db) (sites db) (S (openSessions db)).

Definition endSession (db : Db) : Db :=
  mkDb (users db) (passengers db) (trips db) (sites db) (Nat.pred (openSessions db)).

(** [session.withTransaction(callback)]: the writes of the callback reach
    the collections when the commit (call site [commitSite]) goes through;
    a throw from the callback or from the commit aborts, and the caller is
    left with the error alone. *)
Definition withTransaction (f : Faults) (commitSite : nat) (db : Db)
           (callback : Db -> Result Db) : Result Db :=
  db' ← callback db;
  await f commitSite (Ok db').

Section Host.
(** Whether Mongoose can cast a string to an ObjectId. *)
Variable isObjectId : string -> bool.
(** The ObjectId a castable string is cast to, as it prints and as the
    passengers are keyed: the cast reads 24 hex digits without regard to
    case, and an ObjectId prints in lower case. *)
Variable objectIdHex : string -> string.

(** [Trip.deleteMany({ passengerId })]: [passengerId] is a [String] in
    the trip schema, so the filter compares strings. *)
Definition deleteTripsOf (passengerId : string) (t : gmap string Trip.Doc)
  : gmap string Trip.Doc :=
  filter (fun kt : string * Trip.Doc => Trip.passengerId kt.2 ≠ passengerId) t.

(** The callback of the transaction; call site 3 is [findById], 4 is
    [deleteMany], 5 is [findByIdAndDelete].  The two queries by [_id]
    cast the parameter to an ObjectId; the filter on the trips takes the
    parameter as it was written. *)
Definition removeInTransaction (f : Faults) (passengerId : string) (db : Db)
  : Result Db :=
  passenger ← byId isObjectId f 3 passengerId
                   (passengers db !! objectIdHex passengerId);
  match passenger with
  | None => Throw (Js.Error "Passenger not found")
  | Some _ =>
      db1 ← await f 4 (Ok (TripRoutes.setTrips db
                             (deleteTripsOf passengerId (trips db))));
      byId isObjectId f 5 passengerId
           (setPassengers db1 (delete (objectIdHex passengerId) (passengers db1)))
  end.

(** The [catch] block. *)
Definition onError (err : JsError) : Reply :=
  if String.eqb (Js.message err) "Passenger not found"
  then fail 404 "Not found" "Passenger not found"
  else handleError err "Failed to delete passenger".

Definition deleted (passengerId : string) : Reply :=
  mkResponse 200
    (Payload (PassengerDeleted "Passenger and associated trips deleted successfully"
                               passengerId)).

(** DELETE /api/passengers/:id.  Call sites 0 and 1 are the two
    [dbConnect], 2 is [startSession], 6 the commit.  The [finally] block
    ends the session when one was started. *)
Definition remove (f : Faults) (db : Db) (passengerId : string) : Db * Reply :=
  match (_ ← dbConnect f 0; _ ← dbConnect f 1; await f 2 (Ok tt)) with
  | Throw err => (db, onError err)
  | Ok _ =>
      let inSession := startSession db in
      let '(after, reply) :=
        match withTransaction f 6 inSession (removeInTransaction f passengerId) with
        | Ok committed => (committed, deleted passengerId)
        | Throw err => (inSession, onError err)
        end in
      (endSession after, reply)
  end.

End Host.
End PassengerRoutes.

(** ** routes/siteRoutes.js *)
Module SiteRoutes.

(** The body of POST /initialize. *)
Record Initialized := mkInitialized {
  i_message : string;
  i_created : nat;
  i_existing : nat;
  i_sites : list Site.Doc
}.

Definition Reply := Response Initialized.

Definition handleError (error : JsError) (customMessage : string) : Reply :=
  if String.eqb (Js.name error) "ValidationError"
  then fail 400 "Validation failed" (Js.message error)
  else if String.eqb (Js.name error) "MongoError" || Js.includes (Js.name error) "Mongo"
  then fail 503 "Database service unavailable" "Please try again later"
  else mkResponse 500 (Failure customMessage None None).

Definition locations : list string := ["Ogle"; "NTM"; "NSC"; "NDT"; "NBD"; "STC"].

Definition defaultMaximumPOB : Z := 200.

(** One [updateOne] of the bulk write: [{ filter: { siteName }, update:
    { $setOnInsert: doc }, upsert: true }]. *)
Record UpdateOne := mkUpdateOne {
  filter_siteName : string;
  setOnInsert : Site.Doc
}.

(** [locations.map(siteName => ...)]; [now] is the clock read by
    [new Date()]. *)
Definition operations (now : Z) : list UpdateOne :=
  map (fun siteName =>
         mkUpdateOne siteName (Site.mkDoc siteName 0 defaultMaximumPOB now))
      locations.

Definition named (siteName : string) (s : Site.Doc) : bool :=
  String.eqb (Site.siteName s) siteName.

(** An upsert whose update has [$setOnInsert] only: a site that matches the
    filter is left as it is, and without a match the document is inserted.
    The boolean tells whether it inserted. *)
Definition updateOne (sites : list Site.Doc) (op : UpdateOne)
  : list Site.Doc * bool :=
  if existsb (named (filter_siteName op)) sites then (sites, false)
  else (sites ++ [setOnInsert op], true).

(** [Site.bulkWrite(operations)]: the collection with the counts of
    upserted and of matched documents. *)
Fixpoint bulkWrite (sites : list Site.Doc) (ops : list UpdateOne)
  : list Site.Doc * (nat * nat) :=
  match ops with
  | [] => (sites, (O, O))
  | op :: rest =>
      let '(sites1, inserted) := updateOne sites op in
      let '(sites2, (upserted, matched)) := bulkWrite sites1 rest in
      if inserted then (sites2, (S upserted, matched))
      else (sites2, (upserted, S matched))
  end.

Fixpoint insertSorted (s : Site.Doc) (l : list Site.Doc) : list Site.Doc :=
  match l with
  | [] => [s]
  | x :: r =>
      if String.leb (Site.siteName s) (Site.siteName x) then s :: l
      else x :: insertSorted s r
  end.

(** [.sort({ siteName: 1 })] *)
Definition sortBySiteName (l : list Site.Doc) : list Site.Doc :=
  fold_right insertSorted [] l.

Definition setSites (db : Db) (s : list Site.Doc) : Db :=
  mkDb (users db) (passengers db) (trips db) s (openSessions db).

(** POST /api/sites/initialize; call site 0 is [dbConnect], 1 the bulk
    write, 2 the [find]. *)
Definition initializeTry (f : Faults) (now : Z) (db : Db) : Result (Db * Reply) :=
  _ ← dbConnect f 0;
  _ ← await f 1 (Ok tt);
  let '(sites', (upsertedCount, matchedCount)) :=
    bulkWrite (sites db) (operations now) in
  Ok (setSites db sites',
      match await f 2 (Ok (sortBySiteName sites')) with
      | Ok found =>
          mkResponse 201 (Payload (mkInitialized "Sites initialized successfully"
                                                 upsertedCount matchedCount found))
      | Throw err => handleError err "Failed to initialize sites"
      end).

Definition initialize (f : Faults) (now : Z) (db : Db) : Db * Reply :=
  match initializeTry f now db with
  | Ok r => r
  | Throw err => (db, handleError err "Failed to initialize sites")
  end.

End SiteRoutes.

(** ** routes/userRoutes.js *)
Module UserRoutes.

Inductive Sent :=
| UserObject (u : User.Doc)
| LoggedIn (u : User.Doc) (token : string).

Definition Reply := Response Sent.

Definition handleError (error : JsError) (customMessage : string) : Reply :=
  if String.eqb (Js.name error) "CastError"
     || match Js.kind error with Some k => String.eqb k "ObjectId" | None => false end
  then fail 400 "Invalid ID format" "Please provide a valid user ID"
  else if String.eqb (Js.name error) "ValidationError"
  then fail 400 "Validation failed" (Js.message error)
  else if String.eqb (Js.name error) "MongoError" || Js.includes (Js.name error) "Mongo"
  then fail 503 "Database service unavailable" "Please try again later"
  else mkResponse 500 (Failure customMessage None None).

Record RegisterBody := mkRegisterBody {
  r_userName : value;
  r_password : value;
  r_firstName : value;
  r_lastName : value;
  r_homeLocation : value;
  r_isAdmin : value
}.

Record LoginBody := mkLoginBody {
  l_userName : value;
  l_password : value
}.

(** What the handlers read from their surroundings: the ObjectId given to
    a new document, the clock, and the salt [bcrypt.genSalt] draws. *)
Record Ambient := mkAmbient {
  newId : string;
  now : Z;
  salt : string
}.

Definition setUsers (db : Db) (u : gmap string User.Doc) : Db :=
  mkDb u (passengers db) (trips db) (sites db) (openSessions db).

(** Some stored user whose [userName] is exactly [wanted]. *)
Definition withUserName (users : gmap string User.Doc) (wanted : string)
  : option User.Doc :=
  snd <$> head (map_to_list
                  (filter (fun kv : string * User.Doc => User.userName kv.2 = wanted)
                          users)).

(** [User.findOne({ userName })]; the filter value goes through the
    setters of the path ([trim], [lowercase]).  The hit is loaded without
    its password unless [withPassword]. *)
Definition findOne (users : gmap string User.Doc) (userName : string)
           (withPassword : bool) : option User.Doc :=
  (if withPassword then id else User.deletePassword)
  <$> withUserName users (Js.toLowerCase (Js.trim userName)).

(** [v?.trim() || fallback] *)
Definition trimOr (v : value) (fallback : string) : Result string :=
  o ← Js.optTrim v;
  Ok (match o with
      | Some t => if String.eqb t "" then fallback else t
      | None => fallback
      end).

Definition validation (message : string) : Reply :=
  fail 400 "Validation failed" message.

Section Host.
Variable bcrypt_hash : string -> string -> string.
(** [bcrypt.compare(candidate, hash)] *)
Variable bcrypt_compare : string -> string -> bool.
(** [jwt.sign({ _id, isAdmin }, secret, { expiresIn: '30d' })] at a time,
    and whether [process.env.JWT_SECRET] is set. *)
Variable jwt_sign : string -> bool -> Z -> string.
Variable jwt_secret_set : bool.

(** [newUser.save()] of a new document: the validators, the
    [pre('save')] hook, then the insert (call site [n]), which the unique
    indexes on [_id] and [userName] can refuse. *)
Definition saveNew (f : Faults) (n : nat) (db : Db) (env : Ambient) (d : User.Doc)
  : Result (Db * User.Doc) :=
  _ ← User.validate d;
  let hashed := User.preSave bcrypt_hash true (salt env) d in
  _ ← await f n (Ok tt);
  match users db !! User._id hashed, withUserName (users db) (User.userName hashed) with
  | None, None => Ok (setUsers db (<[User._id hashed := hashed]> (users db)), hashed)
  | _, _ => Throw (MongoServerError "E11000 duplicate key error")
  end.

(** [new User({ ... })]: the object literal, then the setters of the
    schema ([trim], [lowercase]) and the defaults. *)
Definition newUser (env : Ambient) (b : RegisterBody) : Result User.Doc :=
  firstName ← trimOr (r_firstName b) "";
  lastName ← trimOr (r_lastName b) "";
  homeLocation ← trimOr (r_homeLocation b) "NSC";
  Ok (User.mkDoc (newId env)
                 (Js.toLowerCase (Js.trim (Js.trimOf (r_userName b))))
                 (Some (Js.trimOf (r_password b)))
                 (Js.trim firstName) (Js.trim lastName)
                 (Js.ToBoolean (r_isAdmin b) || false)
                 (Some (Js.trim homeLocation))
                 (Some []) None None None (now env) (now env) (Some 0)).

Definition passwordLength (v : value) : Z :=
  match v with
  | Str s => User.len s
  | _ => 0
  end.

(** POST /api/users/register; call site 0 is [dbConnect], 1 the
    [findOne], 2 the insert. *)
Definition registerTry (f : Faults) (db : Db) (env : Ambient) (b : RegisterBody)
  : Result (Db * Reply) :=
  _ ← dbConnect f 0;
  missing ← TripRoutes.orElse (Js.blank (r_userName b)) (Js.blank (r_password b));
  if missing : bool
  then Ok (db, validation "Username and password are required")
  else if negb (User.userNamePattern (Js.trimOf (r_userName b)))
  then Ok (db, validation "Username can only contain letters, numbers, and hyphens")
  else if passwordLength (r_password b) <? 8
  then Ok (db, validation "Password must be at least 8 characters long")
  else
    existingUser ← await f 1 (Ok (findOne (users db) (Js.trimOf (r_userName b)) false));
    match existingUser with
    | Some _ => Ok (db, validation "Username already exists")
    | None =>
        created ← newUser env b;
        '(db', savedUser) ← saveNew f 2 db env created;
        let userToReturn := User.deletePassword (User.toObject savedUser) in
        Ok (db', mkResponse 201 (Payload (UserObject userToReturn)))
    end.

Definition register (f : Faults) (db : Db) (env : Ambient) (b : RegisterBody)
  : Db * Reply :=
  match registerTry f db env b with
  | Ok r => r
  | Throw err => (db, handleError err "Failed to register user")
  end.

Definition setLastLogin (d : User.Doc) (t : Z) : User.Doc :=
  User.mkDoc (User._id d) (User.userName d) (User.password d) (User.firstName d)
             (User.lastName d) (User.isAdmin d) (User.homeLocation d)
             (User.tokens d) (User.resetPasswordToken d)
             (User.resetPasswordExpire d) (Some t) (User.createdAt d) t
             (User.version d).

(** [this.tokens = this.tokens.concat({ token })] and what the save that
    follows does to the document: an array that was replaced makes
    Mongoose increment [__v], from 0 when the document has none. *)
Definition addToken (d : User.Doc) (token : string) (t : Z) : User.Doc :=
  User.mkDoc (User._id d) (User.userName d) (User.password d) (User.firstName d)
             (User.lastName d) (User.isAdmin d) (User.homeLocation d)
             (Some (default [] (User.tokens d) ++ [token]))
             (User.resetPasswordToken d) (User.resetPasswordExpire d)
             (User.lastLogin d) (User.createdAt d) t
             (Some (Z.succ (default 0 (User.version d)))).

(** [user.save()] of a loaded document whose password was not touched:
    the validators, the hook (which returns at once), the write. *)
Definition saveLoaded (f : Faults) (n : nat) (db : Db) (env : Ambient) (d : User.Doc)
  : Result Db :=
  _ ← User.validate d;
  let kept := User.preSave bcrypt_hash false (salt env) d in
  _ ← await f n (Ok tt);
  Ok (setUsers db (<[User._id kept := kept]> (users db))).

(** [UserSchema.methods.comparePassword] *)
Definition comparePassword (d : User.Doc) (candidatePassword : string) : bool :=
  match User.password d with
  | None => false
  | Some h => if String.eqb h "" then false else bcrypt_compare candidatePassword h
  end.

(** [UserSchema.methods.generateAuthToken]; the save is call site [n]. *)
Definition generateAuthToken (f : Faults) (n : nat) (db : Db) (env : Ambient)
           (d : User.Doc) : Result (Db * User.Doc * string) :=
  if negb jwt_secret_set
  then Throw (Js.Error "JWT_SECRET is not defined in environment variables")
  else
    let token := jwt_sign (User._id d) (User.isAdmin d) (now env) in
    let d' := addToken d token (now env) in
    db' ← saveLoaded f n db env d';
    Ok (db', d', token).

Definition invalidCredentials : Reply :=
  fail 401 "Authentication failed" "Invalid credentials".

(** POST /api/users/login; call site 0 is [dbConnect], 1 the [findOne], 2
    and 3 the two saves. *)
Definition loginTry (f : Faults) (db : Db) (env : Ambient) (b : LoginBody)
  : Result (Db * Reply) :=
  _ ← dbConnect f 0;
  missing ← TripRoutes.orElse (Js.blank (l_userName b)) (Js.blank (l_password b));
  if missing : bool
  then Ok (db, validation "Username and password are required")
  else
    found ← await f 1 (Ok (findOne (users db) (Js.trimOf (l_userName b)) true));
    match found with
    | None => Ok (db, invalidCredentials)
    | Some user =>
        if negb (comparePassword user (match l_password b with Str s => s | _ => "" end))
        then Ok (db, invalidCredentials)
        else
          let user1 := setLastLogin user (now env) in
          db1 ← saveLoaded f 2 db env user1;
          match generateAuthToken f 3 db1 env user1 with
          | Throw err => Ok (db1, handleError err "Failed to login user")
          | Ok (db2, user2, token) =>
              let userToReturn :=
                User.deleteTokens (User.deletePassword (User.toObject user2)) in
              Ok (db2, mkResponse 200 (Payload (LoggedIn userToReturn token)))
          end
    end.

Definition login (f : Faults) (db : Db) (env : Ambient) (b : LoginBody)
  : Db * Reply :=
  match loginTry f db env b with
  | Ok r => r
  | Throw err => (db, handleError err "Failed to login user")
  end.

(** [res.json(user)] of a user document: [JSON.stringify] calls the
    document's [toJSON].  This is how GET and PUT /me, GET /users,
    GET /users/:id and PUT /users/:id answer. *)
Definition sendUser (d : User.Doc) : Reply :=
  mkResponse 200 (Payload (UserObject (User.toJSON d))).

End Host.
End UserRoutes.

(** ** Sorting, as a query's [.sort({ ... })] orders its result *)
Module Sort.
Section Sort.
Context {A : Type}.
(** [le a b]: [a] may come before [b]. *)
Variable le : A -> A -> bool.

Fixpoint insertBy (x : A) (l : list A) : list A :=
  match l with
  | [] => [x]
  | y :: r => if le x y then x :: l else y :: insertBy x r
  end.

Definition sortBy (l : list A) : list A := fold_right insertBy [] l.
End Sort.
End Sort.

(** ** Express: a route is a chain of middlewares and a handler *)
Module Express.

(** The middlewares in order; the first that answers ends the request. *)
Fixpoint chain (ms : list Middleware) (f : Faults) (db : Db) (req : Request) : Step :=
  match ms with
  | [] => Next req
  | m :: rest =>
      match m f db req with
      | Respond r => Respond r
      | Next req' => chain rest f db req'
      end
  end.

(** What the client gets: the answer of a middleware, or the handler's. *)
Inductive Routed (D : Type) :=
| Rejected (r : Response unit)
| Handled (r : Response D).
Arguments Rejected {D} r.
Arguments Handled {D} r.

(** [router.verb(path, middlewares, handler)]; the middlewares call the
    driver through [fm], and the handler gets the request they leave. *)
Definition route {D} (ms : list Middleware) (fm : Faults)
           (handler : Request -> Db -> Db * Response D) (db : Db) (req : Request)
  : Db * Routed D :=
  match chain ms fm db req with
  | Respond r => (db, Rejected r)
  | Next req' => let '(db', r) := handler req' db in (db', Handled r)
  end.

End Express.

(** ** middleware/auth.js: the optional variant *)
Module AuthOptional.
Section Host.
Variable jwt_verify : string -> Result string.
Variable isObjectId : string -> bool.

(** The [try] block of [auth.optional]: the request as it leaves the
    block.  Call site 0 is [dbConnect], 1 is [User.findById]. *)
Definition optionalTry (f : Faults) (db : Db) (req : Request) : Result Request :=
  match authorization req with
  | None => Ok req
  | Some authHeader =>
      if negb (String.eqb authHeader "") && Js.startsWith authHeader "Bearer "
      then
        let token := Js.trim (Js.replace authHeader "Bearer " "") in
        decoded ← jwt_verify token;
        _ ← dbConnect f 0;
        user ← byId isObjectId f 1 decoded
                    (User.selectPublic <$> users db !! decoded);
        match user with
        | Some u =>
            Ok (mkRequest (authorization req) (Some token) (Some u)
                          (Some (User._id u)))
        | None => Ok req
        end
      else Ok req
  end.

(** [auth.optional]: whatever the block did, [next()] is called. *)
Definition optional : Middleware := fun f db req =>
  match optionalTry f db req with
  | Ok req' => Next req'
  | Throw _ => Next req
  end.

End Host.
End AuthOptional.

(** ** lib/mongodb.js *)
Module Connection.
Section Connection.
(** The connected [mongoose] that [mongoose.connect] resolves to. *)
Variable Conn : Type.

(** [cached]: the connection, and the promise of one with the outcome it
    settles to. *)
Record Cached := mkCached {
  conn : option Conn;
  promise : option (Result Conn)
}.

Definition empty : Cached := mkCached None None.

(** [connectDB()], where a [mongoose.connect] started now would settle to
    [outcome]: the cache afterwards, what the caller gets, and whether
    [mongoose.connect] was called. *)
Definition connectDB (outcome : Result Conn) (cached : Cached)
  : Cached * Result Conn * bool :=
  match conn cached with
  | Some c => (cached, Ok c, false)
  | None =>
      let '(p, called) :=
        match promise cached with
        | Some p => (p, false)
        | None => (outcome, true)
        end in
      match p with
      | Ok c => (mkCached (Some c) (Some p), Ok c, called)
      | Throw error => (mkCached None None, Throw error, called)
      end
  end.

(** The handlers of the connection's 'error' and 'disconnected' events. *)
Definition onError (cached : Cached) : Cached := mkCached None None.
Definition onDisconnected (cached : Cached) : Cached := mkCached None None.

End Connection.
End Connection.

(** ** routes/tripRoutes.js: the queries *)
Module TripQueries.
Section Host.
Variable isObjectId : string -> bool.

(** [{ tripDate: -1 }]: the later date first.  The trip schema has no
    [createdAt], so a second key [createdAt] orders nothing. *)
Definition byTripDateDesc (a b : string * Trip.Doc) : bool :=
  String.leb (Trip.tripDate b.2) (Trip.tripDate a.2).

(** GET /api/trips *)
Definition indexTry (f : Faults) (db : Db) : Result TripRoutes.Reply :=
  _ ← dbConnect f 0;
  found ← await f 1 (Ok (Sort.sortBy byTripDateDesc (map_to_list (trips db))));
  Ok (mkResponse 200 (Payload (TripRoutes.ManyTrips found))).

Definition index (f : Faults) (db : Db) : TripRoutes.Reply :=
  match indexTry f db with
  | Ok r => r
  | Throw err => TripRoutes.handleError err "Failed to fetch trips"
  end.

(** GET /api/trips/:id *)
Definition getTry (f : Faults) (db : Db) (id : string) : Result TripRoutes.Reply :=
  _ ← dbConnect f 0;
  trip ← byId isObjectId f 1 id (trips db !! id);
  match trip with
  | None => Ok TripRoutes.notFound
  | Some t => Ok (mkResponse 200 (Payload (TripRoutes.OneTrip id t)))
  end.

Definition get (f : Faults) (db : Db) (id : string) : TripRoutes.Reply :=
  match getTry f db id with
  | Ok r => r
  | Throw err => TripRoutes.handleError err "Failed to fetch trip"
  end.

(** [Trip.find({ passengerId })] *)
Definition tripsOf (passengerId : string) (t : gmap string Trip.Doc)
  : gmap string Trip.Doc :=
  filter (fun kt : string * Trip.Doc => Trip.passengerId kt.2 = passengerId) t.

(** GET /api/trips/passenger/:passengerId *)
Definition ofPassengerTry (f : Faults) (db : Db) (passengerId : string)
  : Result TripRoutes.Reply :=
  _ ← dbConnect f 0;
  if String.eqb (Js.trim passengerId) ""
  then Ok (fail 400 "Validation failed" "Passenger ID is required")
  else
    found ← await f 1
      (Ok (Sort.sortBy byTripDateDesc
             (map_to_list (tripsOf (Js.trim passengerId) (trips db)))));
    match found with
    | [] => Ok (fail 404 "Not found" "No trips found for this passenger")
    | _ => Ok (mkResponse 200 (Payload (TripRoutes.ManyTrips found)))
    end.

Definition ofPassenger (f : Faults) (db : Db) (passengerId : string)
  : TripRoutes.Reply :=
  match ofPassengerTry f db passengerId with
  | Ok r => r
  | Throw err => TripRoutes.handleError err "Failed to fetch passenger trips"
  end.

End Host.
End TripQueries.

(** ** routes/tripRoutes.js: confirm, delete and set the count *)
Module TripEdits.
Section Host.
Variable isObjectId : string -> bool.

Definition withConfirmed (t : Trip.Doc) (c : bool) : Trip.Doc :=
  Trip.mkDoc (Trip.passengerId t) (Trip.fromOrigin t) (Trip.toDestination t)
             (Trip.tripDate t) c (Trip.numberOfPassengers t).

Definition withCount (t : Trip.Doc) (n : Stored Z) : Trip.Doc :=
  Trip.mkDoc (Trip.passengerId t) (Trip.fromOrigin t) (Trip.toDestination t)
             (Trip.tripDate t) (Trip.confirmed t) n.

(** [Trip.findByIdAndUpdate(id, { $set: ... }, { new: true })] with a
    [$set] that passes the validators: the document with the change, or
    [null].  Call site [n]. *)
Definition findByIdAndSet (f : Faults) (n : nat) (db : Db) (id : string)
           (change : Trip.Doc -> Trip.Doc) : Result (Db * option Trip.Doc) :=
  found ← byId isObjectId f n id (trips db !! id);
  match found with
  | None => Ok (db, None)
  | Some t =>
      Ok (TripRoutes.setTrips db (<[id := change t]> (trips db)), Some (change t))
  end.

(** PATCH /api/trips/:id/confirm *)
Definition confirmTry (f : Faults) (db : Db) (id : string) (confirmed : value)
  : Result (Db * TripRoutes.Reply) :=
  _ ← dbConnect f 0;
  match confirmed with
  | Undefined => Ok (db, fail 400 "Validation failed" "Confirmed field is required")
  | _ =>
      '(db', updatedTrip) ←
        findByIdAndSet f 1 db id (fun t => withConfirmed t (Js.ToBoolean confirmed));
      match updatedTrip with
      | None => Ok (db', TripRoutes.notFound)
      | Some t => Ok (db', mkResponse 200 (Payload (TripRoutes.OneTrip id t)))
      end
  end.

Definition confirm (f : Faults) (db : Db) (id : string) (confirmed : value)
  : Db * TripRoutes.Reply :=
  match confirmTry f db id confirmed with
  | Ok r => r
  | Throw err => (db, TripRoutes.handleError err "Failed to confirm trip")
  end.

(** DELETE /api/trips/:id *)
Definition removeTry (f : Faults) (db : Db) (id : string)
  : Result (Db * TripRoutes.Reply) :=
  _ ← dbConnect f 0;
  deletedTrip ← byId isObjectId f 1 id (trips db !! id);
  match deletedTrip with
  | None => Ok (db, TripRoutes.notFound)
  | Some _ =>
      Ok (TripRoutes.setTrips db (delete id (trips db)),
          mkResponse 200 (Payload (TripRoutes.TripDeleted id)))
  end.

Definition remove (f : Faults) (db : Db) (id : string) : Db * TripRoutes.Reply :=
  match removeTry f db id with
  | Ok r => r
  | Throw err => (db, TripRoutes.handleError err "Failed to delete trip")
  end.

(** PATCH /api/trips/:id/passengers/set.  An infinity that [parseInt]
    returns is neither NaN nor below 1; the validators of the update
    refuse it. *)
Definition setCountTry (f : Faults) (db : Db) (id : string)
           (numberOfPassengers : value) : Result (Db * TripRoutes.Reply) :=
  _ ← dbConnect f 0;
  match numberOfPassengers with
  | Undefined | Null =>
      Ok (db, fail 400 "Validation failed" "numberOfPassengers field is required")
  | _ =>
      match Js.parseInt numberOfPassengers with
      | None | Some (Js.Infinity true) =>
          Ok (db, fail 400 "Validation failed"
                       "numberOfPassengers must be a positive integer")
      | Some (Js.Finite passengerCount) =>
          if passengerCount <? 1
          then Ok (db, fail 400 "Validation failed"
                            "numberOfPassengers must be a positive integer")
          else
            '(db', updatedTrip) ←
              findByIdAndSet f 1 db id (fun t => withCount t (Val passengerCount));
            match updatedTrip with
            | None => Ok (db', TripRoutes.notFound)
            | Some t => Ok (db', mkResponse 200 (Payload (TripRoutes.OneTrip id t)))
            end
      | Some (Js.Infinity false) =>
          _ ← castId isObjectId id;
          Throw (ValidationError
                   "Validation failed: numberOfPassengers: Number of passengers must be a positive integer or empty")
      end
  end.

Definition setCount (f : Faults) (db : Db) (id : string) (numberOfPassengers : value)
  : Db * TripRoutes.Reply :=
  match setCountTry f db id numberOfPassengers with
  | Ok r => r
  | Throw err => (db, TripRoutes.handleError err "Failed to set passengers")
  end.

End Host.
End TripEdits.

(** ** routes/passengerRoutes.js: create, read and update *)
Module PassengerCrud.

Inductive Sent :=
| OnePassenger (id : string) (p : Passenger.Doc)
| ManyPassengers (l : list (string * Passenger.Doc)).

Definition Reply := Response Sent.

(** [handleError] of the file, for the bodies of these routes. *)
Definition handleError (error : JsError) (customMessage : string) : Reply :=
  if String.eqb (Js.name error) "CastError"
     || match Js.kind error with Some k => String.eqb k "ObjectId" | None => false end
  then mkResponse 400 (Failure "Invalid ID format" None None)
  else if String.eqb (Js.name error) "ValidationError"
  then mkResponse 400 (Failure (Js.message error) None None)
  else if String.eqb (Js.name error) "MongoError" || Js.includes (Js.name error) "Mongo"
  then mkResponse 503 (Failure "Database service unavailable" None None)
  else mkResponse 500 (Failure customMessage None None).

Record PassengerBody := mkPassengerBody {
  b_firstName : value;
  b_lastName : value;
  b_jobRole : value
}.

Definition namesRequired : Reply :=
  fail 400 "Validation failed"
       "First name and last name are required and cannot be empty".

Definition notFound : Reply := fail 404 "Not found" "Passenger not found".

(** [!firstName?.trim() || !lastName?.trim()] *)
Definition missingName (b : PassengerBody) : Result bool :=
  TripRoutes.orElse (Js.blank (b_firstName b)) (Js.blank (b_lastName b)).

(** POST /api/passengers; [newId] is the ObjectId of the new document.
    Call site 0 is [dbConnect], 1 the insert. *)
Definition createTry (f : Faults) (db : Db) (newId : string) (b : PassengerBody)
  : Result (Db * Reply) :=
  _ ← dbConnect f 0;
  missing ← missingName b;
  if missing : bool then Ok (db, namesRequired)
  else
    jobRole ← UserRoutes.trimOr (b_jobRole b) "";
    let newPassenger :=
      Passenger.mkDoc (Js.trimOf (b_firstName b)) (Js.trimOf (b_lastName b))
                      (Some jobRole) in
    _ ← await f 1 (Ok tt);
    match passengers db !! newId with
    | Some _ => Throw (MongoServerError "E11000 duplicate key error")
    | None =>
        Ok (PassengerRoutes.setPassengers db (<[newId := newPassenger]> (passengers db)),
            mkResponse 201 (Payload (OnePassenger newId newPassenger)))
    end.

Definition create (f : Faults) (db : Db) (newId : string) (b : PassengerBody)
  : Db * Reply :=
  match createTry f db newId b with
  | Ok r => r
  | Throw err => (db, handleError err "Failed to create passenger")
  end.

(** [{ firstName: 1, lastName: 1 }] *)
Definition byName (a b : string * Passenger.Doc) : bool :=
  match String.compare (Passenger.firstName a.2) (Passenger.firstName b.2) with
  | Lt => true
  | Gt => false
  | Eq => String.leb (Passenger.lastName a.2) (Passenger.lastName b.2)
  end.

(** GET /api/passengers *)
Definition indexTry (f : Faults) (db : Db) : Result Reply :=
  _ ← dbConnect f 0;
  found ← await f 1 (Ok (Sort.sortBy byName (map_to_list (passengers db))));
  Ok (mkResponse 200 (Payload (ManyPassengers found))).

Definition index (f : Faults) (db : Db) : Reply :=
  match indexTry f db with
  | Ok r => r
  | Throw err => handleError err "Failed to fetch passengers"
  end.

Section Host.
Variable isObjectId : string -> bool.

(** GET /api/passengers/:id *)
Definition getTry (f : Faults) (db : Db) (id : string) : Result Reply :=
  _ ← dbConnect f 0;
  passenger ← byId isObjectId f 1 id (passengers db !! id);
  match passenger with
  | None => Ok notFound
  | Some p => Ok (mkResponse 200 (Payload (OnePassenger id p)))
  end.

Definition get (f : Faults) (db : Db) (id : string) : Reply :=
  match getTry f db id with
  | Ok r => r
  | Throw err => handleError err "Failed to fetch passenger"
  end.

(** [...(jobRole !== undefined && { jobRole: jobRole?.trim() || '' })]:
    the new job role, when the update has one. *)
Definition jobRoleUpdate (v : value) : Result (option string) :=
  match v with
  | Undefined => Ok None
  | _ => j ← UserRoutes.trimOr v ""; Ok (Some j)
  end.

(** PUT /api/passengers/:id *)
Definition updateTry (f : Faults) (db : Db) (id : string) (b : PassengerBody)
  : Result (Db * Reply) :=
  _ ← dbConnect f 0;
  missing ← missingName b;
  if missing : bool then Ok (db, namesRequired)
  else
    jobRole ← jobRoleUpdate (b_jobRole b);
    found ← byId isObjectId f 1 id (passengers db !! id);
    match found with
    | None => Ok (db, notFound)
    | Some old =>
        let updatedPassenger :=
          Passenger.mkDoc (Js.trimOf (b_firstName b)) (Js.trimOf (b_lastName b))
                          (match jobRole with
                           | Some j => Some j
                           | None => Passenger.jobRole old
                           end) in
        Ok (PassengerRoutes.setPassengers db
              (<[id := updatedPassenger]> (passengers db)),
            mkResponse 200 (Payload (OnePassenger id updatedPassenger)))
    end.

Definition update (f : Faults) (db : Db) (id : string) (b : PassengerBody)
  : Db * Reply :=
  match updateTry f db id b with
  | Ok r => r
  | Throw err => (db, handleError err "Failed to update passenger")
  end.

Section Guarded.
Variable jwt_verify : string -> Result string.
Variable objectIdHex : string -> string.

(** [[auth, admin]] *)
Definition adminOnly : list Middleware :=
  [Auth.auth jwt_verify isObjectId; pureMiddleware Admin.admin].

(** The three writes as the router mounts them, behind [auth] and
    [admin]; [fm] is the driver of the middlewares, [f] the handler's. *)
Definition postRoute (fm f : Faults) (newId : string) (b : PassengerBody)
  : Db -> Request -> Db * Express.Routed Sent :=
  Express.route adminOnly fm (fun _ db => create f db newId b).

Definition putRoute (fm f : Faults) (id : string) (b : PassengerBody)
  : Db -> Request -> Db * Express.Routed Sent :=
  Express.route adminOnly fm (fun _ db => update f db id b).

Definition deleteRoute (fm f : Faults) (id : string)
  : Db -> Request -> Db * Express.Routed PassengerRoutes.Sent :=
  Express.route adminOnly fm
                (fun _ db => PassengerRoutes.remove isObjectId objectIdHex f db id).

End Guarded.
End Host.
End PassengerCrud.

(** ** routes/siteRoutes.js: read a site, list the sites, update a site *)
Module SiteEdits.

Inductive Sent :=
| OneSite (s : Site.Doc)
| ManySites (l : list Site.Doc).

Definition Reply := Response Sent.

(** [handleError] of the file, for the bodies of these routes. *)
Definition handleError (error : JsError) (customMessage : string) : Reply :=
  if String.eqb (Js.name error) "ValidationError"
  then fail 400 "Validation failed" (Js.message error)
  else if String.eqb (Js.name error) "MongoError" || Js.includes (Js.name error) "Mongo"
  then fail 503 "Database service unavailable" "Please try again later"
  else mkResponse 500 (Failure customMessage None None).

(** GET /api/sites *)
Definition indexTry (f : Faults) (db : Db) : Result Reply :=
  _ ← dbConnect f 0;
  found ← await f 1 (Ok (SiteRoutes.sortBySiteName (sites db)));
  Ok (mkResponse 200 (Payload (ManySites found))).

Definition index (f : Faults) (db : Db) : Reply :=
  match indexTry f db with
  | Ok r => r
  | Throw err => handleError err "Failed to fetch sites"
  end.

Definition nameRequired : Reply := fail 400 "Validation failed" "Site name is required".

Definition noSuchSite (siteName : string) : Reply :=
  fail 404 "Not found" ("Site '" +:+ siteName +:+ "' not found").

(** GET /api/sites/:siteName; [Site.findOne({ siteName })] is the first
    site of that name. *)
Definition getTry (f : Faults) (db : Db) (siteName : string) : Result Reply :=
  _ ← dbConnect f 0;
  if String.eqb (Js.trim siteName) "" then Ok nameRequired
  else
    site ← await f 1 (Ok (List.find (SiteRoutes.named (Js.trim siteName)) (sites db)));
    match site with
    | None => Ok (noSuchSite siteName)
    | Some s => Ok (mkResponse 200 (Payload (OneSite s)))
    end.

Definition get (f : Faults) (db : Db) (siteName : string) : Reply :=
  match getTry f db siteName with
  | Ok r => r
  | Throw err => handleError err "Failed to fetch site"
  end.

(** [Number.isInteger(v)], with the integer; the numbers of [value] are
    the integers, so every number passes. *)
Definition integerOf (v : value) : option Z :=
  match v with
  | Number n => Some n
  | _ => None
  end.

(** [updateData] of PUT /:siteName: the fields the [$set] carries. *)
Record SiteUpdate := mkSiteUpdate {
  u_maximumPOB : option Z;
  u_currentPOB : option Z;
  u_pobUpdatedDate : option Z
}.

Definition applyUpdate (u : SiteUpdate) (s : Site.Doc) : Site.Doc :=
  Site.mkDoc (Site.siteName s)
             (default (Site.currentPOB s) (u_currentPOB u))
             (default (Site.maximumPOB s) (u_maximumPOB u))
             (default (Site.pobUpdatedDate s) (u_pobUpdatedDate u)).

(** [Site.findOneAndUpdate({ siteName }, { $set: updateData }, { new: true })]
    without upsert: the first site of the name is updated. *)
Fixpoint findOneAndUpdate (siteName : string) (u : SiteUpdate) (l : list Site.Doc)
  : option (list Site.Doc * Site.Doc) :=
  match l with
  | [] => None
  | s :: rest =>
      if SiteRoutes.named siteName s
      then Some (applyUpdate u s :: rest, applyUpdate u s)
      else match findOneAndUpdate siteName u rest with
           | Some (rest', updated) => Some (s :: rest', updated)
           | None => None
           end
  end.

Definition badMaximum : Reply :=
  fail 400 "Validation failed" "maximumPOB must be a positive integer".

Definition badCurrent : Reply :=
  fail 400 "Validation failed" "currentPOB must be a non-negative integer".

(** The checks of PUT /:siteName on the body: the update, or the answer
    of the first check that fails.  [now] is the clock of [new Date()]. *)
Definition checkUpdate (now : Z) (maximumPOB currentPOB : value)
  : Reply + SiteUpdate :=
  match
    match maximumPOB with
    | Undefined => inr None
    | _ => match integerOf maximumPOB with
           | Some n => if n <=? 0 then inl badMaximum else inr (Some n)
           | None => inl badMaximum
           end
    end
  with
  | inl r => inl r
  | inr newMaximum =>
      match
        match currentPOB with
        | Undefined => inr None
        | _ => match integerOf currentPOB with
               | Some n => if n <? 0 then inl badCurrent else inr (Some n)
               | None => inl badCurrent
               end
        end
      with
      | inl r => inl r
      | inr newCurrent =>
          match newMaximum, newCurrent with
          | None, None => inl (fail 400 "Validation failed" "No valid fields to update")
          | _, _ =>
              inr (mkSiteUpdate newMaximum newCurrent
                                (match newCurrent with
                                 | Some _ => Some now
                                 | None => None
                                 end))
          end
      end
  end.

(** PUT /api/sites/:siteName *)
Definition updateTry (f : Faults) (now : Z) (db : Db) (siteName : string)
           (maximumPOB currentPOB : value) : Result (Db * Reply) :=
  _ ← dbConnect f 0;
  if String.eqb (Js.trim siteName) "" then Ok (db, nameRequired)
  else match checkUpdate now maximumPOB currentPOB with
       | inl r => Ok (db, r)
       | inr updateData =>
           updatedSite ← await f 1
             (Ok (findOneAndUpdate (Js.trim siteName) updateData (sites db)));
           match updatedSite with
           | None => Ok (db, noSuchSite siteName)
           | Some (sites', s) =>
               Ok (SiteRoutes.setSites db sites', mkResponse 200 (Payload (OneSite s)))
           end
       end.

Definition update (f : Faults) (now : Z) (db : Db) (siteName : string)
           (maximumPOB currentPOB : value) : Db * Reply :=
  match updateTry f now db siteName maximumPOB currentPOB with
  | Ok r => r
  | Throw err => (db, handleError err "Failed to update site")
  end.

End SiteEdits.

(** ** routes/userRoutes.js: the deletion of a user *)
Module UserAdmin.

(** [{ message: 'User deleted successfully', userName }] *)
Inductive Sent :=
| UserDeleted (userName : string).

Definition Reply := Response Sent.

(** [handleError] of the file, for the body of this route. *)
Definition handleError (error : JsError) (customMessage : string) : Reply :=
  if String.eqb (Js.name error) "CastError"
     || match Js.kind error with Some k => String.eqb k "ObjectId" | None => false end
  then fail 400 "Invalid ID format" "Please provide a valid user ID"
  else if String.eqb (Js.name error) "ValidationError"
  then fail 400 "Validation failed" (Js.message error)
  else if String.eqb (Js.name error) "MongoError" || Js.includes (Js.name error) "Mongo"
  then fail 503 "Database service unavailable" "Please try again later"
  else mkResponse 500 (Failure customMessage None None).

Section Host.
Variable isObjectId : string -> bool.

(** The handler of DELETE /api/users/:id *)
Definition removeTry (f : Faults) (db : Db) (id : string) : Result (Db * Reply) :=
  _ ← dbConnect f 0;
  deletedUser ← byId isObjectId f 1 id (users db !! id);
  match deletedUser with
  | None => Ok (db, fail 404 "Not found" "User not found")
  | Some u =>
      Ok (UserRoutes.setUsers db (delete id (users db)),
          mkResponse 200 (Payload (UserDeleted (User.userName u))))
  end.

Definition remove (f : Faults) (db : Db) (id : string) : Db * Reply :=
  match removeTry f db id with
  | Ok r => r
  | Throw err => (db, handleError err "Failed to delete user")
  end.

(** DELETE /api/users/:id as the router mounts it, behind [auth] and
    [admin]. *)
Definition deleteRoute (jwt_verify : string -> Result string) (fm f : Faults)
           (id : string) : Db -> Request -> Db * Express.Routed Sent :=
  Express.route [Auth.auth jwt_verify isObjectId; pureMiddleware Admin.admin] fm
                (fun _ db => remove f db id).

End Host.
End UserAdmin.

(** ** routes/userRoutes.js: the reads *)
Module UserReads.

(** What [res.json] sends: one user, or an array of users, each through
    its [toJSON]. *)
Inductive Sent :=
| OneUser (u : User.Doc)
| ManyUsers (l : list User.Doc).

Definition Reply := Response Sent.

(** [handleError] of the file, for the bodies of these routes. *)
Definition handleError (error : JsError) (customMessage : string) : Reply :=
  if String.eqb (Js.name error) "CastError"
     || match Js.kind error with Some k => String.eqb k "ObjectId" | None => false end
  then fail 400 "Invalid ID format" "Please provide a valid user ID"
  else if String.eqb (Js.name error) "ValidationError"
  then fail 400 "Validation failed" (Js.message error)
  else if String.eqb (Js.name error) "MongoError" || Js.includes (Js.name error) "Mongo"
  then fail 503 "Database service unavailable" "Please try again later"
  else mkResponse 500 (Failure customMessage None None).

Definition notFound : Reply := fail 404 "Not found" "User not found".

(** [res.json(user)] *)
Definition sendOne (d : User.Doc) : Reply :=
  mkResponse 200 (Payload (OneUser (User.toJSON d))).

(** The handler of GET /api/users/me.  [req.user._id] is the ObjectId of
    a loaded document, so [findById] has nothing to cast; without a
    [req.user] the property access throws. *)
Definition meTry (f : Faults) (db : Db) (req : Request) : Result Reply :=
  _ ← dbConnect f 0;
  match req_user req with
  | None => Throw (Js.TypeError "Cannot read properties of undefined (reading '_id')")
  | Some me =>
      user ← await f 1 (Ok (User.deletePassword <$> users db !! User._id me));
      match user with
      | None => Ok notFound
      | Some u => Ok (sendOne u)
      end
  end.

Definition me (f : Faults) (db : Db) (req : Request) : Reply :=
  match meTry f db req with
  | Ok r => r
  | Throw err => handleError err "Failed to fetch user profile"
  end.

(** [{ userName: 1 }] *)
Definition byUserName (a b : User.Doc) : bool :=
  String.leb (User.userName a) (User.userName b).

(** The handler of GET /api/users *)
Definition indexTry (f : Faults) (db : Db) : Result Reply :=
  _ ← dbConnect f 0;
  found ← await f 1
    (Ok (Sort.sortBy byUserName
           (map (fun kv : string * User.Doc => User.deletePassword kv.2)
                (map_to_list (users db)))));
  Ok (mkResponse 200 (Payload (ManyUsers (map User.toJSON found)))).

Definition index (f : Faults) (db : Db) : Reply :=
  match indexTry f db with
  | Ok r => r
  | Throw err => handleError err "Failed to fetch users"
  end.

Section Host.
Variable isObjectId : string -> bool.

(** The handler of GET /api/users/:id *)
Definition getTry (f : Faults) (db : Db) (id : string) : Result Reply :=
  _ ← dbConnect f 0;
  user ← byId isObjectId f 1 id (User.deletePassword <$> users db !! id);
  match user with
  | None => Ok notFound
  | Some u => Ok (sendOne u)
  end.

Definition get (f : Faults) (db : Db) (id : string) : Reply :=
  match getTry f db id with
  | Ok r => r
  | Throw err => handleError err "Failed to fetch user"
  end.

(** GET /api/users/me as the router mounts it, behind [auth]. *)
Definition meRoute (jwt_verify : string -> Result string) (fm f : Faults)
  : Db -> Request -> Db * Express.Routed Sent :=
  Express.route [Auth.auth jwt_verify isObjectId] fm (fun req db => (db, me f db req)).

(** GET /api/users and GET /api/users/:id, behind [auth] and [admin]. *)
Definition indexRoute (jwt_verify : string -> Result string) (fm f : Faults)
  : Db -> Request -> Db * Express.Routed Sent :=
  Express.route [Auth.auth jwt_verify isObjectId; pureMiddleware Admin.admin] fm
                (fun _ db => (db, index f db)).

Definition getRoute (jwt_verify : string -> Result string) (fm f : Faults) (id : string)
  : Db -> Request -> Db * Express.Routed Sent :=
  Express.route [Auth.auth jwt_verify isObjectId; pureMiddleware Admin.admin] fm
                (fun _ db => (db, get f db id)).

End Host.
End UserReads.

(** * Observations used in the statements *)

(** The status a middleware answered with, if it answered. *)
Definition answered (s : Step) : option Z :=
  match s with
  | Respond r => Some (status r)
  | Next _ => None
  end.

(** The token the authentication middleware extracts from a header. *)
Definition bearerToken (authHeader : string) : string :=
  Js.trim (Js.replace authHeader "Bearer " "").

Definition nonBlankString (v : value) : bool :=
  match v with
  | Str s => negb (String.eqb (Js.trim s) "")
  | _ => false
  end.

(** The required fields of a trip body are there: three strings that are
    not blank, a truthy date and a [confirmed] that is defined. *)
Definition requiredPresent (b : TripRoutes.TripBody) : bool :=
  nonBlankString (TripRoutes.b_passengerId b)
  && nonBlankString (TripRoutes.b_fromOrigin b)
  && nonBlankString (TripRoutes.b_toDestination b)
  && Js.ToBoolean (TripRoutes.b_tripDate b)
  && negb match TripRoutes.b_confirmed b with Undefined => true | _ => false end.

(** The count of a trip body is left out, null, or an integer from 1 on. *)
Definition countAccepted (b : TripRoutes.TripBody) : bool :=
  match TripRoutes.countArg (TripRoutes.b_numberOfPassengers b) with
  | TripRoutes.ArgNull => true
  | TripRoutes.ArgNaN | TripRoutes.ArgInfinity _ => false
  | TripRoutes.ArgInt n => 1 <=? n
  end.

(** A string of the shape dddd-dd-dd. *)
Definition ymdShaped (v : value) : bool :=
  match v with
  | Str s => TripRoutes.ymdPattern s
  | _ => false
  end.

(** The instants of the UTC day 2024-01-05. *)
Definition onJan5 (t : Z) : Prop := 1704412800000 <= t < 1704499200000.


(** Whether the body of an answer of the user routes has a [password]
    field. *)
Definition exposesPassword (r : UserRoutes.Reply) : bool :=
  match body r with
  | Payload (UserRoutes.UserObject u) | Payload (UserRoutes.LoggedIn u _) =>
      match User.password u with
      | Some _ => true
      | None => false
      end
  | Failure _ _ _ => false
  end.

(** A registration that the route and the schema accept: the username and
    the password are strings that are not blank, the username has the
    allowed characters, the password has 8 characters or more, the
    document [d] the body yields passes the validators of the schema, and
    neither its name nor its id is in use. *)
Definition validRegistration (db : Db) (env : UserRoutes.Ambient)
           (b : UserRoutes.RegisterBody) (d : User.Doc) : Prop :=
  nonBlankString (UserRoutes.r_userName b) = true
  /\ nonBlankString (UserRoutes.r_password b) = true
  /\ User.userNamePattern (Js.trimOf (UserRoutes.r_userName b)) = true
  /\ 8 <= UserRoutes.passwordLength (UserRoutes.r_password b)
  /\ UserRoutes.newUser env b = Ok d
  /\ User.validators d = []
  /\ UserRoutes.withUserName (users db) (User.userName d) = None
  /\ users db !! UserRoutes.newId env = None.

(** The list is in the order [le]: every element may come before every
    later one. *)
Definition inOrder {A} (le : A -> A -> bool) (l : list A) : Prop :=
  StronglySorted (fun a b => le a b = true) l.

(** Every stored count is [null] or an integer from 1 on. *)
Definition countsValid (db : Db) : Prop :=
  forall id t, trips db !! id = Some t ->
    Trip.numberOfPassengers t = IsNull
    \/ exists n, Trip.numberOfPassengers t = Val n /\ 1 <= n.

(** A call of one of the routes that write trips, with the driver it
    meets. *)
Inductive TripCall :=
| CallCreate (f : Faults) (newId : string) (b : TripRoutes.TripBody)
| CallUpdate (f : Faults) (id : string) (b : TripRoutes.TripBody)
| CallConfirm (f : Faults) (id : string) (confirmed : value)
| CallDelete (f : Faults) (id : string)
| CallSetCount (f : Faults) (id : string) (numberOfPassengers : value)
| CallIncrement (f : Faults) (id : string)
| CallDecrement (f : Faults) (id : string).

(** The database after a call. *)
Definition perform (Date_parse : string -> option Z) (isObjectId : string -> bool)
           (db : Db) (c : TripCall) : Db :=
  match c with
  | CallCreate f newId b => (TripRoutes.create Date_parse f db newId b).1
  | CallUpdate f id b => (TripRoutes.update Date_parse isObjectId f db id b).1
  | CallConfirm f id v => (TripEdits.confirm isObjectId f db id v).1
  | CallDelete f id => (TripEdits.remove isObjectId f db id).1
  | CallSetCount f id v => (TripEdits.setCount isObjectId f db id v).1
  | CallIncrement f id => (TripRoutes.increment isObjectId f db id).1
  | CallDecrement f id => (TripRoutes.decrement isObjectId f db id).1
  end.

(** Every site has a current POB that is not negative and a maximum POB
    above 0. *)
Definition pobBounds (l : list Site.Doc) : Prop :=
  Forall (fun s => 0 <= Site.currentPOB s /\ 0 < Site.maximumPOB s) l.

(** Every user is stored under its own [_id]. *)
Definition wellKeyed (db : Db) : Prop :=
  forall k u, users db !! k = Some u -> User._id u = k.


(** The request carries a bearer token that [jwt.verify] accepts and that
    names a stored user who is an administrator. *)
Definition adminProven (jwt_verify : string -> Result string) (db : Db)
           (req : Request) : Prop :=
  exists h uid u,
    authorization req = Some h /\ Js.startsWith h "Bearer " = true
    /\ jwt_verify (bearerToken h) = Ok uid
    /\ users db !! uid = Some u /\ User.isAdmin u = true.

(** An outcome that respects the guard: a request that is not proven to
    come from an administrator is answered 401, 403 or 503 by a
    middleware and leaves the database as it is. *)
Definition guardedOutcome {D} (jwt_verify : string -> Result string) (db : Db)
           (req : Request) (out : Db * Express.Routed D) : Prop :=
  match out.2 with
  | Express.Rejected r =>
      out.1 = db /\ (status r = 401 \/ status r = 403 \/ status r = 503)
  | Express.Handled _ => adminProven jwt_verify db req
  end.

(** No two sites have one name. *)
Definition distinctNames (l : list Site.Doc) : Prop :=
  NoDup (map Site.siteName l).

(** A call of one of the two site routes modelled here that write, with
    the driver and the clock it meets. *)
Inductive SiteCall :=
| CallInitialize (f : Faults) (now : Z)
| CallSiteUpdate (f : Faults) (now : Z) (siteName : string)
                 (maximumPOB currentPOB : value).

Definition performSite (db : Db) (c : SiteCall) : Db :=
  match c with
  | CallInitialize f now => (SiteRoutes.initialize f now db).1
  | CallSiteUpdate f now siteName maximumPOB currentPOB =>
      (SiteEdits.update f now db siteName maximumPOB currentPOB).1
  end.

(** The order of [{ siteName: 1 }]. *)
Definition bySiteName (a b : Site.Doc) : bool :=
  String.leb (Site.siteName a) (Site.siteName b).

(** No two users have one [userName]. *)
Definition uniqueNames (db : Db) : Prop :=
  forall k1 k2 u1 u2,
    users db !! k1 = Some u1 -> users db !! k2 = Some u2 ->
    User.userName u1 = User.userName u2 -> k1 = k2.

(** [u'] is the account [u] with, at most, other tokens, other times of
    the last login and the last update, and another [__v]. *)
Definition sameAccount (u u' : User.Doc) : Prop :=
  User._id u' = User._id u /\ User.userName u' = User.userName u
  /\ User.password u' = User.password u /\ User.isAdmin u' = User.isAdmin u
  /\ User.firstName u' = User.firstName u /\ User.lastName u' = User.lastName u
  /\ User.homeLocation u' = User.homeLocation u
  /\ User.resetPasswordToken u' = User.resetPasswordToken u
  /\ User.resetPasswordExpire u' = User.resetPasswordExpire u
  /\ User.createdAt u' = User.createdAt u.

(** The password a login body submits, as [comparePassword] gets it. *)
Definition submitted (v : value) : string :=
  match v with
  | Str s => s
  | _ => ""
  end.

(** A call of one of the routes that write users, with the driver and
    the surroundings it meets. *)
Inductive UserCall :=
| CallRegister (f : Faults) (env : UserRoutes.Ambient) (b : UserRoutes.RegisterBody)
| CallLogin (f : Faults) (env : UserRoutes.Ambient) (b : UserRoutes.LoginBody)
| CallDeleteUser (f : Faults) (id : string).

Definition performUser (bcrypt_hash : string -> string -> string)
           (bcrypt_compare : string -> string -> bool)
           (jwt_sign : string -> bool -> Z -> string) (jwt_secret_set : bool)
           (isObjectId : string -> bool) (db : Db) (c : UserCall) : Db :=
  match c with
  | CallRegister f env b => (UserRoutes.register bcrypt_hash f db env b).1
  | CallLogin f env b =>
      (UserRoutes.login bcrypt_hash bcrypt_compare jwt_sign jwt_secret_set f db env b).1
  | CallDeleteUser f id => (UserAdmin.remove isObjectId f db id).1
  end.

(** From [db] to [db'] no account came or went, and each is the same
    account as before. *)
Definition accountsKept (db db' : Db) : Prop :=
  forall k,
    match users db !! k, users db' !! k with
    | Some u, Some u' => sameAccount u u'
    | None, None => True
    | _, _ => False
    end.

(** A user object shows none of the fields [toJSON] removes. *)
Definition discreet (u : User.Doc) : Prop :=
  User.password u = None /\ User.tokens u = None
  /\ User.resetPasswordToken u = None /\ User.resetPasswordExpire u = None.

(** An answer of the user reads shows no such field of any user. *)
Definition discreetReply (r : UserReads.Reply) : Prop :=
  match body r with
  | Payload (UserReads.OneUser u) => discreet u
  | Payload (UserReads.ManyUsers l) => Forall discreet l
  | Failure _ _ _ => True
  end.

(** * Sample data *)

(** A [jwt.verify] that knows one token, of the user [507f1f77bcf86cd799439011]. *)
Definition sampleVerify (token : string) : Result string :=
  if String.eqb token "good" then Ok "507f1f77bcf86cd799439011"
  else Throw (mkError "JsonWebTokenError" None "jwt malformed").

Definition emptyDb : Db := mkDb ∅ ∅ ∅ [] 0.

(** A driver that cannot reach the database. *)
Definition databaseDown : Faults :=
  fun n => match n with
           | O => Some (mkError "MongooseServerSelectionError" None
                                "connect ECONNREFUSED 127.0.0.1:27017")
           | S _ => None
           end.

Definition sampleTripId : string := "665f1c2ab7e4a90d3c5e8f10".

Definition tripWith (count : Stored Z) : Trip.Doc :=
  Trip.mkDoc "665f1c2ab7e4a90d3c5e8f01" "NSC" "Ogle" "2024-01-05" true count.

(** A database with one trip, of the given count. *)
Definition dbWithTrip (count : Stored Z) : Db :=
  mkDb ∅ ∅ {[ sampleTripId := tripWith count ]} [] 0.

Definition tripBody (date count : value) : TripRoutes.TripBody :=
  TripRoutes.mkTripBody (Str "665f1c2ab7e4a90d3c5e8f01") (Str "NSC") (Str "Ogle")
                        date (Bool true) count.

(** A [Date.parse] that knows one timestamp, and one that knows none. *)
Definition sampleParse (s : string) : option Z :=
  if String.eqb s "2024-01-05T10:30:00.000Z" then Some 1704450600000 else None.

Definition noParse (s : string) : option Z := None.

(** The creation of a trip in the empty database. *)
Definition sampleCreation : Db * TripRoutes.Reply :=
  TripRoutes.create sampleParse no_faults emptyDb sampleTripId
                    (tripBody (Str "2024-01-05") (Number 3)).

(** A stand-in for [bcrypt.hash] with two outputs. *)
Definition sampleHash (p s : string) : string :=
  if String.eqb p "$2a$12$first" then "$2a$12$second" else "$2a$12$first".

Definition sampleRegistration : UserRoutes.RegisterBody :=
  UserRoutes.mkRegisterBody (Str "Alice-01") (Str "correct horse") (Str "Alice")
                            (Str "Liddell") Undefined (Bool true).

Definition sampleEnv : UserRoutes.Ambient :=
  UserRoutes.mkAmbient "665f1c2ab7e4a90d3c5e8f20" 1704450600000 "$2a$12$saltsaltsaltsaltsaltsa".

(** The document [new User] makes of the sample registration. *)
Definition sampleUser : User.Doc :=
  User.mkDoc "665f1c2ab7e4a90d3c5e8f20" "alice-01" (Some "correct horse") "Alice"
             "Liddell" true (Some "NSC") (Some []) None None None
             1704450600000 1704450600000 (Some 0).

(** A second trip, of another passenger, a day later. *)
Definition otherTripId : string := "665f1c2ab7e4a90d3c5e8f11".

Definition laterTrip : Trip.Doc :=
  Trip.mkDoc "665f1c2ab7e4a90d3c5e8f02" "NTM" "STC" "2024-01-06" false IsNull.

Definition dbWithTwoTrips : Db :=
  mkDb ∅ ∅ {[ sampleTripId := tripWith (Val 2); otherTripId := laterTrip ]} [] 0.

(** A stand-in for bcrypt that keeps the password readable, and one for
    [jwt.sign]. *)
Definition toyHash (p s : string) : string := "$2a$12$" +:+ p.

Definition toyCompare (candidate h : string) : bool :=
  String.eqb h ("$2a$12$" +:+ candidate).

Definition toySign (id : string) (isAdmin : bool) (t : Z) : string := "jwt." +:+ id.

(** An administrator, stored under the id the sample token names. *)
Definition adminId : string := "507f1f77bcf86cd799439011".

Definition adminUser : User.Doc :=
  User.mkDoc adminId "root-01" (Some "$2a$12$s3cret-pass") "Root" "Admin" true
             (Some "NSC") (Some []) None None None 1704450600000 1704450600000 (Some 0).

Definition dbWithAdmin : Db := mkDb {[ adminId := adminUser ]} ∅ ∅ [] 0.

Definition goodRequest : Request := mkRequest (Some "Bearer good") None None None.

Definition samplePassengerId : string := "665f1c2ab7e4a90d3c5e8f01".

Definition storedPassenger : Passenger.Doc := Passenger.mkDoc "Ada" "Byron" (Some "Driller").

Definition dbWithPassenger : Db :=
  mkDb ∅ {[ samplePassengerId := storedPassenger ]} ∅ [] 0.

(** A body that renames the passenger and says nothing of the job role. *)
Definition passengerBody : PassengerCrud.PassengerBody :=
  PassengerCrud.mkPassengerBody (Str " Ada ") (Str "Lovelace") Undefined.

Definition twoSites : list Site.Doc :=
  [Site.mkDoc "STC" 3 200 1704450600000; Site.mkDoc "NSC" 12 150 1704450600000].

Definition dbWithSites : Db := mkDb ∅ ∅ ∅ twoSites 0.

(** * Proofs *)

Import TripRoutes(b_passengerId, b_fromOrigin, b_toDestination, b_tripDate,
                  b_confirmed, b_numberOfPassengers).

Ltac run :=
  unfold mbind, Result_bind, mret, Result_ret, Js.bind, dbConnect, byId,
    castId, await in *.

(** ** The authorization middleware *)

(** C5: [admin] answers 401 when no identity is attached to the request,
    403 when the attached identity is not an administrator, and hands the
    request on unchanged otherwise; as a middleware it is a function of the
    request alone, so its result is the same under every driver and every
    database. *)
Theorem admin_gate (f f' : Faults) (db db' : Db) (req : Request) :
  (req_user req = None -> answered (Admin.admin req) = Some 401)
  /\ (forall u, req_user req = Some u -> User.isAdmin u = false ->
                answered (Admin.admin req) = Some 403)
  /\ (forall u, req_user req = Some u -> User.isAdmin u = true ->
                Admin.admin req = Next req)
  /\ pureMiddleware Admin.admin f db req = pureMiddleware Admin.admin f' db' req.
Proof.
  unfold Admin.admin.
  repeat split.
  - intros Hnone. now rewrite Hnone.
  - intros u Hsome Hflag. now rewrite Hsome, Hflag.
  - intros u Hsome Hflag. now rewrite Hsome, Hflag.
Qed.

(** ** The authentication middleware *)
Section AuthSpec.
Variable jwt_verify : string -> Result string.
Variable isObjectId : string -> bool.

Local Abbreviation auth := (Auth.auth jwt_verify isObjectId).

Lemma auth_no_header f db req :
  f 0%nat = None ->
  authorization req = None \/ authorization req = Some "" ->
  auth f db req =
    Respond (fail 401 "Authentication required" "No authorization header provided").
Proof.
  intros Hdb Hhdr. unfold Auth.auth, Auth.authTry. run. rewrite Hdb.
  destruct Hhdr as [-> | ->]; reflexivity.
Qed.

Lemma startsWith_nonempty h : Js.startsWith h "Bearer " = true -> String.eqb h "" = false.
Proof. destruct h; [discriminate | reflexivity]. Qed.

Lemma auth_bad_format f db req h :
  f 0%nat = None ->
  authorization req = Some h -> h <> "" -> Js.startsWith h "Bearer " = false ->
  auth f db req =
    Respond (fail 401 "Invalid token format"
                  ("Authorization header must start with "
                   +:+ dquote +:+ "Bearer " +:+ dquote)).
Proof.
  intros Hdb Hhdr Hne Hpre. unfold Auth.auth, Auth.authTry. run.
  rewrite Hdb, Hhdr.
  destruct (String.eqb_spec h "") as [Heq | _]; [contradiction |].
  now rewrite Hpre.
Qed.

(** The header passed the first two checks and carries a token. *)
Lemma auth_with_token f db req h :
  f 0%nat = None ->
  authorization req = Some h -> Js.startsWith h "Bearer " = true ->
  bearerToken h <> "" ->
  auth f db req =
    match
      Js.bind (jwt_verify (bearerToken h)) (fun decoded =>
        Js.bind (byId isObjectId f 1 decoded
                      (User.selectPublic <$> users db !! decoded))
          (fun user =>
             match user with
             | None => Ok (Respond (fail 401 "Invalid token" "User not found"))
             | Some u =>
                 Ok (Next (mkRequest (authorization req) (Some (bearerToken h))
                                     (Some u) (Some (User._id u))))
             end))
    with
    | Ok step => step
    | Throw err => Respond (Auth.onError err)
    end.
Proof.
  intros Hdb Hhdr Hpre Htok. unfold Auth.auth, Auth.authTry. run.
  rewrite Hdb, Hhdr, (startsWith_nonempty _ Hpre), Hpre. simpl negb. cbv iota.
  fold (bearerToken h).
  destruct (String.eqb_spec (bearerToken h) "") as [Heq | _]; [contradiction |].
  reflexivity.
Qed.

(** C4, as amended: with the database reachable, [auth] stops at the first
    failing check, in this order: no [Authorization] header or an empty
    one; a non-empty header without the [Bearer ] prefix; no token after
    the prefix; a token that [jwt.verify] refuses, the invalid one
    answered differently from the expired one; a verified token whose
    user is not stored.  Each answer is a 401.  When every check passes
    the request goes on with the token, the user loaded without the
    password, and the user's id. *)
Theorem auth_checks (f : Faults) (db : Db) (req : Request) (Hdb : f 0%nat = None) :
  (authorization req = None \/ authorization req = Some "" ->
   auth f db req =
     Respond (fail 401 "Authentication required" "No authorization header provided"))
  /\ (forall h, authorization req = Some h -> h <> "" ->
        Js.startsWith h "Bearer " = false ->
        auth f db req =
          Respond (fail 401 "Invalid token format"
                        ("Authorization header must start with "
                         +:+ dquote +:+ "Bearer " +:+ dquote)))
  /\ (forall h, authorization req = Some h -> Js.startsWith h "Bearer " = true ->
        bearerToken h = "" ->
        auth f db req =
          Respond (fail 401 "Invalid token" "Token is missing after Bearer prefix"))
  /\ (forall h e, authorization req = Some h -> Js.startsWith h "Bearer " = true ->
        bearerToken h <> "" -> jwt_verify (bearerToken h) = Throw e ->
        (Js.name e = "JsonWebTokenError" ->
         auth f db req =
           Respond (Auth.reject "Invalid token" "Malformed JWT token" "JWT_INVALID"))
        /\ (Js.name e = "TokenExpiredError" ->
            auth f db req =
              Respond (Auth.reject "Token expired" "Please log in again" "JWT_EXPIRED")))
  /\ Auth.reject "Invalid token" "Malformed JWT token" "JWT_INVALID"
     <> Auth.reject "Token expired" "Please log in again" "JWT_EXPIRED"
  /\ (forall h uid, authorization req = Some h -> Js.startsWith h "Bearer " = true ->
        bearerToken h <> "" -> jwt_verify (bearerToken h) = Ok uid ->
        isObjectId uid = true -> f 1%nat = None ->
        match users db !! uid with
        | None =>
            auth f db req = Respond (fail 401 "Invalid token" "User not found")
        | Some u =>
            auth f db req =
              Next (mkRequest (authorization req) (Some (bearerToken h))
                              (Some (User.selectPublic u)) (Some (User._id u)))
            /\ User.password (User.selectPublic u) = None
        end).
Proof.
  split; [now apply auth_no_header |].
  split; [intros h; now apply auth_bad_format |].
  split.
  { intros h Hhdr Hpre Htok. unfold Auth.auth, Auth.authTry. run.
    rewrite Hdb, Hhdr, (startsWith_nonempty _ Hpre), Hpre. simpl negb. cbv iota.
    fold (bearerToken h). now rewrite Htok. }
  split.
  { intros h e Hhdr Hpre Htok Hjwt.
    rewrite (auth_with_token f db req h Hdb Hhdr Hpre Htok), Hjwt.
    unfold Js.bind, Auth.onError.
    split; intros ->; reflexivity. }
  split; [discriminate |].
  intros h uid Hhdr Hpre Htok Hjwt Hoid Hq.
  rewrite (auth_with_token f db req h Hdb Hhdr Hpre Htok), Hjwt.
  run. rewrite Hoid, Hq.
  destruct (users db !! uid) as [u |]; simpl; [split |]; reflexivity.
Qed.

End AuthSpec.

Lemma auth_checks_witness :
  no_faults 0%nat = None
  /\ Auth.auth sampleVerify isObjectIdHex no_faults emptyDb
       (mkRequest (Some "Basic dXNlcjpwdw==") None None None)
     = Respond (fail 401 "Invalid token format"
                     ("Authorization header must start with "
                      +:+ dquote +:+ "Bearer " +:+ dquote)).
Proof.
  split; [reflexivity |].
  destruct (auth_checks sampleVerify isObjectIdHex no_faults emptyDb
              (mkRequest (Some "Basic dXNlcjpwdw==") None None None) eq_refl)
    as (_ & Hformat & _).
  apply (Hformat "Basic dXNlcjpwdw=="); [reflexivity | discriminate | reflexivity].
Defined.

(** C4 as stated fails on a header that is present and empty: it has no
    [Bearer ] prefix, and the answer is "Authentication required", not
    "Invalid token format".  It also fails while the database cannot be
    reached: [dbConnect] comes before every check, and a request without
    header is then answered 503. *)
Lemma auth_empty_header_counterexample :
  ~ (forall (f : Faults) (db : Db) (req : Request) (h : string),
       f 0%nat = None -> authorization req = Some h ->
       Js.startsWith h "Bearer " = false ->
       Auth.auth sampleVerify isObjectIdHex f db req =
         Respond (fail 401 "Invalid token format"
                       ("Authorization header must start with "
                        +:+ dquote +:+ "Bearer " +:+ dquote)))
  /\ answered (Auth.auth sampleVerify isObjectIdHex databaseDown emptyDb
                         (mkRequest None None None None)) = Some 503.
Proof.
  split; [| reflexivity].
  intros Hclaim.
  specialize (Hclaim no_faults emptyDb (mkRequest (Some "") None None None) ""
                     eq_refl eq_refl eq_refl).
  discriminate Hclaim.
Qed.

(** ** The trip routes *)
Lemma trip_handleError_status err msg :
  status (TripRoutes.handleError err msg) = 400
  \/ status (TripRoutes.handleError err msg) = 503
  \/ status (TripRoutes.handleError err msg) = 500.
Proof.
  unfold TripRoutes.handleError.
  repeat match goal with |- context [if ?c then _ else _] => destruct c end;
    simpl; auto.
Qed.

Lemma trip_handleError_not_200 err msg : status (TripRoutes.handleError err msg) <> 200.
Proof. destruct (trip_handleError_status err msg) as [-> | [-> | ->]]; discriminate. Qed.

Lemma trip_handleError_not_201 err msg : status (TripRoutes.handleError err msg) <> 201.
Proof. destruct (trip_handleError_status err msg) as [-> | [-> | ->]]; discriminate. Qed.

Section TripSpec.
Variable Date_parse : string -> option Z.
Variable isObjectId : string -> bool.

Local Abbreviation increment := (TripRoutes.increment isObjectId).
Local Abbreviation decrement := (TripRoutes.decrement isObjectId).
Local Abbreviation formatTripDate := (TripRoutes.formatTripDate Date_parse).
Local Abbreviation create := (TripRoutes.create Date_parse).
Local Abbreviation update := (TripRoutes.update Date_parse isObjectId).
Local Abbreviation byDate := (TripRoutes.byDate Date_parse).

(** The server refuses the update document of the counter routes. *)
Lemma counter_update_refused f n db id matches u :
  TripRoutes.conflicting u = true ->
  match TripRoutes.findOneAndUpdate isObjectId f n db id matches u with
  | Ok _ => False
  | Throw _ => True
  end.
Proof.
  intros Hu. unfold TripRoutes.findOneAndUpdate, mbind, Result_bind, Js.bind, byId,
    castId, await.
  destruct (isObjectId id); [| exact I].
  destruct (f n); [exact I |].
  now rewrite Hu.
Qed.

Lemma counter_update_quiet f n db id matches u :
  isObjectId id = true -> f n = None -> TripRoutes.conflicting u = true ->
  TripRoutes.findOneAndUpdate isObjectId f n db id matches u
  = Throw TripRoutes.conflict.
Proof.
  intros Hid Hq Hu. unfold TripRoutes.findOneAndUpdate, mbind, Result_bind, Js.bind,
    byId, castId, await.
  now rewrite Hid, Hq, Hu.
Qed.

(** The increment writes nothing and never answers 200. *)
Lemma increment_never_writes f db id :
  (increment f db id).1 = db /\ status (increment f db id).2 <> 200.
Proof.
  unfold TripRoutes.increment, TripRoutes.incrementTry.
  unfold mbind at 1, Result_bind, Js.bind at 1, dbConnect, await.
  destruct (f 0%nat); [split; [reflexivity | apply trip_handleError_not_200] |].
  unfold mbind, Result_bind, Js.bind.
  pose proof (counter_update_refused f 1 db id (fun _ => true)
                (TripRoutes.mkCounterUpdate 1 (Some 2)) eq_refl) as Hrefused.
  destruct (TripRoutes.findOneAndUpdate isObjectId f 1 db id _ _) as [r | err];
    [contradiction |].
  split; [reflexivity | apply trip_handleError_not_200].
Qed.

Lemma increment_refused f db id :
  isObjectId id = true -> f 0%nat = None -> f 1%nat = None ->
  increment f db id
  = (db, fail 503 "Database service unavailable" "Please try again later").
Proof.
  intros Hid Hdb Hq. unfold TripRoutes.increment, TripRoutes.incrementTry.
  unfold mbind at 1, Result_bind, Js.bind at 1, dbConnect, await. rewrite Hdb.
  unfold mbind, Result_bind, Js.bind.
  now rewrite (counter_update_quiet f 1 db id (fun _ => true)
                 (TripRoutes.mkCounterUpdate 1 (Some 2)) Hid Hq eq_refl).
Qed.

(** The decrement writes nothing and never answers 200. *)
Lemma decrement_never_writes f db id :
  (decrement f db id).1 = db /\ status (decrement f db id).2 <> 200.
Proof.
  unfold TripRoutes.decrement, TripRoutes.decrementTry.
  unfold mbind at 1, Result_bind, Js.bind at 1, dbConnect, await.
  destruct (f 0%nat); [split; [reflexivity | apply trip_handleError_not_200] |].
  unfold mbind, Result_bind, Js.bind.
  pose proof (counter_update_refused f 1 db id TripRoutes.decrementFilter
                (TripRoutes.mkCounterUpdate (-1) (Some 1)) eq_refl) as Hrefused.
  destruct (TripRoutes.findOneAndUpdate isObjectId f 1 db id _ _) as [r | err];
    [contradiction |].
  split; [reflexivity | apply trip_handleError_not_200].
Qed.

Lemma decrement_refused f db id :
  isObjectId id = true -> f 0%nat = None -> f 1%nat = None ->
  decrement f db id
  = (db, fail 503 "Database service unavailable" "Please try again later").
Proof.
  intros Hid Hdb Hq. unfold TripRoutes.decrement, TripRoutes.decrementTry.
  unfold mbind at 1, Result_bind, Js.bind at 1, dbConnect, await. rewrite Hdb.
  unfold mbind, Result_bind, Js.bind.
  now rewrite (counter_update_quiet f 1 db id TripRoutes.decrementFilter
                 (TripRoutes.mkCounterUpdate (-1) (Some 1)) Hid Hq eq_refl).
Qed.

(** C3, on the code: a trip whose count is absent never comes out of the
    increment with the 2 that the route's comment announces, whatever
    the driver does: nothing is written at all.  The update document
    names [numberOfPassengers] under [$inc] and under [$setOnInsert];
    with the id well formed and the driver quiet the server refuses it,
    the route answers 503 and the count stays absent. *)
Theorem increment_absent (f : Faults) (db : Db) (id : string) (t : Trip.Doc)
        (Ht : trips db !! id = Some t)
        (Habsent : Trip.numberOfPassengers t = Missing
                   \/ Trip.numberOfPassengers t = IsNull) :
  (forall t', trips (increment f db id).1 !! id = Some t' ->
              Trip.numberOfPassengers t' <> Val 2)
  /\ trips (increment f db id).1 !! id = Some t
  /\ (isObjectId id = true -> f 0%nat = None -> f 1%nat = None ->
      increment f db id =
        (db, fail 503 "Database service unavailable" "Please try again later")).
Proof.
  destruct (increment_never_writes f db id) as [Hsame _].
  split; [| split].
  - intros t' Hafter. rewrite Hsame, Ht in Hafter. injection Hafter as <-.
    destruct Habsent as [-> | ->]; discriminate.
  - now rewrite Hsame.
  - apply increment_refused.
Qed.

(** C2, on the code: the decrement never gets as far as its filter.  The
    update document names [numberOfPassengers] under [$inc] and under
    [$setOnInsert], and the server refuses it for every stored trip:
    whatever the driver does nothing is written and the answer is not
    200, so a count above 1 does not lose 1; with the id well formed and
    the driver quiet the answer is 503, also for a count that is [null]
    or 1, and not the validation error "cannot be less than 1". *)
Theorem decrement_floor (f : Faults) (db : Db) (id : string) (t : Trip.Doc)
        (Ht : trips db !! id = Some t) :
  trips (decrement f db id).1 !! id = Some t
  /\ status (decrement f db id).2 <> 200
  /\ (forall n, Trip.numberOfPassengers t = Val n -> 1 < n ->
        forall t', trips (decrement f db id).1 !! id = Some t' ->
                   Trip.numberOfPassengers t' <> Val (n - 1))
  /\ (isObjectId id = true -> f 0%nat = None -> f 1%nat = None ->
      decrement f db id
      = (db, fail 503 "Database service unavailable" "Please try again later")
      /\ decrement f db id <> (db, TripRoutes.belowOne)).
Proof.
  destruct (decrement_never_writes f db id) as [Hsame Hstatus].
  split; [now rewrite Hsame |]. split; [exact Hstatus |]. split.
  - intros n Hn Hlt t' Hafter. rewrite Hsame, Ht in Hafter. injection Hafter as <-.
    rewrite Hn. intros [= Heq]. lia.
  - intros Hid Hdb Hq. rewrite (decrement_refused f db id Hid Hdb Hq).
    split; [reflexivity | discriminate].
Qed.

(** Both counter routes are refused, for every id: whatever the driver
    does neither writes anything nor answers 200; with the driver quiet
    a well-formed id is answered 503, whether or not it names a trip, and
    an id that is no ObjectId 400. *)
Theorem counter_routes_refused (f : Faults) (db : Db) (id : string) :
  (increment f db id).1 = db /\ status (increment f db id).2 <> 200
  /\ (decrement f db id).1 = db /\ status (decrement f db id).2 <> 200
  /\ (isObjectId id = true -> f 0%nat = None -> f 1%nat = None ->
      increment f db id
      = (db, fail 503 "Database service unavailable" "Please try again later")
      /\ decrement f db id
         = (db, fail 503 "Database service unavailable" "Please try again later"))
  /\ (isObjectId id = false -> f 0%nat = None ->
      increment f db id
      = (db, fail 400 "Invalid ID format" "Please provide a valid trip ID")
      /\ decrement f db id
         = (db, fail 400 "Invalid ID format" "Please provide a valid trip ID")).
Proof.
  destruct (increment_never_writes f db id) as [Hi1 Hi2].
  destruct (decrement_never_writes f db id) as [Hd1 Hd2].
  split; [exact Hi1 |]. split; [exact Hi2 |]. split; [exact Hd1 |].
  split; [exact Hd2 |]. split.
  - intros Hid Hdb Hq. split; [now apply increment_refused | now apply decrement_refused].
  - intros Hid Hdb.
    unfold TripRoutes.increment, TripRoutes.incrementTry, TripRoutes.decrement,
      TripRoutes.decrementTry, TripRoutes.findOneAndUpdate, mbind, Result_bind, Js.bind,
      dbConnect, byId, castId, await.
    rewrite Hdb, Hid. split; reflexivity.
Qed.

Lemma missingField_present b :
  requiredPresent b = true -> TripRoutes.missingField b = Ok false.
Proof.
  unfold requiredPresent, nonBlankString, TripRoutes.missingField, TripRoutes.orElse,
    Js.blank, Js.optTrim, Js.bind.
  intros H.
  repeat (apply andb_prop in H; destruct H as [H ?]).
  destruct (b_passengerId b); try discriminate.
  destruct (b_fromOrigin b); try discriminate.
  destruct (b_toDestination b); try discriminate.
  repeat match goal with
         | Hx : negb ?e = true |- _ => apply negb_true_iff in Hx; rewrite ?Hx
         end.
  match goal with Hx : Js.ToBoolean _ = true |- _ => rewrite Hx end.
  simpl. destruct (b_confirmed b); try discriminate; reflexivity.
Qed.

Lemma formatTripDate_throws v :
  ymdShaped v = false -> JsDate.construct Date_parse v = None ->
  formatTripDate v = Throw (Js.Error "Invalid date format").
Proof.
  unfold TripRoutes.formatTripDate, ymdShaped. intros Hshape Hnan.
  destruct v; rewrite ?Hshape, Hnan; reflexivity.
Qed.

Lemma day_19727 t : onJan5 t -> t / JsDate.msPerDay = 19727.
Proof.
  unfold onJan5, JsDate.msPerDay. intros [Hlo Hhi].
  apply Z.le_antisymm.
  - apply Z.lt_succ_r. apply Z.div_lt_upper_bound; lia.
  - apply Z.div_le_lower_bound; lia.
Qed.

(** Every instant of the UTC day 2024-01-05 prints as that date. *)
Lemma isoDate_jan5 t : onJan5 t -> JsDate.beforeT (JsDate.toISOString t) = "2024-01-05".
Proof.
  intros Hday. unfold JsDate.toISOString. rewrite (day_19727 t Hday).
  reflexivity.
Qed.

Lemma castCount_accepted e b :
  countAccepted b = true ->
  exists c, TripRoutes.castCount e (TripRoutes.countArg (b_numberOfPassengers b)) = Ok c
            /\ (TripRoutes.countArg (b_numberOfPassengers b) = TripRoutes.ArgNull ->
                c = IsNull).
Proof.
  unfold countAccepted, TripRoutes.castCount.
  destruct (TripRoutes.countArg (b_numberOfPassengers b)) as [| | n | negative];
    intros H.
  - now exists IsNull.
  - discriminate.
  - simpl. rewrite H. exists (Val n). split; [reflexivity | discriminate].
  - discriminate.
Qed.

Lemma create_accepted f db newId b d c :
  f 0%nat = None -> f 1%nat = None -> trips db !! newId = None ->
  requiredPresent b = true -> formatTripDate (b_tripDate b) = Ok d ->
  TripRoutes.castCount
    (ValidationError "Trip validation failed: numberOfPassengers: Cast to Number failed")
    (TripRoutes.countArg (b_numberOfPassengers b)) = Ok c ->
  create f db newId b =
    (TripRoutes.setTrips db
       (<[newId := TripRoutes.docOf (TripRoutes.tripDataOf b d) c]> (trips db)),
     mkResponse 201
       (Payload (TripRoutes.OneTrip newId (TripRoutes.docOf (TripRoutes.tripDataOf b d) c)))).
Proof.
  intros Hdb Hq Hfresh Hreq Hdate Hcount.
  unfold TripRoutes.create, TripRoutes.createTry, TripRoutes.save. run.
  rewrite Hdb, (missingField_present b Hreq), Hdate. simpl.
  rewrite Hcount, Hq, Hfresh. reflexivity.
Qed.

Lemma update_accepted f db id b d c old :
  isObjectId id = true -> f 0%nat = None -> f 1%nat = None ->
  trips db !! id = Some old ->
  requiredPresent b = true -> formatTripDate (b_tripDate b) = Ok d ->
  TripRoutes.castCount (CastError "Number" "numberOfPassengers")
    (TripRoutes.countArg (b_numberOfPassengers b)) = Ok c ->
  update f db id b =
    (TripRoutes.setTrips db
       (<[id := TripRoutes.docOf (TripRoutes.tripDataOf b d) c]> (trips db)),
     mkResponse 200
       (Payload (TripRoutes.OneTrip id (TripRoutes.docOf (TripRoutes.tripDataOf b d) c)))).
Proof.
  intros Hid Hdb Hq Hold Hreq Hdate Hcount.
  unfold TripRoutes.update, TripRoutes.updateTry. run.
  rewrite Hdb, (missingField_present b Hreq), Hdate. simpl.
  rewrite Hid, Hcount, Hq, Hold. reflexivity.
Qed.

(** C10: a full update whose body leaves [numberOfPassengers] out, or
    gives it as [null], stores [null] in the trip whatever count it held. *)
Theorem full_update_erases_count (f : Faults) (db : Db) (id : string)
        (b : TripRoutes.TripBody) (old : Trip.Doc) (d : string)
        (Hid : isObjectId id = true) (Hdb : f 0%nat = None) (Hq : f 1%nat = None)
        (Hold : trips db !! id = Some old)
        (Hreq : requiredPresent b = true)
        (Hdate : formatTripDate (b_tripDate b) = Ok d)
        (Hcount : b_numberOfPassengers b = Undefined \/ b_numberOfPassengers b = Null) :
  exists t',
    update f db id b =
      (TripRoutes.setTrips db (<[id := t']> (trips db)),
       mkResponse 200 (Payload (TripRoutes.OneTrip id t')))
    /\ trips (update f db id b).1 !! id = Some t'
    /\ Trip.numberOfPassengers t' = IsNull.
Proof.
  assert (Hnull : TripRoutes.countArg (b_numberOfPassengers b) = TripRoutes.ArgNull)
    by (destruct Hcount as [-> | ->]; reflexivity).
  assert (Hcast : TripRoutes.castCount (CastError "Number" "numberOfPassengers")
                    (TripRoutes.countArg (b_numberOfPassengers b)) = Ok IsNull)
    by now rewrite Hnull.
  rewrite (update_accepted f db id b d IsNull old Hid Hdb Hq Hold Hreq Hdate Hcast).
  eexists. split; [reflexivity |]. split; [| reflexivity].
  simpl. apply lookup_insert_eq.
Qed.

(** C7, as amended: the string "2024-01-05", a string that is not of the
    shape dddd-dd-dd and that [Date] parses to an instant of the UTC day
    2024-01-05, and a date object for such an instant all normalize to
    "2024-01-05"; creation and update store the normalized string and the
    date-scoped query filters on it; an input that is not of the shape
    dddd-dd-dd and that [Date] cannot parse is answered with the 400
    validation error by all three routes, once the database is connected
    and the other required fields are there; every string of the shape
    dddd-dd-dd normalizes to itself, whether or not it denotes a calendar
    date: creation and update store it as it is and the date-scoped query
    filters on it as it is. *)
Theorem trip_date_normalized (f : Faults) (db : Db) (Hdb : f 0%nat = None) :
  formatTripDate (Str "2024-01-05") = Ok "2024-01-05"
  /\ (forall s, TripRoutes.ymdPattern s = true -> formatTripDate (Str s) = Ok s)
  /\ (forall b s, TripRoutes.b_tripDate b = Str s -> TripRoutes.ymdPattern s = true ->
        requiredPresent b = true -> countAccepted b = true -> f 1%nat = None ->
        (forall newId, trips db !! newId = None ->
           exists t, create f db newId b =
                       (TripRoutes.setTrips db (<[newId := t]> (trips db)),
                        mkResponse 201 (Payload (TripRoutes.OneTrip newId t)))
                     /\ Trip.tripDate t = s)
        /\ (forall id old, isObjectId id = true -> trips db !! id = Some old ->
              exists t, update f db id b =
                          (TripRoutes.setTrips db (<[id := t]> (trips db)),
                           mkResponse 200 (Payload (TripRoutes.OneTrip id t)))
                        /\ Trip.tripDate t = s)
        /\ byDate f db s =
             mkResponse 200
               (Payload (TripRoutes.ManyTrips
                           (map_to_list
                              (filter (fun kt : string * Trip.Doc => Trip.tripDate kt.2 = s)
                                      (trips db))))))
  /\ (forall s t, TripRoutes.ymdPattern s = false -> Date_parse s = Some t ->
        onJan5 t -> formatTripDate (Str s) = Ok "2024-01-05")
  /\ (forall t, onJan5 t -> formatTripDate (DateObj (Some t)) = Ok "2024-01-05")
  /\ (forall b d, requiredPresent b = true -> countAccepted b = true ->
        formatTripDate (b_tripDate b) = Ok d -> f 1%nat = None ->
        (forall newId, trips db !! newId = None ->
           exists t, create f db newId b =
                       (TripRoutes.setTrips db (<[newId := t]> (trips db)),
                        mkResponse 201 (Payload (TripRoutes.OneTrip newId t)))
                     /\ Trip.tripDate t = d)
        /\ (forall id old, isObjectId id = true -> trips db !! id = Some old ->
              exists t, update f db id b =
                          (TripRoutes.setTrips db (<[id := t]> (trips db)),
                           mkResponse 200 (Payload (TripRoutes.OneTrip id t)))
                        /\ Trip.tripDate t = d))
  /\ (forall s d, formatTripDate (Str s) = Ok d -> f 1%nat = None ->
        byDate f db s =
          mkResponse 200
            (Payload (TripRoutes.ManyTrips
                        (map_to_list
                           (filter (fun kt : string * Trip.Doc => Trip.tripDate kt.2 = d)
                                   (trips db))))))
  /\ (forall b newId id, requiredPresent b = true ->
        ymdShaped (b_tripDate b) = false ->
        JsDate.construct Date_parse (b_tripDate b) = None ->
        create f db newId b = (db, TripRoutes.badDateReply)
        /\ update f db id b = (db, TripRoutes.badDateReply)
        /\ status TripRoutes.badDateReply = 400)
  /\ (forall s, TripRoutes.ymdPattern s = false -> Date_parse s = None ->
        status (byDate f db s) = 400).
Proof.
  assert (Hstored : forall b d, requiredPresent b = true -> countAccepted b = true ->
            formatTripDate (b_tripDate b) = Ok d -> f 1%nat = None ->
            (forall newId, trips db !! newId = None ->
               exists t, create f db newId b =
                           (TripRoutes.setTrips db (<[newId := t]> (trips db)),
                            mkResponse 201 (Payload (TripRoutes.OneTrip newId t)))
                         /\ Trip.tripDate t = d)
            /\ (forall id old, isObjectId id = true -> trips db !! id = Some old ->
                  exists t, update f db id b =
                              (TripRoutes.setTrips db (<[id := t]> (trips db)),
                               mkResponse 200 (Payload (TripRoutes.OneTrip id t)))
                            /\ Trip.tripDate t = d)).
  { intros b d Hreq Hacc Hdate Hq. split.
    - intros newId Hfresh.
      destruct (castCount_accepted
                  (ValidationError
                     "Trip validation failed: numberOfPassengers: Cast to Number failed")
                  b Hacc) as (c & Hc & _).
      rewrite (create_accepted f db newId b d c Hdb Hq Hfresh Hreq Hdate Hc).
      eexists. split; reflexivity.
    - intros id old Hid Hold.
      destruct (castCount_accepted (CastError "Number" "numberOfPassengers") b Hacc)
        as (c & Hc & _).
      rewrite (update_accepted f db id b d c old Hid Hdb Hq Hold Hreq Hdate Hc).
      eexists. split; reflexivity. }
  assert (Hfilter : forall s d, formatTripDate (Str s) = Ok d -> f 1%nat = None ->
            byDate f db s =
              mkResponse 200
                (Payload (TripRoutes.ManyTrips
                            (map_to_list
                               (filter (fun kt : string * Trip.Doc =>
                                          Trip.tripDate kt.2 = d)
                                       (trips db)))))).
  { intros s d Hdate Hq. unfold TripRoutes.byDate, TripRoutes.byDateTry. run.
    now rewrite Hdb, Hdate, Hq. }
  assert (Hshaped : forall s, TripRoutes.ymdPattern s = true ->
                              formatTripDate (Str s) = Ok s).
  { intros s Hshape. unfold TripRoutes.formatTripDate. now rewrite Hshape. }
  split; [reflexivity |].
  split; [exact Hshaped |].
  split.
  { intros b s Hb Hshape Hreq Hacc Hq.
    assert (Hdate : formatTripDate (b_tripDate b) = Ok s)
      by (rewrite Hb; now apply Hshaped).
    destruct (Hstored b s Hreq Hacc Hdate Hq) as [Hcreate Hupdate].
    split; [exact Hcreate |]. split; [exact Hupdate |].
    apply Hfilter; [now apply Hshaped | exact Hq]. }
  split.
  { intros s t Hshape Hparse Hday. unfold TripRoutes.formatTripDate.
    rewrite Hshape. simpl. rewrite Hparse. now rewrite (isoDate_jan5 t Hday). }
  split.
  { intros t Hday. unfold TripRoutes.formatTripDate. simpl.
    now rewrite (isoDate_jan5 t Hday). }
  split; [exact Hstored |].
  split; [exact Hfilter |].
  split.
  { intros b newId id Hreq Hshape Hnan.
    pose proof (formatTripDate_throws _ Hshape Hnan) as Hthrow.
    unfold TripRoutes.create, TripRoutes.createTry, TripRoutes.update,
      TripRoutes.updateTry. run.
    rewrite Hdb, (missingField_present b Hreq), Hthrow. repeat split. }
  intros s Hshape Hnan.
  unfold TripRoutes.byDate, TripRoutes.byDateTry. run.
  rewrite Hdb, (formatTripDate_throws (Str s)); [reflexivity | exact Hshape | exact Hnan].
Qed.

End TripSpec.

(** ** The cascading deletion of a passenger *)
Section PassengerSpec.
Variable isObjectId : string -> bool.
Variable objectIdHex : string -> string.

Local Abbreviation remove := (PassengerRoutes.remove isObjectId objectIdHex).









End PassengerSpec.

(** ** The seeding of the sites *)
Section SiteSpec.

Lemma updateOne_added sites op :
  (SiteRoutes.updateOne sites op).1 = sites
  \/ ((SiteRoutes.updateOne sites op).1 = sites ++ [SiteRoutes.setOnInsert op]
      /\ existsb (SiteRoutes.named (SiteRoutes.filter_siteName op)) sites = false).
Proof.
  unfold SiteRoutes.updateOne.
  destruct (existsb _ sites); [left | right]; auto.
Qed.

(** The bulk write as a left fold of its operations. *)
Lemma bulkWrite_fold ops : forall sites,
  (SiteRoutes.bulkWrite sites ops).1 =
    fold_left (fun s op => (SiteRoutes.updateOne s op).1) ops sites.
Proof.
  induction ops as [| op rest IH]; intros sites; [reflexivity |].
  simpl. destruct (SiteRoutes.updateOne sites op) as [sites1 inserted] eqn:Hop.
  specialize (IH sites1).
  destruct (SiteRoutes.bulkWrite sites1 rest) as [sites2 [upserted matched]].
  simpl in IH. destruct inserted; simpl; exact IH.
Qed.

Lemma existsb_named_app name l l' :
  existsb (SiteRoutes.named name) l = true ->
  existsb (SiteRoutes.named name) (l ++ l') = true.
Proof. intros H. rewrite existsb_app, H. reflexivity. Qed.

(** Existing sites form a prefix of the result, and what is added are
    [$setOnInsert] documents of operations whose name was not there. *)
Lemma bulkWrite_extends ops : forall sites,
  exists added,
    (SiteRoutes.bulkWrite sites ops).1 = sites ++ added
    /\ Forall (fun s => exists op, In op ops /\ s = SiteRoutes.setOnInsert op
                        /\ (existsb (SiteRoutes.named (SiteRoutes.filter_siteName op)) sites
                            = false)) added.
Proof.
  intros sites. rewrite bulkWrite_fold. revert sites.
  induction ops as [| op rest IH]; intros sites.
  - exists []. split; [now rewrite app_nil_r | constructor].
  - simpl. destruct (IH (SiteRoutes.updateOne sites op).1) as (added & Heq & Hall).
    destruct (updateOne_added sites op) as [Hsame | (Hnew & Habsent)].
    + rewrite Hsame in *. exists added. split; [exact Heq |].
      eapply List.Forall_impl; [| exact Hall].
      intros s (op' & Hin & Hs & Hno). exists op'. auto using in_cons.
    + rewrite Hnew in *. exists (SiteRoutes.setOnInsert op :: added).
      split; [now rewrite Heq, <- app_assoc |].
      constructor.
      * exists op. split; [now left | now split].
      * eapply List.Forall_impl; [| exact Hall].
        intros s (op' & Hin & Hs & Hno). exists op'.
        split; [now right |]. split; [exact Hs |].
        rewrite existsb_app in Hno. now apply orb_false_iff in Hno.
Qed.

Lemma updateOne_keeps name sites op :
  existsb (SiteRoutes.named name) sites = true ->
  existsb (SiteRoutes.named name) (SiteRoutes.updateOne sites op).1 = true.
Proof.
  intros H. destruct (updateOne_added sites op) as [-> | (-> & _)];
    [exact H | now apply existsb_named_app].
Qed.

Lemma fold_keeps name ops : forall sites,
  existsb (SiteRoutes.named name) sites = true ->
  existsb (SiteRoutes.named name)
          (fold_left (fun s op => (SiteRoutes.updateOne s op).1) ops sites) = true.
Proof.
  induction ops as [| op rest IH]; intros sites H; [exact H |].
  simpl. apply IH. now apply updateOne_keeps.
Qed.

(** After the bulk write every operation's name is in the collection. *)
Lemma bulkWrite_covers ops : forall sites op,
  (forall o, In o ops ->
             Site.siteName (SiteRoutes.setOnInsert o) = SiteRoutes.filter_siteName o) ->
  In op ops ->
  existsb (SiteRoutes.named (SiteRoutes.filter_siteName op))
          (SiteRoutes.bulkWrite sites ops).1 = true.
Proof.
  intros sites op Hwf Hin. rewrite bulkWrite_fold. revert sites.
  induction ops as [| o rest IH]; intros sites; [destruct Hin |].
  simpl. destruct Hin as [-> | Hin].
  - apply fold_keeps. unfold SiteRoutes.updateOne.
    destruct (existsb _ sites) eqn:Hex; [exact Hex |].
    simpl. rewrite existsb_app. simpl. unfold SiteRoutes.named at 2.
    rewrite (Hwf op (or_introl eq_refl)), String.eqb_refl.
    now rewrite orb_true_r.
  - apply IH; [intros o' Ho'; apply Hwf; now right | exact Hin].
Qed.

(** A bulk write all of whose names are there changes nothing. *)
Lemma bulkWrite_fixed ops : forall sites,
  (forall op, In op ops ->
              existsb (SiteRoutes.named (SiteRoutes.filter_siteName op)) sites = true) ->
  (SiteRoutes.bulkWrite sites ops).1 = sites.
Proof.
  intros sites Hall. rewrite bulkWrite_fold.
  induction ops as [| op rest IH]; [reflexivity |].
  simpl. unfold SiteRoutes.updateOne at 2.
  rewrite (Hall op (or_introl eq_refl)). simpl.
  apply IH. intros o Ho. apply Hall. now right.
Qed.

Lemma operations_names now op :
  In op (SiteRoutes.operations now) ->
  In (SiteRoutes.filter_siteName op) SiteRoutes.locations
  /\ SiteRoutes.setOnInsert op =
       Site.mkDoc (SiteRoutes.filter_siteName op) 0 SiteRoutes.defaultMaximumPOB now.
Proof.
  unfold SiteRoutes.operations. intros Hin. apply in_map_iff in Hin.
  destruct Hin as (name & <- & Hname). now split.
Qed.

Lemma operations_of_location now name :
  In name SiteRoutes.locations ->
  In (SiteRoutes.mkUpdateOne name (Site.mkDoc name 0 SiteRoutes.defaultMaximumPOB now))
     (SiteRoutes.operations now).
Proof.
  intros Hin. unfold SiteRoutes.operations. apply in_map_iff. now exists name.
Qed.

(** What a run leaves in the database: the bulk write when the driver let
    it start, and the database as it was otherwise. *)
Lemma initialize_db f now db :
  (SiteRoutes.initialize f now db).1 =
    match f 0%nat, f 1%nat with
    | None, None =>
        SiteRoutes.setSites db
          (SiteRoutes.bulkWrite (sites db) (SiteRoutes.operations now)).1
    | _, _ => db
    end.
Proof.
  unfold SiteRoutes.initialize, SiteRoutes.initializeTry. run.
  destruct (f 0%nat); [reflexivity |].
  destruct (f 1%nat); [reflexivity |].
  destruct (SiteRoutes.bulkWrite (sites db) (SiteRoutes.operations now))
    as [sites' [upserted matched]].
  reflexivity.
Qed.

Lemma initialize_seeded f now db name :
  f 0%nat = None -> f 1%nat = None -> In name SiteRoutes.locations ->
  existsb (SiteRoutes.named name) (sites (SiteRoutes.initialize f now db).1) = true.
Proof.
  intros H0 H1 Hin. rewrite initialize_db, H0, H1. simpl.
  apply (bulkWrite_covers (SiteRoutes.operations now) (sites db)
           (SiteRoutes.mkUpdateOne name
              (Site.mkDoc name 0 SiteRoutes.defaultMaximumPOB now))).
  - intros o Ho. destruct (operations_names now o Ho) as (_ & ->). reflexivity.
  - now apply operations_of_location.
Qed.

(** A run on a database that holds every known name changes nothing. *)
Lemma initialize_fixed f now db :
  (forall name, In name SiteRoutes.locations ->
                existsb (SiteRoutes.named name) (sites db) = true) ->
  (SiteRoutes.initialize f now db).1 = db.
Proof.
  intros Hall. rewrite initialize_db.
  destruct (f 0%nat); [reflexivity |]. destruct (f 1%nat); [reflexivity |].
  rewrite bulkWrite_fixed; [now destruct db |].
  intros op Hop. apply Hall. now destruct (operations_names now op Hop).
Qed.

(** C8: a run of the initialization keeps every stored site as it is, in
    place, and appends a site with [currentPOB] 0 and the default
    [maximumPOB] only for a known name that no stored site has; when the
    driver lets it run, every known name is there afterwards, and from
    then on any sequence of further runs, at any time and under any
    driver, leaves the database as it is. *)
Theorem initialize_idempotent (f : Faults) (now : Z) (db : Db) :
  (exists added,
     sites (SiteRoutes.initialize f now db).1 = sites db ++ added
     /\ Forall (fun s =>
                  Site.currentPOB s = 0
                  /\ Site.maximumPOB s = SiteRoutes.defaultMaximumPOB
                  /\ In (Site.siteName s) SiteRoutes.locations
                  /\ existsb (SiteRoutes.named (Site.siteName s)) (sites db) = false)
               added)
  /\ (f 0%nat = None -> f 1%nat = None ->
      (forall name, In name SiteRoutes.locations ->
         existsb (SiteRoutes.named name) (sites (SiteRoutes.initialize f now db).1) = true)
      /\ (forall runs : list (Faults * Z),
            fold_left (fun d run => (SiteRoutes.initialize run.1 run.2 d).1) runs
                      (SiteRoutes.initialize f now db).1
            = (SiteRoutes.initialize f now db).1)).
Proof.
  split.
  - rewrite initialize_db.
    destruct (f 0%nat); [exists []; split; [now rewrite app_nil_r | constructor] |].
    destruct (f 1%nat); [exists []; split; [now rewrite app_nil_r | constructor] |].
    destruct (bulkWrite_extends (SiteRoutes.operations now) (sites db))
      as (added & Heq & Hall).
    exists added. split; [exact Heq |].
    eapply List.Forall_impl; [| exact Hall].
    intros s (op & Hin & -> & Hno).
    destruct (operations_names now op Hin) as (Hloc & ->). simpl. auto.
  - intros H0 H1.
    assert (Hseeded : forall name, In name SiteRoutes.locations ->
              existsb (SiteRoutes.named name)
                      (sites (SiteRoutes.initialize f now db).1) = true)
      by (intros name; now apply initialize_seeded).
    split; [exact Hseeded |].
    induction runs as [| run rest IH]; [reflexivity |].
    simpl. rewrite (initialize_fixed run.1 run.2 _ Hseeded). exact IH.
Qed.

End SiteSpec.

(** ** Registration, login and the serialization of users *)
Section UserSpec.
Variable bcrypt_hash : string -> string -> string.
Variable bcrypt_compare : string -> string -> bool.
Variable jwt_sign : string -> bool -> Z -> string.
Variable jwt_secret_set : bool.

Local Abbreviation register := (UserRoutes.register bcrypt_hash).
Local Abbreviation login :=
  (UserRoutes.login bcrypt_hash bcrypt_compare jwt_sign jwt_secret_set).

Lemma blank_nonBlank v : nonBlankString v = true -> Js.blank v = Ok false.
Proof.
  unfold nonBlankString, Js.blank, Js.optTrim, Js.bind.
  destruct v; try discriminate. intros H. apply negb_true_iff in H. now rewrite H.
Qed.

(** The fields [new User({ ... })] takes from the body. *)
Lemma newUser_fields env b d :
  UserRoutes.newUser env b = Ok d ->
  User._id d = UserRoutes.newId env
  /\ User.userName d = Js.toLowerCase (Js.trim (Js.trimOf (UserRoutes.r_userName b)))
  /\ User.password d = Some (Js.trimOf (UserRoutes.r_password b))
  /\ User.isAdmin d = Js.ToBoolean (UserRoutes.r_isAdmin b).
Proof.
  unfold UserRoutes.newUser. run.
  destruct (UserRoutes.trimOr (UserRoutes.r_firstName b) ""); [| discriminate].
  destruct (UserRoutes.trimOr (UserRoutes.r_lastName b) ""); [| discriminate].
  destruct (UserRoutes.trimOr (UserRoutes.r_homeLocation b) "NSC"); [| discriminate].
  intros [= <-]. simpl. now rewrite orb_false_r.
Qed.

Lemma validate_passes d : User.validators d = [] -> User.validate d = Ok tt.
Proof. unfold User.validate. now intros ->. Qed.

(** A valid registration is accepted: the document is stored with the
    hashed password and sent back without it. *)
Lemma register_accepted f db env b d :
  f 0%nat = None -> f 1%nat = None -> f 2%nat = None ->
  validRegistration db env b d ->
  register f db env b =
    (UserRoutes.setUsers db
       (<[UserRoutes.newId env :=
            User.preSave bcrypt_hash true (UserRoutes.salt env) d]> (users db)),
     mkResponse 201
       (Payload (UserRoutes.UserObject
                   (User.deletePassword
                      (User.preSave bcrypt_hash true (UserRoutes.salt env) d))))).
Proof.
  intros H0 H1 H2 (Hname & Hpass & Hpat & Hlen & Hnew & Hval & Hfree & Hid).
  destruct (newUser_fields env b d Hnew) as (Hd_id & Hd_name & Hd_pass & _).
  assert (Hhashed_id :
            User._id (User.preSave bcrypt_hash true (UserRoutes.salt env) d)
            = UserRoutes.newId env)
    by (unfold User.preSave; simpl; rewrite Hd_pass; exact Hd_id).
  assert (Hhashed_name :
            User.userName (User.preSave bcrypt_hash true (UserRoutes.salt env) d)
            = User.userName d)
    by (unfold User.preSave; simpl; now rewrite Hd_pass).
  unfold UserRoutes.register, UserRoutes.registerTry, UserRoutes.saveNew,
    UserRoutes.findOne, TripRoutes.orElse. run.
  rewrite H0, (blank_nonBlank _ Hname), (blank_nonBlank _ Hpass), Hpat. simpl.
  destruct (Z.ltb_spec (UserRoutes.passwordLength (UserRoutes.r_password b)) 8);
    [lia |].
  rewrite H1, <- Hd_name, Hfree. simpl.
  rewrite Hnew, (validate_passes d Hval), H2, Hhashed_id, Hid, Hhashed_name, Hfree.
  reflexivity.
Qed.

(** C9: the registration route, which no middleware guards, takes the
    admin flag of the new user from the [isAdmin] of the body: the stored
    user is an administrator exactly when that value is truthy, so [true]
    makes an administrator and a value left out, [null] or [false] does
    not. *)
Theorem register_honours_isAdmin (f : Faults) (db : Db) (env : UserRoutes.Ambient)
        (b : UserRoutes.RegisterBody) (d : User.Doc)
        (H0 : f 0%nat = None) (H1 : f 1%nat = None) (H2 : f 2%nat = None)
        (Hvalid : validRegistration db env b d) :
  exists stored,
    register f db env b =
      (UserRoutes.setUsers db (<[UserRoutes.newId env := stored]> (users db)),
       mkResponse 201 (Payload (UserRoutes.UserObject (User.deletePassword stored))))
    /\ users (register f db env b).1 !! UserRoutes.newId env = Some stored
    /\ User.isAdmin stored = Js.ToBoolean (UserRoutes.r_isAdmin b)
    /\ (UserRoutes.r_isAdmin b = Bool true -> User.isAdmin stored = true)
    /\ (UserRoutes.r_isAdmin b = Undefined \/ UserRoutes.r_isAdmin b = Null
        \/ UserRoutes.r_isAdmin b = Bool false -> User.isAdmin stored = false).
Proof.
  rewrite (register_accepted f db env b d H0 H1 H2 Hvalid).
  destruct Hvalid as (_ & _ & _ & _ & Hnew & _).
  destruct (newUser_fields env b d Hnew) as (_ & _ & Hd_pass & Hd_admin).
  assert (Hadmin : User.isAdmin (User.preSave bcrypt_hash true (UserRoutes.salt env) d)
                   = Js.ToBoolean (UserRoutes.r_isAdmin b))
    by (unfold User.preSave; simpl; now rewrite Hd_pass).
  eexists. split; [reflexivity |].
  split; [simpl; apply lookup_insert_eq |].
  split; [exact Hadmin |].
  rewrite Hadmin. split.
  - now intros ->.
  - now intros [-> | [-> | ->]].
Qed.

Lemma handleError_hides err msg :
  exposesPassword (UserRoutes.handleError err msg) = false.
Proof.
  unfold UserRoutes.handleError.
  repeat match goal with |- context [if ?c then _ else _] => destruct c end;
    reflexivity.
Qed.

Lemma register_hides f db env b : exposesPassword (register f db env b).2 = false.
Proof.
  unfold UserRoutes.register.
  destruct (UserRoutes.registerTry bcrypt_hash f db env b) as [[db' r] | err] eqn:Htry;
    [| apply handleError_hides].
  simpl. revert Htry.
  unfold UserRoutes.registerTry, UserRoutes.saveNew. run.
  repeat case_match; try discriminate; intros [= <- <-]; reflexivity.
Qed.

Lemma login_hides f db env b : exposesPassword (login f db env b).2 = false.
Proof.
  unfold UserRoutes.login.
  destruct (UserRoutes.loginTry _ _ _ _ f db env b) as [[db' r] | err] eqn:Htry;
    [| apply handleError_hides].
  simpl. revert Htry.
  unfold UserRoutes.loginTry. run.
  repeat case_match; try discriminate; intros [= <- <-];
    first [reflexivity | apply handleError_hides].
Qed.

Section Bcrypt.
(** What is assumed of bcrypt: no password is its own hash, and a hash
    has no white space at either end (its alphabet is [./A-Za-z0-9$]). *)
Hypothesis bcrypt_no_fixpoint : forall p s, bcrypt_hash p s <> p.
Hypothesis bcrypt_output_trimmed : forall p s, Js.trim (bcrypt_hash p s) = bcrypt_hash p s.

Lemma hash_differs p s : bcrypt_hash (Js.trim p) s <> p /\ bcrypt_hash (Js.trim p) s <> Js.trim p.
Proof.
  split; [| apply bcrypt_no_fixpoint].
  intros Heq. apply (bcrypt_no_fixpoint (Js.trim p) s).
  rewrite <- (bcrypt_output_trimmed (Js.trim p) s). now rewrite Heq.
Qed.

(** C6: a valid registration stores the bcrypt hash of the password, which
    is neither the password as submitted nor the password as trimmed; and
    no answer of the user routes carries a password field: not the one of
    the registration, not the one of the login, and not a user document
    sent through [res.json], whose [toJSON] removes it. *)
Theorem password_hashed_and_hidden :
  (forall f db env b d p,
      f 0%nat = None -> f 1%nat = None -> f 2%nat = None ->
      validRegistration db env b d -> UserRoutes.r_password b = Str p ->
      exists stored,
        users (register f db env b).1 !! UserRoutes.newId env = Some stored
        /\ User.password stored = Some (bcrypt_hash (Js.trim p) (UserRoutes.salt env))
        /\ User.password stored <> Some p
        /\ User.password stored <> Some (Js.trim p))
  /\ (forall f db env b, exposesPassword (register f db env b).2 = false)
  /\ (forall f db env b, exposesPassword (login f db env b).2 = false)
  /\ (forall d, exposesPassword (UserRoutes.sendUser d) = false
                /\ User.password (User.toJSON d) = None).
Proof.
  split.
  { intros f db env b d p H0 H1 H2 Hvalid Hp.
    rewrite (register_accepted f db env b d H0 H1 H2 Hvalid).
    destruct Hvalid as (_ & _ & _ & _ & Hnew & _).
    destruct (newUser_fields env b d Hnew) as (_ & _ & Hd_pass & _).
    rewrite Hp in Hd_pass. simpl in Hd_pass.
    eexists. split; [simpl; apply lookup_insert_eq |].
    unfold User.preSave. rewrite Hd_pass. simpl.
    destruct (hash_differs p (UserRoutes.salt env)) as [Hraw Htrimmed].
    split; [reflexivity |]. split; congruence. }
  split; [apply register_hides |].
  split; [apply login_hides |].
  intros d. split; reflexivity.
Qed.

End Bcrypt.
End UserSpec.

(** ** The theorems at sample inputs *)

Lemma decrement_floor_witness :
  TripRoutes.decrement isObjectIdHex no_faults (dbWithTrip (Val 3)) sampleTripId
  = (dbWithTrip (Val 3),
     fail 503 "Database service unavailable" "Please try again later").
Proof.
  destruct (decrement_floor isObjectIdHex no_faults (dbWithTrip (Val 3)) sampleTripId
              (tripWith (Val 3)) eq_refl) as (_ & _ & _ & Hquiet).
  exact (proj1 (Hquiet eq_refl eq_refl eq_refl)).
Defined.

Lemma increment_absent_witness :
  TripRoutes.increment isObjectIdHex no_faults (dbWithTrip IsNull) sampleTripId
  = (dbWithTrip IsNull,
     fail 503 "Database service unavailable" "Please try again later").
Proof.
  destruct (increment_absent isObjectIdHex no_faults (dbWithTrip IsNull) sampleTripId
              (tripWith IsNull) eq_refl (or_intror eq_refl)) as (_ & _ & Hquiet).
  exact (Hquiet eq_refl eq_refl eq_refl).
Defined.

Lemma full_update_erases_count_witness :
  exists t',
    TripRoutes.update noParse isObjectIdHex no_faults (dbWithTrip (Val 5)) sampleTripId
                      (tripBody (Str "2024-02-01") Undefined)
    = (TripRoutes.setTrips (dbWithTrip (Val 5))
         (<[sampleTripId := t']> (trips (dbWithTrip (Val 5)))),
       mkResponse 200 (Payload (TripRoutes.OneTrip sampleTripId t')))
    /\ trips (TripRoutes.update noParse isObjectIdHex no_faults (dbWithTrip (Val 5))
                sampleTripId (tripBody (Str "2024-02-01") Undefined)).1
       !! sampleTripId = Some t'
    /\ Trip.numberOfPassengers t' = IsNull.
Proof.
  apply (full_update_erases_count noParse isObjectIdHex no_faults (dbWithTrip (Val 5))
           sampleTripId (tripBody (Str "2024-02-01") Undefined) (tripWith (Val 5))
           "2024-02-01");
    first [reflexivity | left; reflexivity].
Defined.

Lemma trip_date_normalized_witness :
  no_faults 0%nat = None
  /\ TripRoutes.formatTripDate sampleParse (Str "2024-01-05T10:30:00.000Z")
     = Ok "2024-01-05".
Proof.
  split; [reflexivity |].
  destruct (trip_date_normalized sampleParse isObjectIdHex no_faults emptyDb eq_refl)
    as (_ & _ & _ & Hstring & _).
  apply (Hstring "2024-01-05T10:30:00.000Z" 1704450600000);
    [reflexivity | reflexivity | unfold onJan5; lia].
Defined.

(** C7 as stated fails on a string of the shape dddd-dd-dd that names no
    date: no [Date] parses "2024-13-45", here none parses anything, and
    the trip is created with it: the string never reaches [Date]. *)
Lemma trip_date_shape_counterexample :
  ~ (forall (Date_parse : string -> option Z) (f : Faults) (db : Db) (newId : string)
            (b : TripRoutes.TripBody),
       f 0%nat = None -> requiredPresent b = true ->
       JsDate.construct Date_parse (b_tripDate b) = None ->
       status (TripRoutes.create Date_parse f db newId b).2 = 400).
Proof.
  intros Hclaim.
  specialize (Hclaim noParse no_faults emptyDb sampleTripId
                     (tripBody (Str "2024-13-45") Undefined) eq_refl eq_refl eq_refl).
  vm_compute in Hclaim. discriminate Hclaim.
Qed.


Lemma sampleRegistration_valid :
  validRegistration emptyDb sampleEnv sampleRegistration sampleUser.
Proof.
  unfold validRegistration.
  repeat split; try (vm_compute; reflexivity).
  vm_compute. discriminate.
Defined.

Lemma register_honours_isAdmin_witness :
  exists stored,
    users (UserRoutes.register sampleHash no_faults emptyDb sampleEnv
                               sampleRegistration).1
      !! UserRoutes.newId sampleEnv = Some stored
    /\ User.isAdmin stored = true.
Proof.
  destruct (register_honours_isAdmin sampleHash no_faults emptyDb sampleEnv
              sampleRegistration sampleUser eq_refl eq_refl eq_refl
              sampleRegistration_valid)
    as (stored & _ & Hstored & _ & Htrue & _).
  exists stored. split; [exact Hstored | now apply Htrue].
Defined.

Lemma sampleHash_no_fixpoint p s : sampleHash p s <> p.
Proof.
  unfold sampleHash. destruct (String.eqb_spec p "$2a$12$first") as [-> | Hne].
  - discriminate.
  - congruence.
Qed.

Lemma sampleHash_trimmed p s : Js.trim (sampleHash p s) = sampleHash p s.
Proof. unfold sampleHash. now destruct (String.eqb p "$2a$12$first"). Qed.

Lemma password_hashed_and_hidden_witness :
  exists stored,
    users (UserRoutes.register sampleHash no_faults emptyDb sampleEnv
                               sampleRegistration).1
      !! UserRoutes.newId sampleEnv = Some stored
    /\ User.password stored
       = Some (sampleHash (Js.trim "correct horse") (UserRoutes.salt sampleEnv))
    /\ User.password stored <> Some "correct horse"
    /\ User.password stored <> Some (Js.trim "correct horse").
Proof.
  destruct (password_hashed_and_hidden sampleHash (fun _ _ => true) (fun _ _ _ => "t")
              true sampleHash_no_fixpoint sampleHash_trimmed) as (Hstored & _).
  apply (Hstored no_faults emptyDb sampleEnv sampleRegistration sampleUser
                 "correct horse" eq_refl eq_refl eq_refl sampleRegistration_valid eq_refl).
Defined.

(** ** Sample runs *)

Example remove_cascades :
  let db := mkDb ∅ {[ "665f1c2ab7e4a90d3c5e8f01" := Passenger.mkDoc "Ada" "Byron" None ]}
                 {[ sampleTripId := tripWith (Val 2);
                    "665f1c2ab7e4a90d3c5e8f11" :=
                      Trip.mkDoc "665f1c2ab7e4a90d3c5e8f02" "NTM" "STC" "2024-01-06"
                                 false IsNull ]} [] 0 in
  PassengerRoutes.remove isObjectIdHex Js.toLowerCase no_faults db
                         "665f1c2ab7e4a90d3c5e8f01"
  = (mkDb ∅ ∅ {[ "665f1c2ab7e4a90d3c5e8f11" :=
                    Trip.mkDoc "665f1c2ab7e4a90d3c5e8f02" "NTM" "STC" "2024-01-06"
                               false IsNull ]} [] 0,
     PassengerRoutes.deleted "665f1c2ab7e4a90d3c5e8f01").
Proof. vm_compute. reflexivity. Qed.

(** The id written in upper case is cast to the same ObjectId: the
    passenger is deleted, and the trip that names the passenger as the
    ObjectId prints stays, since [passengerId] is a string. *)
Example remove_upper_case_id :
  let db := mkDb ∅ {[ "665f1c2ab7e4a90d3c5e8f01" := Passenger.mkDoc "Ada" "Byron" None ]}
                 {[ sampleTripId := tripWith (Val 2) ]} [] 0 in
  PassengerRoutes.remove isObjectIdHex Js.toLowerCase no_faults db
                         "665F1C2AB7E4A90D3C5E8F01"
  = (mkDb ∅ ∅ {[ sampleTripId := tripWith (Val 2) ]} [] 0,
     PassengerRoutes.deleted "665F1C2AB7E4A90D3C5E8F01").
Proof. vm_compute. reflexivity. Qed.

Example initialize_keeps_existing :
  sites (SiteRoutes.initialize no_faults 1704450600000
           (mkDb ∅ ∅ ∅ [Site.mkDoc "NSC" 17 120 1700000000000] 0)).1
  = [Site.mkDoc "NSC" 17 120 1700000000000;
     Site.mkDoc "Ogle" 0 200 1704450600000;
     Site.mkDoc "NTM" 0 200 1704450600000;
     Site.mkDoc "NDT" 0 200 1704450600000;
     Site.mkDoc "NBD" 0 200 1704450600000;
     Site.mkDoc "STC" 0 200 1704450600000].
Proof. vm_compute. reflexivity. Qed.

(** The count that is set is the double that [parseInt] returns. *)
Example set_count_is_a_double :
  TripEdits.setCount isObjectIdHex no_faults (dbWithTrip (Val 2)) sampleTripId
                     (Str "9007199254740993")
  = (dbWithTrip (Val 9007199254740992),
     mkResponse 200
       (Payload (TripRoutes.OneTrip sampleTripId (tripWith (Val 9007199254740992))))).
Proof. vm_compute. reflexivity. Qed.

(** The counter routes on stored trips: the server refuses the update
    whatever the count is. *)
Example decrement_of_count_3 :
  TripRoutes.decrement isObjectIdHex no_faults (dbWithTrip (Val 3)) sampleTripId
  = (dbWithTrip (Val 3),
     fail 503 "Database service unavailable" "Please try again later").
Proof. vm_compute. reflexivity. Qed.

Example decrement_of_count_1 :
  TripRoutes.decrement isObjectIdHex no_faults (dbWithTrip (Val 1)) sampleTripId
  = (dbWithTrip (Val 1),
     fail 503 "Database service unavailable" "Please try again later").
Proof. vm_compute. reflexivity. Qed.

Example increment_of_count_3 :
  TripRoutes.increment isObjectIdHex no_faults (dbWithTrip (Val 3)) sampleTripId
  = (dbWithTrip (Val 3),
     fail 503 "Database service unavailable" "Please try again later").
Proof. vm_compute. reflexivity. Qed.

Example auth_accepts_known_token :
  let u := sampleUser in
  Auth.auth sampleVerify isObjectIdHex no_faults
            (mkDb {[ "507f1f77bcf86cd799439011" := u ]} ∅ ∅ [] 0)
            (mkRequest (Some "Bearer good") None None None)
  = Next (mkRequest (Some "Bearer good") (Some "good") (Some (User.selectPublic u))
                    (Some (User._id u))).
Proof. vm_compute. reflexivity. Qed.

Example create_stores_unchecked_shape (Date_parse : string -> option Z) :
  (TripRoutes.create Date_parse no_faults emptyDb sampleTripId
                     (tripBody (Str "2024-13-45") Undefined)).2
  = mkResponse 201
      (Payload (TripRoutes.OneTrip sampleTripId
                  (Trip.mkDoc "665f1c2ab7e4a90d3c5e8f01" "NSC" "Ogle" "2024-13-45"
                              true IsNull))).
Proof. vm_compute. reflexivity. Qed.

(** [toISOString] prints the UTC date: 23:30 of 2024-01-05 at five hours
    behind UTC is an instant of 2024-01-06. *)
Example toISOString_is_utc :
  JsDate.toISOString 1704450600123 = "2024-01-05T10:30:00.123Z"
  /\ JsDate.toISOString (-1) = "1969-12-31T23:59:59.999Z"
  /\ JsDate.beforeT (JsDate.toISOString 1704515400000) = "2024-01-06".
Proof. repeat split; vm_compute; reflexivity. Qed.

(** ** Sorted query results *)
Section SortSpec.
Context {A : Type}.
Variable le : A -> A -> bool.

Lemma insertBy_perm x (l : list A) : Permutation (Sort.insertBy le x l) (x :: l).
Proof.
  induction l as [| y r IH]; simpl; [reflexivity |].
  destruct (le x y); [reflexivity |].
  rewrite IH. apply perm_swap.
Qed.

Lemma sortBy_perm (l : list A) : Permutation (Sort.sortBy le l) l.
Proof.
  induction l as [| x r IH]; simpl; [reflexivity |].
  rewrite insertBy_perm. now constructor.
Qed.

Hypothesis le_total : forall a b, le a b = false -> le b a = true.
Hypothesis le_trans : forall a b c, le a b = true -> le b c = true -> le a c = true.

Lemma insertBy_inOrder x (l : list A) :
  inOrder le l -> inOrder le (Sort.insertBy le x l).
Proof.
  unfold inOrder. induction l as [| y r IH]; intros Hl; simpl.
  - repeat constructor.
  - destruct (le x y) eqn:Hxy.
    + constructor; [exact Hl |].
      constructor; [exact Hxy |].
      apply StronglySorted_inv in Hl. destruct Hl as [_ Hy].
      eapply List.Forall_impl; [| exact Hy].
      intros z Hz. now apply (le_trans x y z).
    + apply StronglySorted_inv in Hl. destruct Hl as [Hr Hy].
      constructor; [now apply IH |].
      rewrite insertBy_perm.
      constructor; [now apply le_total | exact Hy].
Qed.

Lemma sortBy_inOrder (l : list A) : inOrder le (Sort.sortBy le l).
Proof.
  induction l as [| x r IH]; simpl; [constructor |].
  now apply insertBy_inOrder.
Qed.

End SortSpec.

Lemma ascii_compare_lt_trans a b c :
  Ascii.compare a b = Lt -> Ascii.compare b c = Lt -> Ascii.compare a c = Lt.
Proof.
  unfold Ascii.compare. rewrite !N.compare_lt_iff. lia.
Qed.

Lemma ascii_compare_eq a b : Ascii.compare a b = Eq -> a = b.
Proof. apply Ascii.compare_eq_iff. Qed.

Lemma string_compare_lt_trans a : forall b c,
  String.compare a b = Lt -> String.compare b c = Lt -> String.compare a c = Lt.
Proof.
  induction a as [| x a IH]; intros [| y b] [| z c]; simpl; try discriminate; auto.
  destruct (Ascii.compare x y) eqn:Hxy; try discriminate.
  - apply ascii_compare_eq in Hxy. subst y.
    destruct (Ascii.compare x z); try discriminate; auto.
    apply IH.
  - destruct (Ascii.compare y z) eqn:Hyz; try discriminate.
    + apply ascii_compare_eq in Hyz. subst z. now rewrite Hxy.
    + now rewrite (ascii_compare_lt_trans x y z Hxy Hyz).
Qed.

Lemma string_leb_trans a b c :
  String.leb a b = true -> String.leb b c = true -> String.leb a c = true.
Proof.
  unfold String.leb. intros Hab Hbc.
  destruct (String.compare a b) eqn:Cab; try discriminate.
  - apply String.compare_eq_iff in Cab. now subst b.
  - destruct (String.compare b c) eqn:Cbc; try discriminate.
    + apply String.compare_eq_iff in Cbc. subst c. now rewrite Cab.
    + now rewrite (string_compare_lt_trans a b c Cab Cbc).
Qed.

Lemma string_leb_false a b : String.leb a b = false -> String.leb b a = true.
Proof.
  intros H. destruct (String.leb_total a b) as [Hab | Hba]; congruence.
Qed.

(** ** The trip queries *)
Section TripQuerySpec.
Variable isObjectId : string -> bool.

Lemma byTripDateDesc_total a b :
  TripQueries.byTripDateDesc a b = false -> TripQueries.byTripDateDesc b a = true.
Proof. apply string_leb_false. Qed.

Lemma byTripDateDesc_trans a b c :
  TripQueries.byTripDateDesc a b = true -> TripQueries.byTripDateDesc b c = true ->
  TripQueries.byTripDateDesc a c = true.
Proof.
  unfold TripQueries.byTripDateDesc. intros Hab Hbc.
  exact (string_leb_trans _ _ _ Hbc Hab).
Qed.

(** GET /api/trips, with the driver quiet, answers 200 with every stored
    trip exactly once, the later trip date first. *)
Theorem trips_index_sorted (f : Faults) (db : Db)
        (H0 : f 0%nat = None) (H1 : f 1%nat = None) :
  exists l,
    TripQueries.index f db = mkResponse 200 (Payload (TripRoutes.ManyTrips l))
    /\ Permutation l (map_to_list (trips db))
    /\ (forall id t, (id, t) ∈ l <-> trips db !! id = Some t)
    /\ inOrder TripQueries.byTripDateDesc l.
Proof.
  unfold TripQueries.index, TripQueries.indexTry. run. rewrite H0, H1.
  eexists. split; [reflexivity |].
  split; [apply sortBy_perm |].
  split.
  - intros id t. rewrite sortBy_perm. apply elem_of_map_to_list.
  - apply sortBy_inOrder; [apply byTripDateDesc_total | apply byTripDateDesc_trans].
Qed.

(** GET /api/trips/passenger/:passengerId, with the driver quiet: a blank
    id is answered 400; when no trip names the trimmed id the answer is
    404, not an empty list; otherwise it is 200 with exactly the trips
    that name the trimmed id, the later trip date first. *)
Theorem trips_of_passenger (f : Faults) (db : Db) (passengerId : string)
        (H0 : f 0%nat = None) (H1 : f 1%nat = None) :
  (Js.trim passengerId = "" ->
   TripQueries.ofPassenger f db passengerId
   = fail 400 "Validation failed" "Passenger ID is required")
  /\ (Js.trim passengerId <> "" ->
      (forall id t, trips db !! id = Some t ->
                    Trip.passengerId t <> Js.trim passengerId) ->
      TripQueries.ofPassenger f db passengerId
      = fail 404 "Not found" "No trips found for this passenger")
  /\ (Js.trim passengerId <> "" ->
      forall id0 t0, trips db !! id0 = Some t0 ->
        Trip.passengerId t0 = Js.trim passengerId ->
        exists l,
          TripQueries.ofPassenger f db passengerId
          = mkResponse 200 (Payload (TripRoutes.ManyTrips l))
          /\ (forall id t, (id, t) ∈ l <->
                trips db !! id = Some t /\ Trip.passengerId t = Js.trim passengerId)
          /\ inOrder TripQueries.byTripDateDesc l).
Proof.
  unfold TripQueries.ofPassenger, TripQueries.ofPassengerTry. run. rewrite H0.
  split; [intros ->; reflexivity |].
  assert (Hmem : forall id t,
             (id, t) ∈ Sort.sortBy TripQueries.byTripDateDesc
                         (map_to_list (TripQueries.tripsOf (Js.trim passengerId)
                                                           (trips db)))
             <-> trips db !! id = Some t /\ Trip.passengerId t = Js.trim passengerId).
  { intros id t. rewrite sortBy_perm, elem_of_map_to_list.
    unfold TripQueries.tripsOf. rewrite map_lookup_filter_Some. reflexivity. }
  split.
  - intros Hne Hnone.
    destruct (String.eqb_spec (Js.trim passengerId) "") as [| _]; [contradiction |].
    rewrite H1.
    destruct (Sort.sortBy _ _) as [| [id t] rest] eqn:Hsorted; [reflexivity |].
    exfalso. destruct (proj1 (Hmem id t)) as [Hin Hp]; [constructor |].
    exact (Hnone id t Hin Hp).
  - intros Hne id0 t0 Hin0 Hp0.
    destruct (String.eqb_spec (Js.trim passengerId) "") as [| _]; [contradiction |].
    rewrite H1.
    destruct (Sort.sortBy _ _) as [| kt rest] eqn:Hsorted.
    + exfalso. pose proof (proj2 (Hmem id0 t0) (conj Hin0 Hp0)) as Habs.
      inversion Habs.
    + eexists. split; [reflexivity |].
      split; [exact Hmem |]. rewrite <- Hsorted.
      apply sortBy_inOrder; [apply byTripDateDesc_total | apply byTripDateDesc_trans].
Qed.

End TripQuerySpec.

(** ** The trip edits *)
Section TripEditSpec.
Variable Date_parse : string -> option Z.
Variable isObjectId : string -> bool.

Local Abbreviation confirm := (TripEdits.confirm isObjectId).
Local Abbreviation removeTrip := (TripEdits.remove isObjectId).
Local Abbreviation setCount := (TripEdits.setCount isObjectId).
Local Abbreviation getTrip := (TripQueries.get isObjectId).
Local Abbreviation createTrip := (TripRoutes.create Date_parse).
Local Abbreviation updateTrip := (TripRoutes.update Date_parse isObjectId).

(** What [findByIdAndSet] returns says what it found. *)
Lemma findByIdAndSet_cases f n db id change :
  match TripEdits.findByIdAndSet isObjectId f n db id change with
  | Ok (db', None) => db' = db /\ trips db !! id = None
  | Ok (db', Some t') =>
      exists t, trips db !! id = Some t /\ t' = change t
                /\ db' = TripRoutes.setTrips db (<[id := change t]> (trips db))
  | Throw _ => True
  end.
Proof.
  unfold TripEdits.findByIdAndSet. run.
  destruct (isObjectId id); [| exact I].
  destruct (f n); [exact I |].
  destruct (trips db !! id) as [t |]; [| now split].
  exists t. now repeat split.
Qed.


Lemma value_eq_undefined (v : value) : v = Undefined \/ v <> Undefined.
Proof. destruct v; (now left) || (right; discriminate). Qed.

(** The two routes past their checks of the body. *)
Lemma confirmTry_defined f db id v :
  v <> Undefined ->
  TripEdits.confirmTry isObjectId f db id v
  = (_ ← dbConnect f 0;
     '(db', updatedTrip) ←
       TripEdits.findByIdAndSet isObjectId f 1 db id
         (fun t => TripEdits.withConfirmed t (Js.ToBoolean v));
     match updatedTrip with
     | None => Ok (db', TripRoutes.notFound)
     | Some t => Ok (db', mkResponse 200 (Payload (TripRoutes.OneTrip id t)))
     end).
Proof. intros Hv. destruct v; try contradiction; reflexivity. Qed.

Lemma setCountTry_read f db id v n :
  Js.parseInt v = Some (Js.Finite n) ->
  TripEdits.setCountTry isObjectId f db id v
  = (_ ← dbConnect f 0;
     if n <? 1
     then Ok (db, fail 400 "Validation failed"
                       "numberOfPassengers must be a positive integer")
     else
       '(db', updatedTrip) ←
         TripEdits.findByIdAndSet isObjectId f 1 db id
           (fun t => TripEdits.withCount t (Val n));
       match updatedTrip with
       | None => Ok (db', TripRoutes.notFound)
       | Some t => Ok (db', mkResponse 200 (Payload (TripRoutes.OneTrip id t)))
       end).
Proof.
  intros Hn. unfold TripEdits.setCountTry.
  destruct v; try discriminate; rewrite Hn; reflexivity.
Qed.

Lemma setCountTry_unread f db id v :
  Js.parseInt v = None \/ Js.parseInt v = Some (Js.Infinity true) ->
  TripEdits.setCountTry isObjectId f db id v
  = (_ ← dbConnect f 0;
     Ok (db, fail 400 "Validation failed"
                  (match v with
                   | Undefined | Null => "numberOfPassengers field is required"
                   | _ => "numberOfPassengers must be a positive integer"
                   end))).
Proof.
  intros [Hn | Hn]; unfold TripEdits.setCountTry;
    destruct v; try reflexivity; try discriminate; rewrite Hn; reflexivity.
Qed.

Lemma setCountTry_infinite f db id v :
  Js.parseInt v = Some (Js.Infinity false) ->
  TripEdits.setCountTry isObjectId f db id v
  = (_ ← dbConnect f 0;
     _ ← castId isObjectId id;
     Throw (ValidationError
              "Validation failed: numberOfPassengers: Number of passengers must be a positive integer or empty")).
Proof.
  intros Hn. unfold TripEdits.setCountTry.
  destruct v; try discriminate; rewrite Hn; reflexivity.
Qed.

(** Every way a confirmation can end. *)
Lemma confirm_cases f db id v :
  ((confirm f db id v).1 = db /\ status (confirm f db id v).2 <> 200)
  \/ exists t,
       trips db !! id = Some t /\ v <> Undefined
       /\ confirm f db id v
          = (TripRoutes.setTrips db
               (<[id := TripEdits.withConfirmed t (Js.ToBoolean v)]> (trips db)),
             mkResponse 200
               (Payload (TripRoutes.OneTrip id
                           (TripEdits.withConfirmed t (Js.ToBoolean v))))).
Proof.
  destruct (value_eq_undefined v) as [-> | Hv].
  - left. unfold TripEdits.confirm, TripEdits.confirmTry. run.
    destruct (f 0%nat);
      [split; [reflexivity | apply trip_handleError_not_200] |].
    split; [reflexivity | discriminate].
  - unfold TripEdits.confirm. rewrite (confirmTry_defined f db id v Hv). run.
    destruct (f 0%nat);
      [left; split; [reflexivity | apply trip_handleError_not_200] |].
    pose proof (findByIdAndSet_cases f 1 db id
                  (fun t => TripEdits.withConfirmed t (Js.ToBoolean v))) as Hcases.
    destruct (TripEdits.findByIdAndSet isObjectId f 1 db id _)
      as [[db' [t' |]] | err]; simpl.
    + destruct Hcases as (trip & Ht & -> & ->). right. exists trip.
      now repeat split.
    + destruct Hcases as [-> _]. left. split; [reflexivity | discriminate].
    + left. split; [reflexivity | apply trip_handleError_not_200].
Qed.


(** Every way the deletion of a trip can end. *)
Lemma trip_delete_cases f db id :
  ((removeTrip f db id).1 = db /\ status (removeTrip f db id).2 <> 200)
  \/ (is_Some (trips db !! id) /\ isObjectId id = true
      /\ removeTrip f db id
         = (TripRoutes.setTrips db (delete id (trips db)),
            mkResponse 200 (Payload (TripRoutes.TripDeleted id)))).
Proof.
  unfold TripEdits.remove, TripEdits.removeTry. run.
  destruct (f 0%nat);
    [left; split; [reflexivity | apply trip_handleError_not_200] |].
  destruct (isObjectId id);
    [| left; split; [reflexivity | apply trip_handleError_not_200]].
  destruct (f 1%nat);
    [left; split; [reflexivity | apply trip_handleError_not_200] |].
  destruct (trips db !! id) as [t |] eqn:Ht.
  - right. split; [now exists t |]. now split.
  - left. split; [reflexivity | discriminate].
Qed.

(** The deletion of a trip removes that trip and no other: under every
    driver the call either leaves the database as it is, with an answer
    that is not 200, or deletes the stored trip of the id and answers
    200; with the id well formed and the driver quiet, a stored trip is
    deleted and an unknown id is answered 404. *)
Theorem trip_delete_exact (f : Faults) (db : Db) (id : string) :
  (((removeTrip f db id).1 = db /\ status (removeTrip f db id).2 <> 200)
   \/ (is_Some (trips db !! id) /\ isObjectId id = true
       /\ removeTrip f db id
          = (TripRoutes.setTrips db (delete id (trips db)),
             mkResponse 200 (Payload (TripRoutes.TripDeleted id)))))
  /\ (forall k, k <> id -> trips (removeTrip f db id).1 !! k = trips db !! k)
  /\ (isObjectId id = true -> f 0%nat = None -> f 1%nat = None ->
      match trips db !! id with
      | Some _ =>
          removeTrip f db id
          = (TripRoutes.setTrips db (delete id (trips db)),
             mkResponse 200 (Payload (TripRoutes.TripDeleted id)))
      | None => removeTrip f db id = (db, TripRoutes.notFound)
      end).
Proof.
  pose proof (trip_delete_cases f db id) as Hcases.
  split; [exact Hcases |].
  split.
  { intros k Hne. destruct Hcases as [[-> _] | (_ & _ & ->)]; [reflexivity |].
    simpl. now apply lookup_delete_ne. }
  intros Hid H0 H1. unfold TripEdits.remove, TripEdits.removeTry. run.
  rewrite H0, Hid, H1. now destruct (trips db !! id).
Qed.

(** Every way setting the count can end. *)
Lemma setCount_cases f db id v :
  ((setCount f db id v).1 = db /\ status (setCount f db id v).2 <> 200)
  \/ exists t n,
       trips db !! id = Some t /\ Js.parseInt v = Some (Js.Finite n) /\ 1 <= n
       /\ setCount f db id v
          = (TripRoutes.setTrips db
               (<[id := TripEdits.withCount t (Val n)]> (trips db)),
             mkResponse 200
               (Payload (TripRoutes.OneTrip id (TripEdits.withCount t (Val n))))).
Proof.
  destruct (Js.parseInt v) as [[n | [|]] |] eqn:Hparse.
  - unfold TripEdits.setCount. rewrite (setCountTry_read f db id v n Hparse). run.
    destruct (f 0%nat);
      [left; split; [reflexivity | apply trip_handleError_not_200] |].
    destruct (Z.ltb_spec n 1) as [Hlt | Hge];
      [left; split; [reflexivity | discriminate] |].
    pose proof (findByIdAndSet_cases f 1 db id
                  (fun t => TripEdits.withCount t (Val n))) as Hcases.
    destruct (TripEdits.findByIdAndSet isObjectId f 1 db id _)
      as [[db' [t' |]] | err]; simpl.
    + destruct Hcases as (trip & Ht & -> & ->). right. exists trip, n.
      now repeat split.
    + destruct Hcases as [-> _]. left. split; [reflexivity | discriminate].
    + left. split; [reflexivity | apply trip_handleError_not_200].
  - left. unfold TripEdits.setCount.
    rewrite (setCountTry_unread f db id v (or_intror Hparse)).
    run. destruct (f 0%nat);
      [split; [reflexivity | apply trip_handleError_not_200] |].
    split; [reflexivity | discriminate].
  - left. unfold TripEdits.setCount. rewrite (setCountTry_infinite f db id v Hparse).
    run. destruct (f 0%nat);
      [split; [reflexivity | apply trip_handleError_not_200] |].
    destruct (isObjectId id); split;
      first [reflexivity | apply trip_handleError_not_200].
  - left. unfold TripEdits.setCount.
    rewrite (setCountTry_unread f db id v (or_introl Hparse)).
    run. destruct (f 0%nat);
      [split; [reflexivity | apply trip_handleError_not_200] |].
    split; [reflexivity | discriminate].
Qed.


End TripEditSpec.

(** ** The routes that write trips, together *)
Section TripWriteSpec.
Variable Date_parse : string -> option Z.
Variable isObjectId : string -> bool.

Local Abbreviation createTrip := (TripRoutes.create Date_parse).
Local Abbreviation updateTrip := (TripRoutes.update Date_parse isObjectId).
Local Abbreviation getTrip := (TripQueries.get isObjectId).
Local Abbreviation removeTrip := (TripEdits.remove isObjectId).
Local Abbreviation incrementTrip := (TripRoutes.increment isObjectId).
Local Abbreviation decrementTrip := (TripRoutes.decrement isObjectId).

Lemma castCount_valid e c s :
  TripRoutes.castCount e c = Ok s ->
  s = IsNull \/ exists n, s = Val n /\ 1 <= n.
Proof.
  destruct c as [| | n | negative]; simpl; try discriminate.
  - intros [= <-]. now left.
  - destruct (Z.leb_spec 1 n); [| discriminate]. intros [= <-]. right. now exists n.
Qed.

(** Every way a creation can end. *)
Lemma create_cases f db newId b :
  ((createTrip f db newId b).1 = db /\ status (createTrip f db newId b).2 <> 201)
  \/ exists date c e,
       TripRoutes.formatTripDate Date_parse (b_tripDate b) = Ok date
       /\ trips db !! newId = None
       /\ TripRoutes.castCount e (TripRoutes.countArg (b_numberOfPassengers b)) = Ok c
       /\ createTrip f db newId b
          = (TripRoutes.setTrips db
               (<[newId := TripRoutes.docOf (TripRoutes.tripDataOf b date) c]> (trips db)),
             mkResponse 201
               (Payload (TripRoutes.OneTrip newId
                           (TripRoutes.docOf (TripRoutes.tripDataOf b date) c)))).
Proof.
  unfold TripRoutes.create, TripRoutes.createTry, TripRoutes.save. run.
  destruct (f 0%nat);
    [left; split; [reflexivity | apply trip_handleError_not_201] |].
  destruct (TripRoutes.missingField b) as [[|] | err];
    [left; split; [reflexivity | discriminate] | |
     left; split; [reflexivity | apply trip_handleError_not_201]].
  destruct (TripRoutes.formatTripDate Date_parse (b_tripDate b)) as [d | err];
    [| left; split; [reflexivity | discriminate]].
  simpl.
  destruct (TripRoutes.castCount _ (TripRoutes.countArg (b_numberOfPassengers b)))
    as [c | err] eqn:Hcount;
    [| left; split; [reflexivity | apply trip_handleError_not_201]].
  destruct (f 1%nat);
    [left; split; [reflexivity | apply trip_handleError_not_201] |].
  destruct (trips db !! newId) eqn:Hfresh;
    [left; split; [reflexivity | apply trip_handleError_not_201] |].
  right. exists d, c. eexists.
  split; [reflexivity |]. split; [reflexivity |]. split; [exact Hcount | reflexivity].
Qed.

(** Every way a full update can end. *)
Lemma update_cases f db id b :
  ((updateTrip f db id b).1 = db /\ status (updateTrip f db id b).2 <> 200)
  \/ exists d c e,
       is_Some (trips db !! id)
       /\ TripRoutes.castCount e (TripRoutes.d_numberOfPassengers d) = Ok c
       /\ updateTrip f db id b
          = (TripRoutes.setTrips db (<[id := TripRoutes.docOf d c]> (trips db)),
             mkResponse 200 (Payload (TripRoutes.OneTrip id (TripRoutes.docOf d c)))).
Proof.
  unfold TripRoutes.update, TripRoutes.updateTry. run.
  destruct (f 0%nat);
    [left; split; [reflexivity | apply trip_handleError_not_200] |].
  destruct (TripRoutes.missingField b) as [[|] | err];
    [left; split; [reflexivity | discriminate] | |
     left; split; [reflexivity | apply trip_handleError_not_200]].
  destruct (TripRoutes.formatTripDate Date_parse (b_tripDate b)) as [d | err];
    [| left; split; [reflexivity | discriminate]].
  simpl.
  destruct (isObjectId id);
    [| left; split; [reflexivity | apply trip_handleError_not_200]].
  destruct (TripRoutes.castCount _ (TripRoutes.countArg (b_numberOfPassengers b)))
    as [c | err] eqn:Hcount;
    [| left; split; [reflexivity | apply trip_handleError_not_200]].
  destruct (f 1%nat);
    [left; split; [reflexivity | apply trip_handleError_not_200] |].
  destruct (trips db !! id) as [old |] eqn:Hold;
    [| left; split; [reflexivity | discriminate]].
  right. exists (TripRoutes.tripDataOf b d), c. eexists.
  split; [now exists old |]. split; [exact Hcount | reflexivity].
Qed.

Lemma countsValid_insert db id t :
  countsValid db ->
  (Trip.numberOfPassengers t = IsNull
   \/ exists n, Trip.numberOfPassengers t = Val n /\ 1 <= n) ->
  countsValid (TripRoutes.setTrips db (<[id := t]> (trips db))).
Proof.
  intros Hdb Ht k u. simpl. destruct (decide (k = id)) as [-> | Hne].
  - rewrite lookup_insert_eq. now intros [= <-].
  - rewrite lookup_insert_ne by congruence. apply Hdb.
Qed.

Lemma countsValid_delete db id :
  countsValid db -> countsValid (TripRoutes.setTrips db (delete id (trips db))).
Proof.
  intros Hdb k u. simpl. destruct (decide (k = id)) as [-> | Hne].
  - now rewrite lookup_delete_eq.
  - rewrite lookup_delete_ne by congruence. apply Hdb.
Qed.

Lemma perform_valid db c :
  countsValid db -> countsValid (perform Date_parse isObjectId db c).
Proof.
  intros Hdb. destruct c as [f newId b | f id b | f id v | f id | f id v | f id | f id];
    simpl.
  - destruct (create_cases f db newId b) as [[-> _] | (d & c & e & _ & _ & Hc & ->)];
      [exact Hdb |].
    apply countsValid_insert; [exact Hdb |]. apply (castCount_valid _ _ _ Hc).
  - destruct (update_cases f db id b) as [[-> _] | (d & c & e & _ & Hc & ->)];
      [exact Hdb |].
    apply countsValid_insert; [exact Hdb |]. apply (castCount_valid _ _ _ Hc).
  - destruct (confirm_cases isObjectId f db id v) as [[-> _] | (t & Ht & _ & ->)];
      [exact Hdb |].
    apply countsValid_insert; [exact Hdb |]. apply (Hdb id t Ht).
  - destruct (trip_delete_cases isObjectId f db id) as [[-> _] | (_ & _ & ->)];
      [exact Hdb |].
    now apply countsValid_delete.
  - destruct (setCount_cases isObjectId f db id v)
      as [[-> _] | (t & n & _ & _ & Hn & ->)]; [exact Hdb |].
    apply countsValid_insert; [exact Hdb |]. right. now exists n.
  - destruct (increment_never_writes isObjectId f db id) as [-> _]. exact Hdb.
  - destruct (decrement_never_writes isObjectId f db id) as [-> _]. exact Hdb.
Qed.

(** The count of a stored trip stays [null] or an integer from 1 on: in a
    collection where every trip has its [numberOfPassengers] so, every
    sequence of calls of the seven routes that write trips (create, full
    update, confirm, delete, set, increment, decrement), with whatever
    bodies and under whatever drivers, leaves it so. *)
Theorem counts_stay_valid (calls : list TripCall) (db : Db)
        (Hvalid : countsValid db) :
  countsValid (fold_left (perform Date_parse isObjectId) calls db).
Proof.
  revert db Hvalid. induction calls as [| c calls IH]; intros db Hvalid; simpl.
  - exact Hvalid.
  - apply IH. now apply perform_valid.
Qed.

(** What is created can be read, and what is deleted cannot: after a
    creation answered 201 with a trip, a GET of the new id on the database
    it left answers 200 with the same trip, and after a deletion answered
    200 a GET of the id answers 404 (the id well formed, the driver of the
    GET quiet). *)
Theorem trip_round_trip (f g : Faults) (db : Db) (id : string)
        (Hid : isObjectId id = true) (H0 : g 0%nat = None) (H1 : g 1%nat = None) :
  (forall b, status (createTrip f db id b).2 = 201 ->
     exists t,
       (createTrip f db id b).2 = mkResponse 201 (Payload (TripRoutes.OneTrip id t))
       /\ trips db !! id = None
       /\ getTrip g (createTrip f db id b).1 id
          = mkResponse 200 (Payload (TripRoutes.OneTrip id t)))
  /\ (status (removeTrip f db id).2 = 200 ->
      is_Some (trips db !! id)
      /\ getTrip g (removeTrip f db id).1 id = TripRoutes.notFound).
Proof.
  assert (Hget : forall db', getTrip g db' id
                             = match trips db' !! id with
                               | Some t => mkResponse 200 (Payload (TripRoutes.OneTrip id t))
                               | None => TripRoutes.notFound
                               end).
  { intros db'. unfold TripQueries.get, TripQueries.getTry. run.
    rewrite H0, Hid, H1. now destruct (trips db' !! id). }
  split.
  - intros b Hcreated.
    destruct (create_cases f db id b)
      as [[_ Hno] | (d & c & e & _ & Hfresh & _ & Heq)]; [contradiction |].
    exists (TripRoutes.docOf (TripRoutes.tripDataOf b d) c). rewrite Heq.
    split; [reflexivity |].
    split; [exact Hfresh |].
    rewrite Hget. simpl. now rewrite lookup_insert_eq.
  - intros Hdeleted.
    destruct (trip_delete_cases isObjectId f db id)
      as [[_ Hno] | (Hsome & _ & Heq)]; [contradiction |].
    split; [exact Hsome |].
    rewrite Hget, Heq. simpl. now rewrite lookup_delete_eq.
Qed.

(** A trip is found under its date: after a creation answered 201 for a
    body whose date is the string [s], a GET of the trips of the date
    [s] on the database it left (the driver quiet) answers 200 with the
    new trip in the list, and the list holds exactly the stored trips
    whose date is the one stored in the new trip. *)
Theorem trip_found_by_its_date (f g : Faults) (db : Db) (id : string)
        (b : TripRoutes.TripBody) (s : string)
        (Hcreated : status (createTrip f db id b).2 = 201)
        (Hdate : b_tripDate b = Str s)
        (H0 : g 0%nat = None) (H1 : g 1%nat = None) :
  exists t l,
    (createTrip f db id b).2 = mkResponse 201 (Payload (TripRoutes.OneTrip id t))
    /\ TripRoutes.byDate Date_parse g (createTrip f db id b).1 s
       = mkResponse 200 (Payload (TripRoutes.ManyTrips l))
    /\ (id, t) ∈ l
    /\ (forall k t', (k, t') ∈ l <->
          trips (createTrip f db id b).1 !! k = Some t'
          /\ Trip.tripDate t' = Trip.tripDate t).
Proof.
  destruct (create_cases f db id b)
    as [[_ Hno] | (d & c & e & Hformat & _ & _ & Heq)]; [contradiction |].
  rewrite Hdate in Hformat.
  exists (TripRoutes.docOf (TripRoutes.tripDataOf b d) c).
  eexists. rewrite Heq. split; [reflexivity |].
  split.
  { unfold TripRoutes.byDate, TripRoutes.byDateTry, mbind, Result_bind, Js.bind,
      dbConnect, await.
    rewrite H0, Hformat, H1. reflexivity. }
  split.
  - apply elem_of_map_to_list, map_lookup_filter_Some. simpl.
    split; [apply lookup_insert_eq | reflexivity].
  - intros k t'. rewrite elem_of_map_to_list, map_lookup_filter_Some. reflexivity.
Qed.

End TripWriteSpec.

(** ** The routes behind [auth] and [admin] *)
Section GuardSpec.
Variable jwt_verify : string -> Result string.
Variable isObjectId : string -> bool.
Variable objectIdHex : string -> string.

Local Abbreviation guard := (PassengerCrud.adminOnly isObjectId jwt_verify).

Lemma auth_onError_status err :
  status (Auth.onError err) = 401 \/ status (Auth.onError err) = 503.
Proof.
  unfold Auth.onError.
  repeat match goal with |- context [if ?c then _ else _] => destruct c end;
    simpl; auto.
Qed.

(** Every way [auth] can end: an answer 401 or 503, or the request handed
    on with the stored user the verified token names. *)
Lemma auth_cases f db req :
  match Auth.auth jwt_verify isObjectId f db req with
  | Respond r => status r = 401 \/ status r = 503
  | Next req' =>
      exists h uid u,
        authorization req = Some h /\ Js.startsWith h "Bearer " = true
        /\ jwt_verify (bearerToken h) = Ok uid /\ users db !! uid = Some u
        /\ isObjectId uid = true
        /\ req' = mkRequest (authorization req) (Some (bearerToken h))
                            (Some (User.selectPublic u)) (Some (User._id u))
  end.
Proof.
  unfold Auth.auth, Auth.authTry. run.
  destruct (f 0%nat); [apply auth_onError_status |].
  destruct (authorization req) as [h |]; [| now left].
  destruct (String.eqb h ""); [now left |].
  destruct (Js.startsWith h "Bearer ") eqn:Hpre; [| now left]. simpl.
  fold (bearerToken h).
  destruct (String.eqb (bearerToken h) ""); [now left |].
  destruct (jwt_verify (bearerToken h)) as [uid | err] eqn:Hverify;
    [| apply auth_onError_status].
  destruct (isObjectId uid) eqn:Hid; [| apply auth_onError_status].
  destruct (f 1%nat); [apply auth_onError_status |].
  destruct (users db !! uid) as [u |] eqn:Hu; [| now left]. simpl.
  exists h, uid, u. now repeat split.
Qed.

(** Every way the chain [[auth, admin]] can end. *)
Lemma guard_cases f db req :
  match Express.chain guard f db req with
  | Respond r => status r = 401 \/ status r = 403 \/ status r = 503
  | Next req' =>
      exists h uid u,
        authorization req = Some h /\ Js.startsWith h "Bearer " = true
        /\ jwt_verify (bearerToken h) = Ok uid /\ users db !! uid = Some u
        /\ User.isAdmin u = true
        /\ req' = mkRequest (authorization req) (Some (bearerToken h))
                            (Some (User.selectPublic u)) (Some (User._id u))
  end.
Proof.
  unfold PassengerCrud.adminOnly. simpl.
  pose proof (auth_cases f db req) as Hauth.
  destruct (Auth.auth jwt_verify isObjectId f db req) as [r | req'].
  - destruct Hauth as [-> | ->]; auto.
  - destruct Hauth as (h & uid & u & Hh & Hpre & Hv & Hu & _ & ->).
    unfold pureMiddleware, Admin.admin. simpl.
    destruct (User.isAdmin u) eqn:Hadmin; simpl.
    + exists h, uid, u. now repeat split.
    + auto.
Qed.

Lemma route_guarded {D} fm (handler : Request -> Db -> Db * Response D) db req :
  guardedOutcome jwt_verify db req (Express.route guard fm handler db req).
Proof.
  unfold guardedOutcome, Express.route.
  pose proof (guard_cases fm db req) as Hguard.
  destruct (Express.chain guard fm db req) as [r | req'].
  - simpl. now split.
  - destruct (handler req' db) as [db' r]. simpl.
    destruct Hguard as (h & uid & u & Hh & Hpre & Hv & Hu & Hadmin & _).
    now exists h, uid, u.
Qed.

Lemma route_reached {D} fm (handler : Request -> Db -> Db * Response D) db req h uid u :
  fm 0%nat = None -> fm 1%nat = None ->
  authorization req = Some h -> Js.startsWith h "Bearer " = true ->
  bearerToken h <> "" -> jwt_verify (bearerToken h) = Ok uid ->
  isObjectId uid = true -> users db !! uid = Some u -> User.isAdmin u = true ->
  Express.route guard fm handler db req
  = ((handler (mkRequest (authorization req) (Some (bearerToken h))
                         (Some (User.selectPublic u)) (Some (User._id u))) db).1,
     Express.Handled
       (handler (mkRequest (authorization req) (Some (bearerToken h))
                           (Some (User.selectPublic u)) (Some (User._id u))) db).2).
Proof.
  intros H0 H1 Hh Hpre Htok Hv Hid Hu Hadmin.
  unfold Express.route, PassengerCrud.adminOnly. simpl.
  unfold Auth.auth, Auth.authTry. run. rewrite H0, Hh.
  rewrite (startsWith_nonempty h Hpre), Hpre. simpl. fold (bearerToken h).
  destruct (String.eqb_spec (bearerToken h) "") as [Heq | _]; [contradiction |].
  rewrite Hv, Hid, H1, Hu. simpl.
  unfold pureMiddleware, Admin.admin. simpl. rewrite Hadmin. simpl.
  now destruct (handler _ db).
Qed.

(** Nothing gets past the guard: on each of the six routes modelled here
    that are mounted behind [[auth, admin]] (POST, PUT /:id and
    DELETE /:id of the passengers; DELETE /:id, GET / and GET /:id of the
    users), whatever the drivers do, a request is answered 401, 403 or
    503 by a middleware, and the database is left as it is, unless it
    carries a bearer token that [jwt.verify] accepts and that names a
    stored user who is an administrator. *)
Theorem admin_routes_guarded (fm f : Faults) (db : Db) (req : Request)
        (id : string) (b : PassengerCrud.PassengerBody) :
  guardedOutcome jwt_verify db req
    (PassengerCrud.postRoute isObjectId jwt_verify fm f id b db req)
  /\ guardedOutcome jwt_verify db req
       (PassengerCrud.putRoute isObjectId jwt_verify fm f id b db req)
  /\ guardedOutcome jwt_verify db req
       (PassengerCrud.deleteRoute isObjectId jwt_verify objectIdHex fm f id db req)
  /\ guardedOutcome jwt_verify db req
       (UserAdmin.deleteRoute isObjectId jwt_verify fm f id db req)
  /\ guardedOutcome jwt_verify db req
       (UserReads.indexRoute isObjectId jwt_verify fm f db req)
  /\ guardedOutcome jwt_verify db req
       (UserReads.getRoute isObjectId jwt_verify fm f id db req).
Proof.
  repeat split; apply route_guarded.
Qed.

(** An administrator gets through: with the drivers of the middlewares
    quiet, a request whose bearer token [jwt.verify] accepts, naming a
    stored administrator, reaches the handler of the route, and the
    answer and the database are the handler's. *)
Theorem admin_reaches_handler (fm f : Faults) (db : Db) (req : Request)
        (id : string) (b : PassengerCrud.PassengerBody) (h uid : string) (u : User.Doc)
        (H0 : fm 0%nat = None) (H1 : fm 1%nat = None)
        (Hh : authorization req = Some h) (Hpre : Js.startsWith h "Bearer " = true)
        (Htok : bearerToken h <> "") (Hv : jwt_verify (bearerToken h) = Ok uid)
        (Hid : isObjectId uid = true) (Hu : users db !! uid = Some u)
        (Hadmin : User.isAdmin u = true) :
  PassengerCrud.postRoute isObjectId jwt_verify fm f id b db req
  = ((PassengerCrud.create f db id b).1, Express.Handled (PassengerCrud.create f db id b).2)
  /\ PassengerCrud.putRoute isObjectId jwt_verify fm f id b db req
     = ((PassengerCrud.update isObjectId f db id b).1,
        Express.Handled (PassengerCrud.update isObjectId f db id b).2)
  /\ PassengerCrud.deleteRoute isObjectId jwt_verify objectIdHex fm f id db req
     = ((PassengerRoutes.remove isObjectId objectIdHex f db id).1,
        Express.Handled (PassengerRoutes.remove isObjectId objectIdHex f db id).2)
  /\ UserAdmin.deleteRoute isObjectId jwt_verify fm f id db req
     = ((UserAdmin.remove isObjectId f db id).1,
        Express.Handled (UserAdmin.remove isObjectId f db id).2).
Proof.
  split; [| split; [| split]].
  - exact (route_reached fm (fun _ db => PassengerCrud.create f db id b)
             db req h uid u H0 H1 Hh Hpre Htok Hv Hid Hu Hadmin).
  - exact (route_reached fm (fun _ db => PassengerCrud.update isObjectId f db id b)
             db req h uid u H0 H1 Hh Hpre Htok Hv Hid Hu Hadmin).
  - exact (route_reached fm
             (fun _ db => PassengerRoutes.remove isObjectId objectIdHex f db id)
             db req h uid u H0 H1 Hh Hpre Htok Hv Hid Hu Hadmin).
  - exact (route_reached fm (fun _ db => UserAdmin.remove isObjectId f db id)
             db req h uid u H0 H1 Hh Hpre Htok Hv Hid Hu Hadmin).
Qed.

End GuardSpec.

(** ** The passengers: create, read, update, list *)
Section PassengerCrudSpec.
Variable isObjectId : string -> bool.
Variable objectIdHex : string -> string.

Local Abbreviation createPassenger := PassengerCrud.create.
Local Abbreviation updatePassenger := (PassengerCrud.update isObjectId).
Local Abbreviation getPassenger := (PassengerCrud.get isObjectId).
Local Abbreviation removePassenger := (PassengerRoutes.remove isObjectId objectIdHex).

Lemma passenger_handleError_status err msg :
  status (PassengerCrud.handleError err msg) = 400
  \/ status (PassengerCrud.handleError err msg) = 503
  \/ status (PassengerCrud.handleError err msg) = 500.
Proof.
  unfold PassengerCrud.handleError.
  repeat match goal with |- context [if ?c then _ else _] => destruct c end;
    simpl; auto.
Qed.

Lemma passenger_handleError_not_200 err msg :
  status (PassengerCrud.handleError err msg) <> 200.
Proof.
  destruct (passenger_handleError_status err msg) as [-> | [-> | ->]]; discriminate.
Qed.

Lemma passenger_handleError_not_201 err msg :
  status (PassengerCrud.handleError err msg) <> 201.
Proof.
  destruct (passenger_handleError_status err msg) as [-> | [-> | ->]]; discriminate.
Qed.

(** A value that is not blank is a string with something left after the
    trim. *)
Lemma blank_false v :
  Js.blank v = Ok false -> exists s, v = Str s /\ Js.trim s <> "".
Proof.
  unfold Js.blank, Js.optTrim, Js.bind.
  destruct v as [| | ? | ? | s | ?]; try discriminate.
  intros [= H]. exists s. split; [reflexivity |].
  now apply String.eqb_neq.
Qed.

Lemma missingName_false b :
  PassengerCrud.missingName b = Ok false ->
  (exists s, PassengerCrud.b_firstName b = Str s /\ Js.trim s <> "")
  /\ (exists s, PassengerCrud.b_lastName b = Str s /\ Js.trim s <> "").
Proof.
  unfold PassengerCrud.missingName, TripRoutes.orElse, Js.bind.
  destruct (Js.blank (PassengerCrud.b_firstName b)) as [[|] | err] eqn:Hfirst;
    try discriminate.
  intros Hlast. split; now apply blank_false.
Qed.

Lemma missingName_present b :
  nonBlankString (PassengerCrud.b_firstName b) = true ->
  nonBlankString (PassengerCrud.b_lastName b) = true ->
  PassengerCrud.missingName b = Ok false.
Proof.
  intros Hfirst Hlast. unfold PassengerCrud.missingName, TripRoutes.orElse.
  now rewrite (blank_nonBlank _ Hfirst), (blank_nonBlank _ Hlast).
Qed.

(** Every way the creation of a passenger can end. *)
Lemma passenger_create_cases f db newId b :
  ((createPassenger f db newId b).1 = db
   /\ status (createPassenger f db newId b).2 <> 201)
  \/ exists p,
       passengers db !! newId = None
       /\ Passenger.firstName p = Js.trimOf (PassengerCrud.b_firstName b)
       /\ Passenger.lastName p = Js.trimOf (PassengerCrud.b_lastName b)
       /\ Passenger.firstName p <> "" /\ Passenger.lastName p <> ""
       /\ is_Some (Passenger.jobRole p)
       /\ createPassenger f db newId b
          = (PassengerRoutes.setPassengers db (<[newId := p]> (passengers db)),
             mkResponse 201 (Payload (PassengerCrud.OnePassenger newId p))).
Proof.
  unfold PassengerCrud.create, PassengerCrud.createTry. run.
  destruct (f 0%nat);
    [left; split; [reflexivity | apply passenger_handleError_not_201] |].
  destruct (PassengerCrud.missingName b) as [[|] | err] eqn:Hnames;
    [left; split; [reflexivity | discriminate] | |
     left; split; [reflexivity | apply passenger_handleError_not_201]].
  destruct (missingName_false b Hnames) as ((s1 & Hs1 & Hn1) & (s2 & Hs2 & Hn2)).
  destruct (UserRoutes.trimOr (PassengerCrud.b_jobRole b) "") as [j | err];
    [| left; split; [reflexivity | apply passenger_handleError_not_201]].
  destruct (f 1%nat);
    [left; split; [reflexivity | apply passenger_handleError_not_201] |].
  destruct (passengers db !! newId) eqn:Hfresh;
    [left; split; [reflexivity | apply passenger_handleError_not_201] |].
  right.
  exists (Passenger.mkDoc (Js.trimOf (PassengerCrud.b_firstName b))
                          (Js.trimOf (PassengerCrud.b_lastName b)) (Some j)).
  split; [reflexivity |].
  split; [reflexivity |]. split; [reflexivity |]. simpl.
  rewrite Hs1, Hs2. simpl.
  split; [exact Hn1 |]. split; [exact Hn2 |]. split; [now eexists | reflexivity].
Qed.

(** What is created can be read, and deleting it gives the passengers
    back as they were: after a creation answered 201 the stored passenger
    has the trimmed names of the body, neither empty; a GET of the new id
    answers 200 with it; and the DELETE of the id, the driver quiet and
    the id spelled as ObjectIds print, which the id that the creation
    returns is, ends in the database from before the creation, less the
    trips that named the id. *)
Theorem passenger_round_trip (f g : Faults) (db : Db) (id : string)
        (b : PassengerCrud.PassengerBody)
        (Hcreated : status (createPassenger f db id b).2 = 201)
        (Hid : isObjectId id = true) (Hquiet : forall n, g n = None) :
  exists p,
    (createPassenger f db id b).2
    = mkResponse 201 (Payload (PassengerCrud.OnePassenger id p))
    /\ Passenger.firstName p = Js.trimOf (PassengerCrud.b_firstName b)
    /\ Passenger.lastName p = Js.trimOf (PassengerCrud.b_lastName b)
    /\ Passenger.firstName p <> "" /\ Passenger.lastName p <> ""
    /\ getPassenger g (createPassenger f db id b).1 id
       = mkResponse 200 (Payload (PassengerCrud.OnePassenger id p))
    /\ (objectIdHex id = id ->
        removePassenger g (createPassenger f db id b).1 id
        = (TripRoutes.setTrips db (PassengerRoutes.deleteTripsOf id (trips db)),
           PassengerRoutes.deleted id)).
Proof.
  destruct (passenger_create_cases f db id b)
    as [[_ Hno] | (p & Hfresh & Hfirst & Hlast & Hn1 & Hn2 & _ & Heq)];
    [contradiction |].
  exists p. rewrite Heq. simpl.
  split; [reflexivity |]. split; [exact Hfirst |]. split; [exact Hlast |].
  split; [exact Hn1 |]. split; [exact Hn2 |].
  split.
  - unfold PassengerCrud.get, PassengerCrud.getTry. run.
    rewrite !Hquiet, Hid. simpl. now rewrite lookup_insert_eq.
  - intros Hspelled.
    unfold PassengerRoutes.remove, PassengerRoutes.withTransaction,
      PassengerRoutes.removeInTransaction. run.
    rewrite !Hquiet, Hid, Hspelled. simpl. rewrite lookup_insert_eq. simpl.
    rewrite ?Hquiet. simpl.
    rewrite (delete_insert_id _ _ _ Hfresh). destruct db. reflexivity.
Qed.

(** The job role under an update: with the id well formed, the driver
    quiet and both names given, the update of a stored passenger writes
    the trimmed names and, for the job role, keeps the stored one when
    the body leaves the field out, stores the empty string when the field
    is [null] or blank, and the trimmed string otherwise; a job role that
    is no string makes [trim] throw, the answer is 500 and nothing is
    written.  No other passenger is touched. *)
Theorem passenger_update_job_role (f : Faults) (db : Db) (id : string)
        (b : PassengerCrud.PassengerBody) (old : Passenger.Doc)
        (Hid : isObjectId id = true) (H0 : f 0%nat = None) (H1 : f 1%nat = None)
        (Hold : passengers db !! id = Some old)
        (Hfirst : nonBlankString (PassengerCrud.b_firstName b) = true)
        (Hlast : nonBlankString (PassengerCrud.b_lastName b) = true) :
  (forall role,
     match PassengerCrud.b_jobRole b with
     | Undefined => role = Passenger.jobRole old
     | Null => role = Some ""
     | Str s => role = Some (if String.eqb (Js.trim s) "" then "" else Js.trim s)
     | _ => False
     end ->
     updatePassenger f db id b
     = (PassengerRoutes.setPassengers db
          (<[id := Passenger.mkDoc (Js.trimOf (PassengerCrud.b_firstName b))
                                   (Js.trimOf (PassengerCrud.b_lastName b)) role]>
             (passengers db)),
        mkResponse 200
          (Payload (PassengerCrud.OnePassenger id
                      (Passenger.mkDoc (Js.trimOf (PassengerCrud.b_firstName b))
                                       (Js.trimOf (PassengerCrud.b_lastName b)) role)))))
  /\ (match PassengerCrud.b_jobRole b with
      | Bool _ | Number _ | DateObj _ => True
      | _ => False
      end ->
      updatePassenger f db id b
      = (db, mkResponse 500 (Failure "Failed to update passenger" None None)))
  /\ (forall k, k <> id ->
        passengers (updatePassenger f db id b).1 !! k = passengers db !! k).
Proof.
  assert (Hrun : updatePassenger f db id b
                 = match PassengerCrud.jobRoleUpdate (PassengerCrud.b_jobRole b) with
                   | Ok jobRole =>
                       let p := Passenger.mkDoc (Js.trimOf (PassengerCrud.b_firstName b))
                                  (Js.trimOf (PassengerCrud.b_lastName b))
                                  (match jobRole with
                                   | Some j => Some j
                                   | None => Passenger.jobRole old
                                   end) in
                       (PassengerRoutes.setPassengers db (<[id := p]> (passengers db)),
                        mkResponse 200 (Payload (PassengerCrud.OnePassenger id p)))
                   | Throw err =>
                       (db, PassengerCrud.handleError err "Failed to update passenger")
                   end).
  { unfold PassengerCrud.update, PassengerCrud.updateTry. run.
    rewrite H0, (missingName_present b Hfirst Hlast).
    destruct (PassengerCrud.jobRoleUpdate (PassengerCrud.b_jobRole b)) as [j | err];
      [| reflexivity].
    rewrite Hid, H1, Hold. reflexivity. }
  split; [| split].
  - intros role Hrole. rewrite Hrun.
    destruct (PassengerCrud.b_jobRole b) as [| | ? | ? | s | ?]; try contradiction;
      subst role; reflexivity.
  - intros Hrole. rewrite Hrun.
    destruct (PassengerCrud.b_jobRole b); try contradiction; reflexivity.
  - intros k Hne. rewrite Hrun.
    destruct (PassengerCrud.jobRoleUpdate _); [| reflexivity].
    simpl. now apply lookup_insert_ne.
Qed.

Lemma byName_total a b :
  PassengerCrud.byName a b = false -> PassengerCrud.byName b a = true.
Proof.
  unfold PassengerCrud.byName.
  rewrite (String.compare_antisym (Passenger.firstName b.2) (Passenger.firstName a.2)).
  destruct (String.compare (Passenger.firstName a.2) (Passenger.firstName b.2));
    simpl; try discriminate; [| reflexivity].
  apply string_leb_false.
Qed.

Lemma byName_trans a b c :
  PassengerCrud.byName a b = true -> PassengerCrud.byName b c = true ->
  PassengerCrud.byName a c = true.
Proof.
  unfold PassengerCrud.byName.
  destruct (String.compare (Passenger.firstName a.2) (Passenger.firstName b.2)) eqn:Hab;
    try discriminate.
  - apply String.compare_eq_iff in Hab. rewrite Hab.
    destruct (String.compare (Passenger.firstName b.2) (Passenger.firstName c.2));
      try discriminate; [apply string_leb_trans | reflexivity].
  - intros _.
    destruct (String.compare (Passenger.firstName b.2) (Passenger.firstName c.2)) eqn:Hbc;
      try discriminate.
    + apply String.compare_eq_iff in Hbc. rewrite <- Hbc, Hab. reflexivity.
    + rewrite (string_compare_lt_trans _ _ _ Hab Hbc). reflexivity.
Qed.

(** The list of the passengers: with the driver quiet the answer is 200
    with every stored passenger exactly once, ordered by first name and,
    among equal first names, by last name. *)
Theorem passengers_index_sorted (f : Faults) (db : Db)
        (H0 : f 0%nat = None) (H1 : f 1%nat = None) :
  exists l,
    PassengerCrud.index f db = mkResponse 200 (Payload (PassengerCrud.ManyPassengers l))
    /\ Permutation l (map_to_list (passengers db))
    /\ (forall id p, (id, p) ∈ l <-> passengers db !! id = Some p)
    /\ inOrder PassengerCrud.byName l
    /\ (forall i j a b, (i < j)%nat -> l !! i = Some a -> l !! j = Some b ->
          String.leb (Passenger.firstName a.2) (Passenger.firstName b.2) = true).
Proof.
  exists (Sort.sortBy PassengerCrud.byName (map_to_list (passengers db))).
  split.
  { unfold PassengerCrud.index, PassengerCrud.indexTry. run. now rewrite H0, H1. }
  split; [apply sortBy_perm |].
  split.
  { intros id p. rewrite sortBy_perm. apply elem_of_map_to_list. }
  assert (Hsorted : inOrder PassengerCrud.byName
                      (Sort.sortBy PassengerCrud.byName (map_to_list (passengers db)))).
  { apply sortBy_inOrder; [exact byName_total | exact byName_trans]. }
  split; [exact Hsorted |].
  generalize dependent (Sort.sortBy PassengerCrud.byName (map_to_list (passengers db))).
  intros l Hsorted. unfold inOrder in Hsorted.
  induction Hsorted as [| x l Hl IH Hx]; intros i j a b Hij Ha Hb.
  - now rewrite lookup_nil in Ha.
  - destruct j as [| j]; [lia |]. simpl in Hb.
    destruct i as [| i].
    + simpl in Ha. injection Ha as <-.
      assert (Hin : b ∈ l) by (eapply list_elem_of_lookup_2; eauto).
      rewrite Forall_forall in Hx. specialize (Hx b Hin). unfold PassengerCrud.byName in Hx.
      unfold String.leb.
      destruct (String.compare (Passenger.firstName x.2) (Passenger.firstName b.2));
        try reflexivity; discriminate.
    + simpl in Ha. apply (IH i j); [lia | exact Ha | exact Hb].
Qed.

End PassengerCrudSpec.

(** ** The optional authentication *)
Section AuthOptionalSpec.
Variable jwt_verify : string -> Result string.
Variable isObjectId : string -> bool.

Local Abbreviation optional := (AuthOptional.optional jwt_verify isObjectId).
Local Abbreviation strict := (Auth.auth jwt_verify isObjectId).

(** What the [try] block of [auth.optional] leaves of a request. *)
Lemma optionalTry_cases f db req :
  match AuthOptional.optionalTry jwt_verify isObjectId f db req with
  | Throw _ => True
  | Ok req' =>
      req' = req
      \/ exists h uid u,
           authorization req = Some h /\ Js.startsWith h "Bearer " = true
           /\ jwt_verify (bearerToken h) = Ok uid /\ users db !! uid = Some u
           /\ req' = mkRequest (authorization req) (Some (bearerToken h))
                               (Some (User.selectPublic u)) (Some (User._id u))
  end.
Proof.
  unfold AuthOptional.optionalTry. run.
  destruct (authorization req) as [h |]; [| now left].
  destruct (String.eqb h ""); [now left |].
  destruct (Js.startsWith h "Bearer ") eqn:Hpre; [| now left]. simpl.
  fold (bearerToken h).
  destruct (jwt_verify (bearerToken h)) as [uid | err] eqn:Hverify; [| exact I].
  destruct (f 0%nat); [exact I |].
  destruct (isObjectId uid); [| exact I].
  destruct (f 1%nat); [exact I |].
  destruct (users db !! uid) as [u |] eqn:Hu; [| now left]. simpl.
  right. exists h, uid, u. now repeat split.
Qed.

(** [auth.optional] never answers and never fails a request: whatever the
    header, the token, the driver and the database, the request goes on,
    with its header as it was; it goes on either untouched or with the
    identity of the stored user the verified token names, loaded without
    the password. *)
Theorem optional_never_blocks (f : Faults) (db : Db) (req : Request) :
  exists req',
    optional f db req = Next req'
    /\ authorization req' = authorization req
    /\ (req' = req
        \/ exists h uid u,
             authorization req = Some h /\ Js.startsWith h "Bearer " = true
             /\ jwt_verify (bearerToken h) = Ok uid /\ users db !! uid = Some u
             /\ req_user req' = Some (User.selectPublic u)
             /\ req_userId req' = Some (User._id u)
             /\ req_token req' = Some (bearerToken h)
             /\ User.password (User.selectPublic u) = None).
Proof.
  unfold AuthOptional.optional.
  pose proof (optionalTry_cases f db req) as Hcases.
  destruct (AuthOptional.optionalTry jwt_verify isObjectId f db req) as [req' | err].
  - exists req'. split; [reflexivity |].
    destruct Hcases as [-> | (h & uid & u & Hh & Hpre & Hv & Hu & ->)].
    + split; [reflexivity | now left].
    + split; [reflexivity |]. right. exists h, uid, u.
      split; [exact Hh |]. split; [exact Hpre |]. split; [exact Hv |].
      split; [exact Hu |]. now repeat split.
  - exists req. split; [reflexivity |]. split; [reflexivity | now left].
Qed.

(** The optional middleware attaches an identity exactly when the strict
    one lets the request through: given that [jwt.verify] refuses the
    empty token, a request that [auth] hands on leaves [auth.optional] as
    the same request, and a request that [auth] answers leaves it
    untouched. *)
Theorem optional_agrees_with_auth (f : Faults) (db : Db) (req : Request)
        (Hempty : exists e, jwt_verify "" = Throw e) :
  match strict f db req with
  | Next req' => optional f db req = Next req'
  | Respond _ => optional f db req = Next req
  end.
Proof.
  destruct Hempty as [e He].
  unfold Auth.auth, Auth.authTry, AuthOptional.optional, AuthOptional.optionalTry. run.
  destruct (authorization req) as [h |];
    [| destruct (f 0%nat); reflexivity].
  destruct (String.eqb h ""); [destruct (f 0%nat); reflexivity |].
  destruct (Js.startsWith h "Bearer "); [| destruct (f 0%nat); reflexivity]. simpl.
  fold (bearerToken h).
  destruct (String.eqb_spec (bearerToken h) "") as [Heq | Hne].
  { rewrite Heq, He. destruct (f 0%nat); reflexivity. }
  destruct (jwt_verify (bearerToken h)) as [uid | err];
    [| destruct (f 0%nat); reflexivity].
  destruct (f 0%nat); [reflexivity |].
  destruct (isObjectId uid); [| reflexivity].
  destruct (f 1%nat); [reflexivity |].
  destruct (users db !! uid) as [u |]; reflexivity.
Qed.

End AuthOptionalSpec.

(** ** The cached connection *)
Section ConnectionSpec.
Variable Conn : Type.

Local Abbreviation connectDB := (@Connection.connectDB Conn).

(** One connection serves every later call: once [connectDB] has
    returned a connection, each later call returns the same one from the
    cache and does not call [mongoose.connect], whatever the network
    would answer; a call that fails leaves the cache empty; a call on an
    empty cache calls [mongoose.connect] and returns its outcome, so a
    failure is retried by the next request; and after an 'error' or a
    'disconnected' event the cache is empty again. *)
Theorem connection_cache (outcome later : Result Conn) (cached : Connection.Cached Conn) :
  (forall c, (connectDB outcome cached).1.2 = Ok c ->
     connectDB later (connectDB outcome cached).1.1
     = ((connectDB outcome cached).1.1, Ok c, false))
  /\ (forall e, (connectDB outcome cached).1.2 = Throw e ->
        (connectDB outcome cached).1.1 = Connection.empty Conn)
  /\ (connectDB outcome (Connection.empty Conn)).1.2 = outcome
  /\ (connectDB outcome (Connection.empty Conn)).2 = true
  /\ Connection.onError Conn cached = Connection.empty Conn
  /\ Connection.onDisconnected Conn cached = Connection.empty Conn.
Proof.
  unfold Connection.connectDB, Connection.empty.
  split; [| split; [| split; [| split; [| split]]]].
  - intros c. destruct cached as [[c0 |] [[c1 | e1] |]]; simpl;
      try (intros [= <-]; reflexivity); try discriminate.
    destruct outcome as [c2 | e2]; simpl; [| discriminate].
    intros [= <-]. reflexivity.
  - intros e. destruct cached as [[c0 |] [[c1 | e1] |]]; simpl;
      try discriminate; try reflexivity.
    destruct outcome as [c2 | e2]; simpl; [discriminate | reflexivity].
  - simpl. now destruct outcome.
  - simpl. now destruct outcome.
  - reflexivity.
  - reflexivity.
Qed.

End ConnectionSpec.

(** ** The sites: list, read, update *)

Lemma sortBySiteName_sortBy l :
  SiteRoutes.sortBySiteName l = Sort.sortBy bySiteName l.
Proof.
  unfold SiteRoutes.sortBySiteName, Sort.sortBy.
  induction l as [| s l IH]; [reflexivity |]. simpl. rewrite IH.
  generalize (fold_right (Sort.insertBy bySiteName) [] l). intros r.
  induction r as [| x r IHr]; [reflexivity |]. simpl. unfold bySiteName at 1.
  now rewrite IHr.
Qed.

Lemma bySiteName_total a b : bySiteName a b = false -> bySiteName b a = true.
Proof. apply string_leb_false. Qed.

Lemma bySiteName_trans a b c :
  bySiteName a b = true -> bySiteName b c = true -> bySiteName a c = true.
Proof. apply string_leb_trans. Qed.

Lemma sortBySiteName_perm l : Permutation (SiteRoutes.sortBySiteName l) l.
Proof. rewrite sortBySiteName_sortBy. apply sortBy_perm. Qed.

Lemma sortBySiteName_inOrder l : inOrder bySiteName (SiteRoutes.sortBySiteName l).
Proof.
  rewrite sortBySiteName_sortBy.
  apply sortBy_inOrder; [exact bySiteName_total | exact bySiteName_trans].
Qed.

Lemma site_handleError_status err msg :
  status (SiteEdits.handleError err msg) = 400
  \/ status (SiteEdits.handleError err msg) = 503
  \/ status (SiteEdits.handleError err msg) = 500.
Proof.
  unfold SiteEdits.handleError.
  repeat match goal with |- context [if ?c then _ else _] => destruct c end;
    simpl; auto.
Qed.

Lemma site_handleError_not_200 err msg : status (SiteEdits.handleError err msg) <> 200.
Proof.
  destruct (site_handleError_status err msg) as [-> | [-> | ->]]; discriminate.
Qed.

Lemma site_handleError_status_init err :
  status (SiteRoutes.handleError err "Failed to initialize sites") = 400
  \/ status (SiteRoutes.handleError err "Failed to initialize sites") = 503
  \/ status (SiteRoutes.handleError err "Failed to initialize sites") = 500.
Proof.
  unfold SiteRoutes.handleError.
  repeat match goal with |- context [if ?c then _ else _] => destruct c end;
    simpl; auto.
Qed.

(** The list of the sites, and the list in the answer of the
    initialization: with the driver quiet, GET /api/sites answers 200 with
    the stored sites, each as often as it is stored, in the order of
    their names; and an initialization answered 201 lists the sites it
    left in the database, in that order, with counts that add up to the
    number of known locations. *)
Theorem sites_listed_in_order (f : Faults) (now : Z) (db : Db)
        (H0 : f 0%nat = None) (H1 : f 1%nat = None) :
  (exists l,
     SiteEdits.index f db = mkResponse 200 (Payload (SiteEdits.ManySites l))
     /\ Permutation l (sites db) /\ inOrder bySiteName l)
  /\ (forall r, (SiteRoutes.initialize f now db).2 = mkResponse 201 (Payload r) ->
        Permutation (SiteRoutes.i_sites r) (sites (SiteRoutes.initialize f now db).1)
        /\ inOrder bySiteName (SiteRoutes.i_sites r)
        /\ (SiteRoutes.i_created r + SiteRoutes.i_existing r
            = length SiteRoutes.locations)%nat
        /\ length (SiteRoutes.i_sites r)
           = (length (sites db) + SiteRoutes.i_created r)%nat).
Proof.
  split.
  - exists (SiteRoutes.sortBySiteName (sites db)).
    split; [| split; [apply sortBySiteName_perm | apply sortBySiteName_inOrder]].
    unfold SiteEdits.index, SiteEdits.indexTry. run. now rewrite H0, H1.
  - intros r. unfold SiteRoutes.initialize, SiteRoutes.initializeTry. run.
    rewrite H0, H1.
    assert (Hcount : forall ops sites,
               ((SiteRoutes.bulkWrite sites ops).2.1 + (SiteRoutes.bulkWrite sites ops).2.2
                = length ops)%nat
               /\ length (SiteRoutes.bulkWrite sites ops).1
                  = (length sites + (SiteRoutes.bulkWrite sites ops).2.1)%nat).
    { induction ops as [| op rest IH]; intros l; simpl; [split; lia |].
      unfold SiteRoutes.updateOne.
      destruct (existsb _ l); simpl.
      - specialize (IH l).
        destruct (SiteRoutes.bulkWrite l rest) as [l2 [u m]]. simpl in *. lia.
      - specialize (IH (l ++ [SiteRoutes.setOnInsert op])).
        destruct (SiteRoutes.bulkWrite _ rest) as [l2 [u m]]. simpl in *.
        rewrite length_app in IH. simpl in IH. lia. }
    specialize (Hcount (SiteRoutes.operations now) (sites db)).
    destruct (SiteRoutes.bulkWrite (sites db) (SiteRoutes.operations now))
      as [sites' [upserted matched]]. simpl in *.
    destruct (f 2%nat) as [err |]; simpl.
    + intros Heq.
      destruct (site_handleError_status_init err) as [H | [H | H]];
        rewrite Heq in H; discriminate.
    + intros [= <-]. simpl.
      split; [apply sortBySiteName_perm |].
      split; [apply sortBySiteName_inOrder |].
      destruct Hcount as [Hsum Hlen]. split; [exact Hsum |].
      rewrite (Permutation_length (sortBySiteName_perm sites')). exact Hlen.
Qed.

(** What [findOneAndUpdate] did to the collection: the first site of the
    name is the one that changed. *)
Lemma site_findOneAndUpdate_some name u : forall l l' s,
  SiteEdits.findOneAndUpdate name u l = Some (l', s) ->
  exists pre old post,
    l = pre ++ old :: post /\ l' = pre ++ SiteEdits.applyUpdate u old :: post
    /\ s = SiteEdits.applyUpdate u old /\ SiteRoutes.named name old = true
    /\ existsb (SiteRoutes.named name) pre = false.
Proof.
  induction l as [| x l IH]; intros l' s; simpl; [discriminate |].
  destruct (SiteRoutes.named name x) eqn:Hx.
  - intros [= <- <-]. exists [], x, l. now repeat split.
  - destruct (SiteEdits.findOneAndUpdate name u l) as [[rest' updated] |] eqn:Hrest;
      [| discriminate].
    intros [= <- <-].
    destruct (IH rest' updated eq_refl) as (pre & old & post & -> & -> & -> & Hold & Hpre).
    exists (x :: pre), old, post. simpl. rewrite Hx. now repeat split.
Qed.

Lemma site_findOneAndUpdate_none name u : forall l,
  SiteEdits.findOneAndUpdate name u l = None <->
  existsb (SiteRoutes.named name) l = false.
Proof.
  induction l as [| x l IH]; simpl; [tauto |].
  destruct (SiteRoutes.named name x); simpl; [split; discriminate |].
  destruct (SiteEdits.findOneAndUpdate name u l) as [[rest' updated] |].
  - split; [discriminate |]. intros H. apply IH in H. discriminate.
  - split; [intros _; now apply IH | reflexivity].
Qed.

(** What passes the checks of the body. *)
Lemma checkUpdate_accepts now maximumPOB currentPOB u :
  SiteEdits.checkUpdate now maximumPOB currentPOB = inr u ->
  match SiteEdits.u_maximumPOB u with
  | Some n => maximumPOB = Number n /\ 0 < n
  | None => maximumPOB = Undefined
  end
  /\ match SiteEdits.u_currentPOB u with
     | Some n => currentPOB = Number n /\ 0 <= n /\ SiteEdits.u_pobUpdatedDate u = Some now
     | None => currentPOB = Undefined /\ SiteEdits.u_pobUpdatedDate u = None
     end
  /\ (is_Some (SiteEdits.u_maximumPOB u) \/ is_Some (SiteEdits.u_currentPOB u)).
Proof.
  unfold SiteEdits.checkUpdate, SiteEdits.integerOf.
  destruct maximumPOB as [| | ? | m | ? | ?]; try discriminate;
    destruct currentPOB as [| | ? | c | ? | ?]; try discriminate;
    repeat match goal with
           | |- context [?a <=? ?b] => destruct (Z.leb_spec a b)
           | |- context [?a <? ?b] => destruct (Z.ltb_spec a b)
           end; try discriminate;
    intros [= <-]; simpl; repeat split; eauto; lia.
Qed.

Lemma checkUpdate_rejects now maximumPOB currentPOB r :
  SiteEdits.checkUpdate now maximumPOB currentPOB = inl r -> status r = 400.
Proof.
  unfold SiteEdits.checkUpdate, SiteEdits.integerOf.
  destruct maximumPOB as [| | ? | m | ? | ?];
    destruct currentPOB as [| | ? | c | ? | ?];
    repeat match goal with
           | |- context [?a <=? ?b] => destruct (Z.leb_spec a b)
           | |- context [?a <? ?b] => destruct (Z.ltb_spec a b)
           end; try discriminate; intros [= <-]; reflexivity.
Qed.

Lemma applyUpdate_name u s : Site.siteName (SiteEdits.applyUpdate u s) = Site.siteName s.
Proof. reflexivity. Qed.

(** Every way an update of a site can end. *)
Lemma site_update_cases f now db siteName maximumPOB currentPOB :
  ((SiteEdits.update f now db siteName maximumPOB currentPOB).1 = db
   /\ status (SiteEdits.update f now db siteName maximumPOB currentPOB).2 <> 200)
  \/ exists u pre old post,
       SiteEdits.checkUpdate now maximumPOB currentPOB = inr u
       /\ sites db = pre ++ old :: post
       /\ Site.siteName old = Js.trim siteName /\ Js.trim siteName <> ""
       /\ existsb (SiteRoutes.named (Js.trim siteName)) pre = false
       /\ SiteEdits.update f now db siteName maximumPOB currentPOB
          = (SiteRoutes.setSites db (pre ++ SiteEdits.applyUpdate u old :: post),
             mkResponse 200 (Payload (SiteEdits.OneSite (SiteEdits.applyUpdate u old)))).
Proof.
  unfold SiteEdits.update, SiteEdits.updateTry. run.
  destruct (f 0%nat) as [err |].
  { left. split; [reflexivity | apply site_handleError_not_200]. }
  destruct (String.eqb_spec (Js.trim siteName) "") as [Hblank | Hname];
    [left; split; [reflexivity | discriminate] |].
  destruct (SiteEdits.checkUpdate now maximumPOB currentPOB) as [r | u] eqn:Hcheck.
  { left. split; [reflexivity |]. simpl.
    rewrite (checkUpdate_rejects _ _ _ _ Hcheck). discriminate. }
  destruct (f 1%nat) as [err |].
  { left. split; [reflexivity | apply site_handleError_not_200]. }
  destruct (SiteEdits.findOneAndUpdate (Js.trim siteName) u (sites db))
    as [[sites' s] |] eqn:Hfound; [| left; split; [reflexivity | discriminate]].
  destruct (site_findOneAndUpdate_some _ _ _ _ _ Hfound)
    as (pre & old & post & Hl & -> & -> & Hold & Hpre).
  right. exists u, pre, old, post.
  split; [reflexivity |]. split; [exact Hl |].
  split; [now apply String.eqb_eq |]. split; [exact Hname |].
  split; [exact Hpre | reflexivity].
Qed.


Lemma pobBounds_update u old :
  (match SiteEdits.u_maximumPOB u with Some n => 0 < n | None => True end) ->
  (match SiteEdits.u_currentPOB u with Some n => 0 <= n | None => True end) ->
  0 <= Site.currentPOB old /\ 0 < Site.maximumPOB old ->
  0 <= Site.currentPOB (SiteEdits.applyUpdate u old)
  /\ 0 < Site.maximumPOB (SiteEdits.applyUpdate u old).
Proof.
  destruct u as [[m |] [c |] d]; simpl; intros Hm Hc [Hold1 Hold2]; split; assumption.
Qed.

Lemma performSite_keeps db c :
  pobBounds (sites db) /\ distinctNames (sites db) ->
  pobBounds (sites (performSite db c)) /\ distinctNames (sites (performSite db c)).
Proof.
  intros [Hbounds Hdistinct].
  destruct c as [f now | f now siteName maximumPOB currentPOB]; simpl.
  - rewrite initialize_db.
    destruct (f 0%nat); [now split |]. destruct (f 1%nat); [now split |].
    unfold SiteRoutes.setSites. cbn [sites]. rewrite bulkWrite_fold.
    assert (Hops : forall o, In o (SiteRoutes.operations now) ->
                     Site.siteName (SiteRoutes.setOnInsert o) = SiteRoutes.filter_siteName o
                     /\ 0 <= Site.currentPOB (SiteRoutes.setOnInsert o)
                     /\ 0 < Site.maximumPOB (SiteRoutes.setOnInsert o)).
    { intros o Ho. destruct (operations_names now o Ho) as (_ & ->). simpl.
      unfold SiteRoutes.defaultMaximumPOB. repeat split; lia. }
    revert Hops. generalize (SiteRoutes.operations now). intros ops.
    revert Hbounds Hdistinct. generalize (sites db). intros l.
    revert l. induction ops as [| op rest IH]; intros l Hbounds Hdistinct Hops;
      [now split |].
    simpl. apply IH.
    + unfold SiteRoutes.updateOne. destruct (existsb _ l); [exact Hbounds |]. simpl.
      unfold pobBounds in *. apply Forall_app. split; [exact Hbounds |].
      constructor; [| constructor]. apply (Hops op (or_introl eq_refl)).
    + unfold SiteRoutes.updateOne.
      destruct (existsb _ l) eqn:Hex; [exact Hdistinct |]. simpl.
      unfold distinctNames in *. rewrite map_app. simpl.
      apply NoDup_app. split; [exact Hdistinct |]. split; [| apply NoDup_singleton].
      intros name Hin Habs. apply list_elem_of_singleton in Habs. subst name.
      apply list_elem_of_fmap in Hin. destruct Hin as (s & Hs & Hin).
      destruct (Hops op (or_introl eq_refl)) as (Hname & _). rewrite Hname in Hs.
      assert (Htrue : existsb (SiteRoutes.named (SiteRoutes.filter_siteName op)) l = true).
      { apply existsb_exists. exists s. split; [now apply list_elem_of_In |].
        unfold SiteRoutes.named. rewrite <- Hs. apply String.eqb_refl. }
      rewrite Htrue in Hex. discriminate.
    + intros o Ho. apply Hops. now right.
  - destruct (site_update_cases f now db siteName maximumPOB currentPOB)
      as [[-> _] | (u & pre & old & post & Hcheck & Hl & _ & _ & _ & ->)];
      [now split |].
    simpl. rewrite Hl in Hbounds, Hdistinct. split.
    + unfold pobBounds in *. apply Forall_app in Hbounds. destruct Hbounds as [Hpre Hrest].
      apply Forall_cons in Hrest. destruct Hrest as [Hold Hpost].
      apply Forall_app. split; [exact Hpre |]. constructor; [| exact Hpost].
      destruct (checkUpdate_accepts _ _ _ _ Hcheck) as (Hmax & Hcur & _).
      apply pobBounds_update; [| | exact Hold].
      * destruct (SiteEdits.u_maximumPOB u); [now destruct Hmax | exact I].
      * destruct (SiteEdits.u_currentPOB u); [now destruct Hcur | exact I].
    + unfold distinctNames in *. rewrite map_app in *. exact Hdistinct.
Qed.

(** The two routes keep the sites well formed: in a collection where
    every site has a current POB that is not negative and a maximum POB
    above 0, and no two sites have one name, every sequence of
    initializations and updates, under whatever drivers and with
    whatever bodies, leaves it so. *)
Theorem sites_stay_well_formed (calls : list SiteCall) (db : Db)
        (Hbounds : pobBounds (sites db)) (Hdistinct : distinctNames (sites db)) :
  pobBounds (sites (fold_left performSite calls db))
  /\ distinctNames (sites (fold_left performSite calls db)).
Proof.
  assert (H : pobBounds (sites db) /\ distinctNames (sites db)) by now split.
  clear Hbounds Hdistinct. revert db H.
  induction calls as [| c calls IH]; intros db H; [exact H |].
  simpl. apply IH. now apply performSite_keeps.
Qed.

(** After an initialization every known location can be read: with the
    drivers quiet, a GET of each of the six names on the database the
    initialization left answers 200 with a site of that name. *)
Theorem initialize_then_get (f g : Faults) (now : Z) (db : Db) (name : string)
        (Hf0 : f 0%nat = None) (Hf1 : f 1%nat = None)
        (Hg0 : g 0%nat = None) (Hg1 : g 1%nat = None)
        (Hname : In name SiteRoutes.locations) :
  exists s,
    SiteEdits.get g (SiteRoutes.initialize f now db).1 name
    = mkResponse 200 (Payload (SiteEdits.OneSite s))
    /\ Site.siteName s = name.
Proof.
  pose proof (initialize_seeded f now db name Hf0 Hf1 Hname) as Hthere.
  assert (Htrim : Js.trim name = name).
  { simpl in Hname.
    repeat (destruct Hname as [<- | Hname]; [vm_compute; reflexivity |]).
    destruct Hname. }
  assert (Hne : name <> "").
  { simpl in Hname.
    repeat (destruct Hname as [<- | Hname]; [discriminate |]). destruct Hname. }
  unfold SiteEdits.get, SiteEdits.getTry. run. rewrite Hg0, Htrim.
  destruct (String.eqb_spec name "") as [Heq | _]; [contradiction |].
  rewrite Hg1.
  destruct (List.find (SiteRoutes.named name) (sites (SiteRoutes.initialize f now db).1))
    as [s |] eqn:Hfind.
  - exists s. split; [reflexivity |].
    apply find_some in Hfind. destruct Hfind as [_ Hs]. now apply String.eqb_eq.
  - apply existsb_exists in Hthere. destruct Hthere as (s & Hin & Hs).
    pose proof (find_none _ _ Hfind s Hin) as Hno. rewrite Hs in Hno. discriminate.
Qed.

(** ** The accounts: register, login, delete *)

(** [findOne] by name, read off the collection. *)
Lemma withUserName_Some (m : gmap string User.Doc) wanted u :
  UserRoutes.withUserName m wanted = Some u ->
  exists k, m !! k = Some u /\ User.userName u = wanted.
Proof.
  unfold UserRoutes.withUserName.
  destruct (map_to_list _) as [| [k v] rest] eqn:Hlist; [discriminate |].
  simpl. intros [= <-].
  assert (Hin : (k, v) ∈ map_to_list
                  (filter (fun kv : string * User.Doc => User.userName kv.2 = wanted) m))
    by (rewrite Hlist; left).
  apply elem_of_map_to_list, map_lookup_filter_Some in Hin.
  exists k. exact Hin.
Qed.

Lemma withUserName_None (m : gmap string User.Doc) wanted :
  UserRoutes.withUserName m wanted = None ->
  forall k u, m !! k = Some u -> User.userName u <> wanted.
Proof.
  unfold UserRoutes.withUserName.
  destruct (map_to_list _) as [| [k v] rest] eqn:Hlist; [| discriminate].
  intros _ k u Hk Hname.
  assert (Hin : (k, u) ∈ map_to_list
                  (filter (fun kv : string * User.Doc => User.userName kv.2 = wanted) m)).
  { apply elem_of_map_to_list, map_lookup_filter_Some. now split. }
  rewrite Hlist in Hin. inversion Hin.
Qed.

Lemma withUserName_unique (m : gmap string User.Doc) k u :
  m !! k = Some u ->
  (forall k' u', m !! k' = Some u' -> User.userName u' = User.userName u -> k' = k) ->
  UserRoutes.withUserName m (User.userName u) = Some u.
Proof.
  intros Hk Honly. unfold UserRoutes.withUserName.
  assert (Hfilter : filter (fun kv : string * User.Doc =>
                              User.userName kv.2 = User.userName u) m = {[k := u]}).
  { apply map_eq. intros i. destruct (decide (i = k)) as [-> | Hne].
    - rewrite lookup_singleton_eq. apply map_lookup_filter_Some. now split.
    - rewrite lookup_singleton_ne by congruence.
      apply map_lookup_filter_None. right. intros u' Hi Hname.
      apply Hne. now apply (Honly i u'). }
  rewrite Hfilter, map_to_list_singleton. reflexivity.
Qed.

Lemma user_handleError_status err msg :
  status (UserRoutes.handleError err msg) = 400
  \/ status (UserRoutes.handleError err msg) = 503
  \/ status (UserRoutes.handleError err msg) = 500.
Proof.
  unfold UserRoutes.handleError.
  repeat match goal with |- context [if ?c then _ else _] => destruct c end;
    simpl; auto.
Qed.

Lemma user_handleError_not_200 err msg : status (UserRoutes.handleError err msg) <> 200.
Proof. destruct (user_handleError_status err msg) as [-> | [-> | ->]]; discriminate. Qed.

Lemma user_handleError_not_201 err msg : status (UserRoutes.handleError err msg) <> 201.
Proof. destruct (user_handleError_status err msg) as [-> | [-> | ->]]; discriminate. Qed.

Lemma userAdmin_handleError_not_200 err msg :
  status (UserAdmin.handleError err msg) <> 200.
Proof.
  unfold UserAdmin.handleError.
  repeat match goal with |- context [if ?c then _ else _] => destruct c end;
    discriminate.
Qed.

Lemma preSave_hashes bcrypt_hash salt d p :
  User.password d = Some p ->
  User.preSave bcrypt_hash true salt d
  = User.mkDoc (User._id d) (User.userName d) (Some (bcrypt_hash p salt))
               (User.firstName d) (User.lastName d) (User.isAdmin d)
               (User.homeLocation d) (User.tokens d) (User.resetPasswordToken d)
               (User.resetPasswordExpire d) (User.lastLogin d) (User.createdAt d)
               (User.updatedAt d) (User.version d).
Proof. intros Hp. unfold User.preSave. simpl. now rewrite Hp. Qed.

Section AccountSpec.
Variable bcrypt_hash : string -> string -> string.
Variable bcrypt_compare : string -> string -> bool.
Variable jwt_sign : string -> bool -> Z -> string.
Variable jwt_secret_set : bool.
Variable isObjectId : string -> bool.

Local Abbreviation register := (UserRoutes.register bcrypt_hash).
Local Abbreviation login :=
  (UserRoutes.login bcrypt_hash bcrypt_compare jwt_sign jwt_secret_set).
Local Abbreviation comparePassword := (UserRoutes.comparePassword bcrypt_compare).
Local Abbreviation removeUser := (UserAdmin.remove isObjectId).

(** Every way a registration can end. *)
Lemma register_cases f db env b :
  ((register f db env b).1 = db /\ status (register f db env b).2 <> 201)
  \/ exists d,
       UserRoutes.newUser env b = Ok d /\ User.validators d = []
       /\ nonBlankString (UserRoutes.r_userName b) = true
       /\ nonBlankString (UserRoutes.r_password b) = true
       /\ User.userNamePattern (Js.trimOf (UserRoutes.r_userName b)) = true
       /\ 8 <= UserRoutes.passwordLength (UserRoutes.r_password b)
       /\ users db !! UserRoutes.newId env = None
       /\ UserRoutes.withUserName (users db) (User.userName d) = None
       /\ register f db env b
          = (UserRoutes.setUsers db
               (<[UserRoutes.newId env :=
                    User.preSave bcrypt_hash true (UserRoutes.salt env) d]> (users db)),
             mkResponse 201
               (Payload (UserRoutes.UserObject
                           (User.deletePassword
                              (User.preSave bcrypt_hash true (UserRoutes.salt env) d))))).
Proof.
  unfold UserRoutes.register, UserRoutes.registerTry, UserRoutes.saveNew,
    UserRoutes.findOne, TripRoutes.orElse. run.
  destruct (f 0%nat);
    [left; split; [reflexivity | apply user_handleError_not_201] |].
  destruct (Js.blank (UserRoutes.r_userName b)) as [[|] | err] eqn:Hname;
    [left; split; [reflexivity | discriminate] | |
     left; split; [reflexivity | apply user_handleError_not_201]].
  destruct (Js.blank (UserRoutes.r_password b)) as [[|] | err] eqn:Hpass;
    [left; split; [reflexivity | discriminate] | |
     left; split; [reflexivity | apply user_handleError_not_201]].
  destruct (User.userNamePattern (Js.trimOf (UserRoutes.r_userName b))) eqn:Hpat;
    [| left; split; [reflexivity | discriminate]]. simpl.
  destruct (Z.ltb_spec (UserRoutes.passwordLength (UserRoutes.r_password b)) 8)
    as [Hshort | Hlen]; [left; split; [reflexivity | discriminate] |].
  destruct (f 1%nat);
    [left; split; [reflexivity | apply user_handleError_not_201] |].
  destruct (UserRoutes.withUserName (users db)
              (Js.toLowerCase (Js.trim (Js.trimOf (UserRoutes.r_userName b)))))
    eqn:Hfree; [left; split; [reflexivity | discriminate] |]. simpl.
  destruct (UserRoutes.newUser env b) as [d | err] eqn:Hnew;
    [| left; split; [reflexivity | apply user_handleError_not_201]].
  destruct (newUser_fields env b d Hnew) as (Hd_id & Hd_name & Hd_pass & _).
  unfold User.validate.
  destruct (User.validators d) eqn:Hval;
    [| left; split; [reflexivity | apply user_handleError_not_201]].
  destruct (f 2%nat);
    [left; split; [reflexivity | apply user_handleError_not_201] |].
  rewrite (preSave_hashes bcrypt_hash (UserRoutes.salt env) d _ Hd_pass). simpl.
  rewrite Hd_id, Hd_name.
  destruct (users db !! UserRoutes.newId env) eqn:Hid;
    [left; split; [reflexivity | apply user_handleError_not_201] |].
  rewrite Hfree. right. exists d.
  destruct (blank_false _ Hname) as (n & Hn & Hn').
  destruct (blank_false _ Hpass) as (p & Hp & Hp').
  split; [reflexivity |]. split; [exact Hval |].
  split; [rewrite Hn; simpl; now apply negb_true_iff, String.eqb_neq |].
  split; [rewrite Hp; simpl; now apply negb_true_iff, String.eqb_neq |].
  split; [reflexivity |]. split; [exact Hlen |]. split; [reflexivity |].
  split; [rewrite Hd_name; exact Hfree |].
  rewrite (preSave_hashes bcrypt_hash (UserRoutes.salt env) d _ Hd_pass). simpl.
  rewrite ?Hd_id, ?Hd_name. reflexivity.
Qed.


(** A name is taken whatever its case and the white space around it:
    with the database reachable, a registration that passes the checks
    of the route is answered 400 "Username already exists", and writes
    nothing, when a stored user has the name of the body trimmed and in
    lower case. *)
Theorem register_rejects_taken_name (f : Faults) (db : Db) (env : UserRoutes.Ambient)
        (b : UserRoutes.RegisterBody) (k : string) (u : User.Doc)
        (H0 : f 0%nat = None) (H1 : f 1%nat = None)
        (Hname : nonBlankString (UserRoutes.r_userName b) = true)
        (Hpass : nonBlankString (UserRoutes.r_password b) = true)
        (Hpat : User.userNamePattern (Js.trimOf (UserRoutes.r_userName b)) = true)
        (Hlen : 8 <= UserRoutes.passwordLength (UserRoutes.r_password b))
        (Hk : users db !! k = Some u)
        (Htaken : User.userName u
                  = Js.toLowerCase (Js.trim (Js.trimOf (UserRoutes.r_userName b)))) :
  register f db env b = (db, fail 400 "Validation failed" "Username already exists").
Proof.
  unfold UserRoutes.register, UserRoutes.registerTry, UserRoutes.findOne,
    TripRoutes.orElse, mbind, Result_bind, Js.bind, dbConnect, await.
  rewrite H0, (blank_nonBlank _ Hname), (blank_nonBlank _ Hpass), Hpat. simpl.
  destruct (Z.ltb_spec (UserRoutes.passwordLength (UserRoutes.r_password b)) 8);
    [lia |].
  rewrite H1.
  destruct (UserRoutes.withUserName (users db)
              (Js.toLowerCase (Js.trim (Js.trimOf (UserRoutes.r_userName b)))))
    eqn:Hfound; [reflexivity |].
  exfalso. exact (withUserName_None _ _ Hfound k u Hk Htaken).
Qed.

(** Every way a login can end: nothing written and no 200; or, for the
    stored user of the name whose password matched, the time of the login
    written and then either no 200, or the token written too and the 200
    with it. *)
Lemma login_cases f db env b :
  ((login f db env b).1 = db /\ status (login f db env b).2 <> 200)
  \/ exists user,
       UserRoutes.withUserName (users db)
         (Js.toLowerCase (Js.trim (Js.trimOf (UserRoutes.l_userName b)))) = Some user
       /\ comparePassword user (submitted (UserRoutes.l_password b)) = true
       /\ (((login f db env b).1
            = UserRoutes.setUsers db
                (<[User._id user := UserRoutes.setLastLogin user (UserRoutes.now env)]>
                   (users db))
            /\ status (login f db env b).2 <> 200)
           \/ (jwt_secret_set = true
               /\ login f db env b
                  = (UserRoutes.setUsers db
                       (<[User._id user :=
                            UserRoutes.addToken
                              (UserRoutes.setLastLogin user (UserRoutes.now env))
                              (jwt_sign (User._id user) (User.isAdmin user)
                                        (UserRoutes.now env))
                              (UserRoutes.now env)]>
                          (<[User._id user :=
                               UserRoutes.setLastLogin user (UserRoutes.now env)]>
                             (users db))),
                     mkResponse 200
                       (Payload
                          (UserRoutes.LoggedIn
                             (User.deleteTokens
                                (User.deletePassword
                                   (UserRoutes.addToken
                                      (UserRoutes.setLastLogin user (UserRoutes.now env))
                                      (jwt_sign (User._id user) (User.isAdmin user)
                                                (UserRoutes.now env))
                                      (UserRoutes.now env))))
                             (jwt_sign (User._id user) (User.isAdmin user)
                                       (UserRoutes.now env))))))).
Proof.
  unfold UserRoutes.login, UserRoutes.loginTry, UserRoutes.findOne,
    UserRoutes.generateAuthToken, UserRoutes.saveLoaded, TripRoutes.orElse. run.
  destruct (f 0%nat);
    [left; split; [reflexivity | apply user_handleError_not_200] |].
  destruct (Js.blank (UserRoutes.l_userName b)) as [[|] | err];
    [left; split; [reflexivity | discriminate] | |
     left; split; [reflexivity | apply user_handleError_not_200]].
  destruct (Js.blank (UserRoutes.l_password b)) as [[|] | err];
    [left; split; [reflexivity | discriminate] | |
     left; split; [reflexivity | apply user_handleError_not_200]].
  destruct (f 1%nat);
    [left; split; [reflexivity | apply user_handleError_not_200] |].
  destruct (UserRoutes.withUserName (users db) _) as [user |] eqn:Hfound;
    [| left; split; [reflexivity | discriminate]]. simpl.
  fold (submitted (UserRoutes.l_password b)).
  destruct (UserRoutes.comparePassword bcrypt_compare user
              (submitted (UserRoutes.l_password b))) eqn:Hmatch;
    [| left; split; [reflexivity | discriminate]]. simpl.
  destruct (User.validate (UserRoutes.setLastLogin user (UserRoutes.now env)));
    [| left; split; [reflexivity | apply user_handleError_not_200]].
  destruct (f 2%nat);
    [left; split; [reflexivity | apply user_handleError_not_200] |].
  right. exists user. split; [reflexivity |]. split; [exact Hmatch |].
  destruct jwt_secret_set; simpl;
    [| left; split; [reflexivity | discriminate]].
  destruct (User.validate (UserRoutes.addToken _ _ _));
    [| left; split; [reflexivity | apply user_handleError_not_200]].
  destruct (f 3%nat);
    [left; split; [reflexivity | apply user_handleError_not_200] |].
  right. split; reflexivity.
Qed.


(** The login of a stored user whose password matches, the driver quiet
    and the secret set. *)
Lemma login_accepted f db env b user :
  (forall n, f n = None) -> jwt_secret_set = true ->
  nonBlankString (UserRoutes.l_userName b) = true ->
  nonBlankString (UserRoutes.l_password b) = true ->
  UserRoutes.withUserName (users db)
    (Js.toLowerCase (Js.trim (Js.trimOf (UserRoutes.l_userName b)))) = Some user ->
  comparePassword user (submitted (UserRoutes.l_password b)) = true ->
  User.validators user = [] ->
  login f db env b
  = (UserRoutes.setUsers db
       (<[User._id user :=
            UserRoutes.addToken (UserRoutes.setLastLogin user (UserRoutes.now env))
              (jwt_sign (User._id user) (User.isAdmin user) (UserRoutes.now env))
              (UserRoutes.now env)]>
          (<[User._id user := UserRoutes.setLastLogin user (UserRoutes.now env)]>
             (users db))),
     mkResponse 200
       (Payload
          (UserRoutes.LoggedIn
             (User.deleteTokens
                (User.deletePassword
                   (UserRoutes.addToken
                      (UserRoutes.setLastLogin user (UserRoutes.now env))
                      (jwt_sign (User._id user) (User.isAdmin user) (UserRoutes.now env))
                      (UserRoutes.now env))))
             (jwt_sign (User._id user) (User.isAdmin user) (UserRoutes.now env))))).
Proof.
  intros Hquiet Hsecret Hname Hpass Hfound Hmatch Hvalid.
  unfold UserRoutes.login, UserRoutes.loginTry, UserRoutes.findOne,
    UserRoutes.generateAuthToken, UserRoutes.saveLoaded, TripRoutes.orElse. run.
  rewrite !Hquiet, (blank_nonBlank _ Hname), (blank_nonBlank _ Hpass), Hfound. simpl.
  fold (submitted (UserRoutes.l_password b)).
  rewrite Hmatch. simpl.
  assert (Hv1 : User.validate (UserRoutes.setLastLogin user (UserRoutes.now env)) = Ok tt)
    by (apply validate_passes; exact Hvalid).
  rewrite Hv1, Hsecret. simpl.
  assert (Hv2 : User.validate
                  (UserRoutes.addToken (UserRoutes.setLastLogin user (UserRoutes.now env))
                     (jwt_sign (User._id user) (User.isAdmin user) (UserRoutes.now env))
                     (UserRoutes.now env)) = Ok tt)
    by (apply validate_passes; exact Hvalid).
  rewrite Hv2. reflexivity.
Qed.

(** No stored user of the name has the submitted password: the login is
    refused. *)
Lemma login_refused f db env b :
  f 0%nat = None -> f 1%nat = None ->
  nonBlankString (UserRoutes.l_userName b) = true ->
  nonBlankString (UserRoutes.l_password b) = true ->
  (forall k u, users db !! k = Some u ->
     User.userName u = Js.toLowerCase (Js.trim (Js.trimOf (UserRoutes.l_userName b))) ->
     comparePassword u (submitted (UserRoutes.l_password b)) = false) ->
  login f db env b = (db, UserRoutes.invalidCredentials).
Proof.
  intros H0 H1 Hname Hpass Hwrong.
  unfold UserRoutes.login, UserRoutes.loginTry, UserRoutes.findOne, TripRoutes.orElse. run.
  rewrite H0, H1, (blank_nonBlank _ Hname), (blank_nonBlank _ Hpass).
  destruct (UserRoutes.withUserName (users db) _) as [user |] eqn:Hfound;
    [| reflexivity]. simpl.
  destruct (withUserName_Some _ _ _ Hfound) as (k & Hk & Hn).
  fold (submitted (UserRoutes.l_password b)).
  now rewrite (Hwrong k user Hk Hn).
Qed.

(** A wrong name and a wrong password cannot be told apart: with the
    database reachable and both fields given, a login is answered with one
    and the same 401 "Invalid credentials", and writes nothing, when no
    user has the name and when the user of the name has another
    password. *)
Theorem login_failures_alike (f : Faults) (db : Db) (env : UserRoutes.Ambient)
        (b : UserRoutes.LoginBody)
        (H0 : f 0%nat = None) (H1 : f 1%nat = None)
        (Hname : nonBlankString (UserRoutes.l_userName b) = true)
        (Hpass : nonBlankString (UserRoutes.l_password b) = true)
        (Hwrong : forall k u, users db !! k = Some u ->
           User.userName u
           = Js.toLowerCase (Js.trim (Js.trimOf (UserRoutes.l_userName b))) ->
           comparePassword u (submitted (UserRoutes.l_password b)) = false) :
  login f db env b
  = (db, fail 401 "Authentication failed" "Invalid credentials").
Proof.
  unfold UserRoutes.login, UserRoutes.loginTry, UserRoutes.findOne, TripRoutes.orElse,
    mbind, Result_bind, Js.bind, dbConnect, await.
  rewrite H0, H1, (blank_nonBlank _ Hname), (blank_nonBlank _ Hpass).
  destruct (UserRoutes.withUserName (users db)
              (Js.toLowerCase (Js.trim (Js.trimOf (UserRoutes.l_userName b)))))
    as [user |] eqn:Hfound; [| reflexivity].
  destruct (withUserName_Some _ _ _ Hfound) as (k & Hk & Hn). simpl.
  fold (submitted (UserRoutes.l_password b)).
  now rewrite (Hwrong k user Hk Hn).
Qed.

Lemma validators_of_hashed d p salt :
  User.validators d = [] -> User.password d = Some p ->
  8 <= User.len (bcrypt_hash p salt) <= 128 ->
  User.validators (User.preSave bcrypt_hash true salt d) = [].
Proof.
  intros Hval Hp Hlen.
  rewrite (preSave_hashes bcrypt_hash salt d p Hp). simpl in Hlen.
  unfold User.validators in *. simpl. rewrite Hp in Hval.
  apply List.app_eq_nil in Hval. destruct Hval as [Hname Hrest].
  apply List.app_eq_nil in Hrest. destruct Hrest as [_ Hrest].
  rewrite Hname, Hrest. simpl.
  destruct (String.eqb_spec (bcrypt_hash p salt) "") as [Heq | _].
  { rewrite Heq in Hlen. unfold User.len in Hlen. simpl in Hlen. lia. }
  destruct (Z.ltb_spec (User.len (bcrypt_hash p salt)) 8); [lia |].
  destruct (Z.ltb_spec 128 (User.len (bcrypt_hash p salt))); [lia |].
  reflexivity.
Qed.

(** Who registers can log in, with the password as it was stored: after a
    registration answered 201, a login under the same name on the
    database it left (the driver quiet, the secret set, the hash of a
    length the schema accepts) succeeds when bcrypt matches the submitted
    password against the hash of the TRIMMED password of the
    registration, and answers 200 with the new user, without password and
    tokens, and a token signed for the new id and the [isAdmin] of the
    registration; when bcrypt does not match, the answer is the 401 and
    nothing is written. *)
Theorem register_then_login (f g : Faults) (db : Db) (env env' : UserRoutes.Ambient)
        (b : UserRoutes.RegisterBody) (submittedPassword : string)
        (Hcreated : status (register f db env b).2 = 201)
        (Hquiet : forall n, g n = None) (Hsecret : jwt_secret_set = true)
        (Hlen : 8 <= User.len (bcrypt_hash (Js.trimOf (UserRoutes.r_password b))
                                           (UserRoutes.salt env)) <= 128)
        (Hgiven : Js.trim submittedPassword <> "") :
  (bcrypt_compare submittedPassword
     (bcrypt_hash (Js.trimOf (UserRoutes.r_password b)) (UserRoutes.salt env)) = true ->
   exists u,
     (login g (register f db env b).1 env'
            (UserRoutes.mkLoginBody (UserRoutes.r_userName b) (Str submittedPassword))).2
     = mkResponse 200
         (Payload (UserRoutes.LoggedIn u
                     (jwt_sign (UserRoutes.newId env)
                               (Js.ToBoolean (UserRoutes.r_isAdmin b))
                               (UserRoutes.now env'))))
     /\ User._id u = UserRoutes.newId env
     /\ User.userName u
        = Js.toLowerCase (Js.trim (Js.trimOf (UserRoutes.r_userName b)))
     /\ User.isAdmin u = Js.ToBoolean (UserRoutes.r_isAdmin b)
     /\ User.lastLogin u = Some (UserRoutes.now env')
     /\ User.password u = None /\ User.tokens u = None)
  /\ (bcrypt_compare submittedPassword
        (bcrypt_hash (Js.trimOf (UserRoutes.r_password b)) (UserRoutes.salt env)) = false ->
      login g (register f db env b).1 env'
            (UserRoutes.mkLoginBody (UserRoutes.r_userName b) (Str submittedPassword))
      = ((register f db env b).1, UserRoutes.invalidCredentials)).
Proof.
  destruct (register_cases f db env b)
    as [[_ Hno] | (d & Hnew & Hval & Hname & Hpass & _ & _ & Hid & Hfree & Heq)];
    [contradiction |].
  destruct (newUser_fields env b d Hnew) as (Hd_id & Hd_name & Hd_pass & Hd_admin).
  pose proof (preSave_hashes bcrypt_hash (UserRoutes.salt env) d _ Hd_pass) as Hhashed.
  set (stored := User.preSave bcrypt_hash true (UserRoutes.salt env) d) in *.
  assert (Hs_name : User.userName stored
                    = Js.toLowerCase (Js.trim (Js.trimOf (UserRoutes.r_userName b))))
    by (rewrite Hhashed; exact Hd_name).
  assert (Hs_id : User._id stored = UserRoutes.newId env)
    by (rewrite Hhashed; exact Hd_id).
  assert (Hs_admin : User.isAdmin stored = Js.ToBoolean (UserRoutes.r_isAdmin b))
    by (rewrite Hhashed; exact Hd_admin).
  assert (Hs_pass : User.password stored
                    = Some (bcrypt_hash (Js.trimOf (UserRoutes.r_password b))
                                        (UserRoutes.salt env)))
    by (rewrite Hhashed; reflexivity).
  assert (Hfound : UserRoutes.withUserName (users (register f db env b).1)
                     (Js.toLowerCase (Js.trim (Js.trimOf (UserRoutes.r_userName b))))
                   = Some stored).
  { rewrite Heq, <- Hs_name. simpl.
    apply (withUserName_unique _ (UserRoutes.newId env)); [apply lookup_insert_eq |].
    intros k' u' Hk' Hsame.
    destruct (decide (k' = UserRoutes.newId env)) as [-> | Hne]; [reflexivity |].
    rewrite lookup_insert_ne in Hk' by congruence.
    exfalso. apply (withUserName_None _ _ Hfree k' u' Hk').
    rewrite Hsame, Hs_name. symmetry. exact Hd_name. }
  assert (Hpw : nonBlankString (Str submittedPassword) = true).
  { simpl. now apply negb_true_iff, String.eqb_neq. }
  assert (Hcompare : comparePassword stored submittedPassword
                     = bcrypt_compare submittedPassword
                         (bcrypt_hash (Js.trimOf (UserRoutes.r_password b))
                                      (UserRoutes.salt env))).
  { unfold UserRoutes.comparePassword. rewrite Hs_pass.
    destruct (String.eqb_spec
                (bcrypt_hash (Js.trimOf (UserRoutes.r_password b)) (UserRoutes.salt env))
                "") as [Hempty | _]; [| reflexivity].
    rewrite Hempty in Hlen. unfold User.len in Hlen. simpl in Hlen. lia. }
  split.
  - intros Hmatch.
    rewrite (login_accepted g _ env'
               (UserRoutes.mkLoginBody (UserRoutes.r_userName b) (Str submittedPassword))
               stored Hquiet Hsecret Hname Hpw Hfound).
    + eexists. split; [simpl; rewrite Hs_id, Hs_admin; reflexivity |].
      simpl. now repeat split.
    + simpl. now rewrite Hcompare.
    + exact (validators_of_hashed d _ (UserRoutes.salt env) Hval Hd_pass Hlen).
  - intros Hmismatch.
    apply login_refused; [apply Hquiet | apply Hquiet | exact Hname | exact Hpw |].
    intros k u Hk Hn. simpl in Hn |- *.
    assert (Hwho : UserRoutes.withUserName (users (register f db env b).1)
                     (User.userName u) = Some stored)
      by (rewrite Hn; exact Hfound).
    assert (Hku : k = UserRoutes.newId env).
    { rewrite Heq in Hk. simpl in Hk.
      destruct (decide (k = UserRoutes.newId env)) as [-> | Hne]; [reflexivity |].
      rewrite lookup_insert_ne in Hk by congruence.
      exfalso. apply (withUserName_None _ _ Hfree k u Hk).
      rewrite Hn. symmetry. exact Hd_name. }
    subst k. rewrite Heq in Hk. simpl in Hk. rewrite lookup_insert_eq in Hk.
    injection Hk as <-. now rewrite Hcompare.
Qed.


Lemma sameAccount_refl u : sameAccount u u.
Proof. unfold sameAccount. now repeat split. Qed.

Lemma accountsKept_refl db : accountsKept db db.
Proof.
  intros k. destruct (users db !! k); [apply sameAccount_refl | exact I].
Qed.

Lemma accountsKept_insert db k u u' :
  users db !! k = Some u -> sameAccount u u' ->
  accountsKept db (UserRoutes.setUsers db (<[k := u']> (users db))).
Proof.
  intros Hk Hsame i. simpl. destruct (decide (i = k)) as [-> | Hne].
  - now rewrite Hk, lookup_insert_eq.
  - rewrite lookup_insert_ne by congruence.
    destruct (users db !! i); [apply sameAccount_refl | exact I].
Qed.

Lemma accountsKept_invariants db db' :
  accountsKept db db' -> wellKeyed db /\ uniqueNames db ->
  wellKeyed db' /\ uniqueNames db'.
Proof.
  intros Hkept [Hkeyed Hunique]. split.
  - intros k u' Hk. specialize (Hkept k). rewrite Hk in Hkept.
    destruct (users db !! k) as [u |] eqn:Hu; [| contradiction].
    destruct Hkept as (Hid & _). rewrite Hid. now apply Hkeyed.
  - intros k1 k2 u1' u2' H1 H2 Hname.
    pose proof (Hkept k1) as Hk1. pose proof (Hkept k2) as Hk2.
    rewrite H1 in Hk1. rewrite H2 in Hk2.
    destruct (users db !! k1) as [u1 |] eqn:Hu1; [| contradiction].
    destruct (users db !! k2) as [u2 |] eqn:Hu2; [| contradiction].
    destruct Hk1 as (_ & Hn1 & _). destruct Hk2 as (_ & Hn2 & _).
    apply (Hunique k1 k2 u1 u2 Hu1 Hu2). congruence.
Qed.

(** Under every driver a login keeps the accounts. *)
Lemma login_keeps_accounts_lemma f db env b :
  wellKeyed db -> accountsKept db (login f db env b).1.
Proof.
  intros Hkeyed.
  destruct (login_cases f db env b)
    as [[Hsame Hno] | (user & Hfound & Hmatch & Hwrote)].
  { rewrite Hsame. apply accountsKept_refl. }
  destruct (withUserName_Some _ _ _ Hfound) as (k & Hk & _).
  pose proof (Hkeyed k user Hk) as Hid.
  destruct Hwrote as [[Hdb Hno] | [_ Heq]].
  - rewrite Hdb, Hid. apply (accountsKept_insert db k user _ Hk).
    unfold sameAccount. now repeat split.
  - rewrite Heq. simpl. rewrite insert_insert_eq, Hid.
    apply (accountsKept_insert db k user _ Hk). unfold sameAccount. now repeat split.
Qed.

(** A login writes to the one account it logs in, and only the time of
    the login, the token and the version: on a collection where every
    user is stored under its own id, whatever the driver does, no account
    comes or goes and each keeps its id, name, password hash and
    [isAdmin]; the other collections are untouched; and a login answered
    200 was for a stored user whose password bcrypt matched, to whose
    tokens exactly the returned token, signed for that user, was
    appended, and whose [__v] is one more than it was, in the collection
    and in the answer. *)
Theorem login_keeps_accounts (f : Faults) (db : Db) (env : UserRoutes.Ambient)
        (b : UserRoutes.LoginBody) (Hkeyed : wellKeyed db) :
  accountsKept db (login f db env b).1
  /\ passengers (login f db env b).1 = passengers db
  /\ trips (login f db env b).1 = trips db
  /\ sites (login f db env b).1 = sites db
  /\ openSessions (login f db env b).1 = openSessions db
  /\ (forall u token,
        (login f db env b).2 = mkResponse 200 (Payload (UserRoutes.LoggedIn u token)) ->
        exists before,
          users db !! User._id u = Some before
          /\ comparePassword before (submitted (UserRoutes.l_password b)) = true
          /\ token = jwt_sign (User._id before) (User.isAdmin before) (UserRoutes.now env)
          /\ users (login f db env b).1 !! User._id u
             = Some (UserRoutes.addToken
                       (UserRoutes.setLastLogin before (UserRoutes.now env))
                       token (UserRoutes.now env))
          /\ (forall after, users (login f db env b).1 !! User._id u = Some after ->
                User.tokens after = Some (default [] (User.tokens before) ++ [token])
                /\ User.version after
                   = Some (Z.succ (default 0 (User.version before))))
          /\ User.version u = Some (Z.succ (default 0 (User.version before)))
          /\ User.password u = None /\ User.tokens u = None).
Proof.
  destruct (login_cases f db env b)
    as [[Hsame Hno] | (user & Hfound & Hmatch & Hwrote)].
  { rewrite Hsame. split; [apply accountsKept_refl |]. repeat (split; [reflexivity |]).
    intros u token Hok. rewrite Hok in Hno. now contradiction Hno. }
  destruct (withUserName_Some _ _ _ Hfound) as (k & Hk & _).
  pose proof (Hkeyed k user Hk) as Hid.
  destruct Hwrote as [[Hdb Hno] | [_ Heq]].
  - rewrite Hdb. split.
    { rewrite Hid. apply (accountsKept_insert db k user _ Hk).
      unfold sameAccount. now repeat split. }
    repeat (split; [reflexivity |]).
    intros u token Hok. rewrite Hok in Hno. now contradiction Hno.
  - rewrite Heq. simpl. rewrite insert_insert_eq, Hid. split.
    { apply (accountsKept_insert db k user _ Hk). unfold sameAccount.
      now repeat split. }
    repeat (split; [reflexivity |]).
    intros u token [= <- <-]. exists user. simpl. rewrite Hid.
    split; [exact Hk |]. split; [exact Hmatch |]. split; [reflexivity |].
    split; [apply lookup_insert_eq |].
    split; [| now repeat split].
    intros after. rewrite lookup_insert_eq. intros [= <-]. now split.
Qed.

Lemma performUser_keeps db c :
  wellKeyed db /\ uniqueNames db ->
  wellKeyed (performUser bcrypt_hash bcrypt_compare jwt_sign jwt_secret_set isObjectId db c)
  /\ uniqueNames
       (performUser bcrypt_hash bcrypt_compare jwt_sign jwt_secret_set isObjectId db c).
Proof.
  intros [Hkeyed Hunique]. destruct c as [f env b | f env b | f id]; simpl.
  - destruct (register_cases f db env b)
      as [[-> _] | (d & Hnew & _ & _ & _ & _ & _ & Hid & Hfree & ->)]; [now split |].
    destruct (newUser_fields env b d Hnew) as (Hd_id & _ & Hd_pass & _).
    pose proof (preSave_hashes bcrypt_hash (UserRoutes.salt env) d _ Hd_pass) as Hhashed.
    assert (Hs_id : User._id (User.preSave bcrypt_hash true (UserRoutes.salt env) d)
                    = UserRoutes.newId env) by (rewrite Hhashed; exact Hd_id).
    assert (Hs_name : User.userName (User.preSave bcrypt_hash true (UserRoutes.salt env) d)
                      = User.userName d) by (rewrite Hhashed; reflexivity).
    split.
    + intros k u. simpl. destruct (decide (k = UserRoutes.newId env)) as [-> | Hne].
      * rewrite lookup_insert_eq. intros [= <-]. exact Hs_id.
      * rewrite lookup_insert_ne by congruence. apply Hkeyed.
    + intros k1 k2 u1 u2. simpl.
      destruct (decide (k1 = UserRoutes.newId env)) as [-> | Hne1];
        destruct (decide (k2 = UserRoutes.newId env)) as [-> | Hne2];
        rewrite ?lookup_insert_eq, ?lookup_insert_ne by congruence.
      * reflexivity.
      * intros [= <-] H2 Hname. exfalso.
        apply (withUserName_None _ _ Hfree k2 u2 H2). congruence.
      * intros H1 [= <-] Hname. exfalso.
        apply (withUserName_None _ _ Hfree k1 u1 H1). congruence.
      * apply Hunique.
  - apply (accountsKept_invariants db); [| now split].
    now apply login_keeps_accounts_lemma.
  - unfold UserAdmin.remove, UserAdmin.removeTry. run.
    destruct (f 0%nat); [now split |].
    destruct (isObjectId id); [| now split].
    destruct (f 1%nat); [now split |].
    destruct (users db !! id) eqn:Hu; [| now split]. simpl. split.
    + intros k u Hk. simpl in Hk. apply lookup_delete_Some in Hk.
      destruct Hk as [_ Hk]. now apply Hkeyed.
    + intros k1 k2 u1 u2 H1 H2. simpl in H1, H2.
      apply lookup_delete_Some in H1. apply lookup_delete_Some in H2.
      destruct H1 as [_ H1], H2 as [_ H2]. now apply (Hunique k1 k2 u1 u2).
Qed.

(** The accounts stay consistent: in a collection where every user is
    stored under its own id and no two users have one name, every
    sequence of registrations, logins and deletions, with whatever
    bodies and under whatever drivers, leaves it so. *)
Theorem accounts_stay_consistent (calls : list UserCall) (db : Db)
        (Hkeyed : wellKeyed db) (Hunique : uniqueNames db) :
  wellKeyed (fold_left (performUser bcrypt_hash bcrypt_compare jwt_sign jwt_secret_set
                                    isObjectId) calls db)
  /\ uniqueNames (fold_left (performUser bcrypt_hash bcrypt_compare jwt_sign
                                         jwt_secret_set isObjectId) calls db).
Proof.
  assert (H : wellKeyed db /\ uniqueNames db) by now split.
  clear Hkeyed Hunique. revert db H.
  induction calls as [| c calls IH]; intros db H; [exact H |].
  simpl. apply IH. now apply performUser_keeps.
Qed.

End AccountSpec.

(** ** The deletion of a user, and the tokens it leaves behind *)
Section UserDeletionSpec.
Variable jwt_verify : string -> Result string.
Variable isObjectId : string -> bool.

Local Abbreviation auth := (Auth.auth jwt_verify isObjectId).
Local Abbreviation removeUser := (UserAdmin.remove isObjectId).

(** Every way the deletion of a user can end. *)
Lemma user_delete_cases f db id :
  ((removeUser f db id).1 = db /\ status (removeUser f db id).2 <> 200)
  \/ exists u,
       users db !! id = Some u /\ isObjectId id = true
       /\ removeUser f db id
          = (UserRoutes.setUsers db (delete id (users db)),
             mkResponse 200 (Payload (UserAdmin.UserDeleted (User.userName u)))).
Proof.
  unfold UserAdmin.remove, UserAdmin.removeTry. run.
  destruct (f 0%nat);
    [left; split; [reflexivity | apply userAdmin_handleError_not_200] |].
  destruct (isObjectId id);
    [| left; split; [reflexivity | apply userAdmin_handleError_not_200]].
  destruct (f 1%nat);
    [left; split; [reflexivity | apply userAdmin_handleError_not_200] |].
  destruct (users db !! id) as [u |]; [| left; split; [reflexivity | discriminate]].
  right. exists u. now repeat split.
Qed.

(** A deleted user is locked out at once, although the token is still
    valid: when the deletion of a user is answered 200, a request whose
    bearer token [jwt.verify] accepts for that user passed [auth] on the
    database before and is answered 401 "User not found" on the database
    after (the driver of [auth] quiet); the answer of the deletion names
    the user, and no other user is touched. *)
Theorem deleted_user_locked_out (f g : Faults) (db : Db) (id : string)
        (req : Request) (h : string)
        (Hdeleted : status (removeUser f db id).2 = 200)
        (Hg0 : g 0%nat = None) (Hg1 : g 1%nat = None)
        (Hh : authorization req = Some h) (Hpre : Js.startsWith h "Bearer " = true)
        (Htok : bearerToken h <> "") (Hv : jwt_verify (bearerToken h) = Ok id) :
  (exists u,
     users db !! id = Some u
     /\ (removeUser f db id).2
        = mkResponse 200 (Payload (UserAdmin.UserDeleted (User.userName u)))
     /\ auth g db req
        = Next (mkRequest (authorization req) (Some (bearerToken h))
                          (Some (User.selectPublic u)) (Some (User._id u))))
  /\ auth g (removeUser f db id).1 req
     = Respond (fail 401 "Invalid token" "User not found")
  /\ (forall k, k <> id -> users (removeUser f db id).1 !! k = users db !! k).
Proof.
  destruct (user_delete_cases f db id) as [[_ Hno] | (u & Hu & Hid & Heq)];
    [contradiction |].
  assert (Hauth : forall db',
             auth g db' req
             = match users db' !! id with
               | Some u' =>
                   Next (mkRequest (authorization req) (Some (bearerToken h))
                                   (Some (User.selectPublic u')) (Some (User._id u')))
               | None => Respond (fail 401 "Invalid token" "User not found")
               end).
  { intros db'. unfold Auth.auth, Auth.authTry. run. rewrite Hg0, Hh.
    rewrite (startsWith_nonempty h Hpre), Hpre. simpl. fold (bearerToken h).
    destruct (String.eqb_spec (bearerToken h) "") as [Hempty | _]; [contradiction |].
    rewrite Hv, Hid, Hg1. now destruct (users db' !! id). }
  split; [| split].
  - exists u. split; [exact Hu |]. rewrite Heq, Hauth, Hu. now split.
  - rewrite Hauth, Heq. simpl. now rewrite lookup_delete_eq.
  - intros k Hne. rewrite Heq. simpl. now apply lookup_delete_ne.
Qed.

End UserDeletionSpec.

(** ** The reads of users *)

Lemma toJSON_discreet d : discreet (User.toJSON d).
Proof. unfold discreet. now repeat split. Qed.

Lemma toJSON_deletePassword d : User.toJSON (User.deletePassword d) = User.toJSON d.
Proof. reflexivity. Qed.

Lemma userReads_handleError_discreet err msg :
  discreetReply (UserReads.handleError err msg).
Proof.
  unfold UserReads.handleError.
  repeat match goal with |- context [if ?c then _ else _] => destruct c end;
    exact I.
Qed.

Lemma inOrder_map {A B} (le : A -> A -> bool) (le' : B -> B -> bool) (g : A -> B) l :
  (forall a b, le a b = true -> le' (g a) (g b) = true) ->
  inOrder le l -> inOrder le' (map g l).
Proof.
  intros Hg Hl. unfold inOrder in *.
  induction Hl as [| x l Hl IH Hx]; simpl; constructor; [exact IH |].
  rewrite List.Forall_forall in *. intros y Hy. apply in_map_iff in Hy.
  destruct Hy as (a & <- & Ha). apply Hg. now apply Hx.
Qed.

Section UserReadSpec.
Variable jwt_verify : string -> Result string.
Variable isObjectId : string -> bool.

(** No read of users shows a secret: whatever the driver, the request and
    the id, the answers of GET /me, GET /api/users and GET /api/users/:id
    carry no password, no tokens and no reset token of any user.  With
    the driver quiet the list answers 200 with one object for each
    stored user, in the order of the user names. *)
Theorem user_reads_discreet (f : Faults) (db : Db) (req : Request) (id : string) :
  discreetReply (UserReads.me f db req)
  /\ discreetReply (UserReads.index f db)
  /\ discreetReply (UserReads.get isObjectId f db id)
  /\ (f 0%nat = None -> f 1%nat = None ->
      exists l,
        UserReads.index f db = mkResponse 200 (Payload (UserReads.ManyUsers l))
        /\ Permutation l (map (fun kv : string * User.Doc => User.toJSON kv.2)
                              (map_to_list (users db)))
        /\ inOrder UserReads.byUserName l).
Proof.
  split; [| split; [| split]].
  - unfold UserReads.me, UserReads.meTry. run.
    destruct (f 0%nat); [apply userReads_handleError_discreet |].
    destruct (req_user req) as [me |]; [| apply userReads_handleError_discreet].
    destruct (f 1%nat); [apply userReads_handleError_discreet |].
    destruct (users db !! User._id me); simpl; [apply toJSON_discreet | exact I].
  - unfold UserReads.index, UserReads.indexTry. run.
    destruct (f 0%nat); [apply userReads_handleError_discreet |].
    destruct (f 1%nat); [apply userReads_handleError_discreet |].
    simpl. apply List.Forall_forall. intros u Hu. apply in_map_iff in Hu.
    destruct Hu as (d & <- & _). apply toJSON_discreet.
  - unfold UserReads.get, UserReads.getTry. run.
    destruct (f 0%nat); [apply userReads_handleError_discreet |].
    destruct (isObjectId id); [| apply userReads_handleError_discreet].
    destruct (f 1%nat); [apply userReads_handleError_discreet |].
    destruct (users db !! id); simpl; [apply toJSON_discreet | exact I].
  - intros H0 H1. eexists. split.
    { unfold UserReads.index, UserReads.indexTry. run. rewrite H0, H1. reflexivity. }
    split.
    + rewrite sortBy_perm, map_map. apply Permutation_map. reflexivity.
    + apply (inOrder_map UserReads.byUserName); [intros a b Hab; exact Hab |].
      apply sortBy_inOrder; intros a b; [apply string_leb_false |].
      intros c. apply string_leb_trans.
Qed.

(** GET /me answers with the caller's own account: on a collection where
    every user is stored under its own id, with the drivers quiet, a
    request whose bearer token [jwt.verify] accepts for a stored user is
    answered 200 with that user's object, and the database is as it
    was. *)
Theorem me_returns_caller (fm f : Faults) (db : Db) (req : Request) (h uid : string)
        (u : User.Doc) (Hkeyed : wellKeyed db)
        (Hm0 : fm 0%nat = None) (Hm1 : fm 1%nat = None)
        (H0 : f 0%nat = None) (H1 : f 1%nat = None)
        (Hh : authorization req = Some h) (Hpre : Js.startsWith h "Bearer " = true)
        (Htok : bearerToken h <> "") (Hv : jwt_verify (bearerToken h) = Ok uid)
        (Hid : isObjectId uid = true) (Hu : users db !! uid = Some u) :
  UserReads.meRoute isObjectId jwt_verify fm f db req
  = (db, Express.Handled (mkResponse 200 (Payload (UserReads.OneUser (User.toJSON u)))))
  /\ User._id (User.toJSON u) = uid.
Proof.
  pose proof (Hkeyed uid u Hu) as Hown.
  split; [| exact Hown].
  unfold UserReads.meRoute, Express.route. simpl.
  unfold Auth.auth, Auth.authTry. run. rewrite Hm0, Hh.
  rewrite (startsWith_nonempty h Hpre), Hpre. simpl. fold (bearerToken h).
  destruct (String.eqb_spec (bearerToken h) "") as [Hempty | _]; [contradiction |].
  rewrite Hv, Hid, Hm1, Hu. simpl.
  unfold UserReads.me, UserReads.meTry. run. simpl. rewrite H0, H1, Hown, Hu.
  reflexivity.
Qed.

End UserReadSpec.

(** ** The theorems at sample inputs *)

(** The one document of a sample collection. *)
Lemma lookup_one {A} (k : string) (x : A) (i : string) (y : A) :
  ({[k := x]} : gmap string A) !! i = Some y -> k = i /\ x = y.
Proof.
  intros H. destruct (decide (i = k)) as [-> | Hne].
  - rewrite lookup_singleton_eq in H. injection H as <-. now split.
  - rewrite lookup_singleton_ne in H by congruence. discriminate.
Qed.

Ltac the_one H :=
  unfold dbWithTrip, dbWithAdmin in H; cbn [trips users] in H;
  apply lookup_one in H.

Lemma trips_index_sorted_witness :
  exists l,
    TripQueries.index no_faults dbWithTwoTrips
    = mkResponse 200 (Payload (TripRoutes.ManyTrips l))
    /\ Permutation l (map_to_list (trips dbWithTwoTrips))
    /\ (forall id t, (id, t) ∈ l <-> trips dbWithTwoTrips !! id = Some t)
    /\ inOrder TripQueries.byTripDateDesc l.
Proof. apply (trips_index_sorted no_faults dbWithTwoTrips); reflexivity. Defined.

Lemma trips_of_passenger_witness :
  exists l,
    TripQueries.ofPassenger no_faults dbWithTwoTrips " 665f1c2ab7e4a90d3c5e8f01 "
    = mkResponse 200 (Payload (TripRoutes.ManyTrips l))
    /\ (forall id t, (id, t) ∈ l <->
          trips dbWithTwoTrips !! id = Some t
          /\ Trip.passengerId t = Js.trim " 665f1c2ab7e4a90d3c5e8f01 ")
    /\ inOrder TripQueries.byTripDateDesc l.
Proof.
  destruct (trips_of_passenger no_faults dbWithTwoTrips " 665f1c2ab7e4a90d3c5e8f01 "
              eq_refl eq_refl) as (_ & _ & Hfound).
  apply (Hfound ltac:(discriminate) sampleTripId (tripWith (Val 2))); reflexivity.
Defined.

Lemma counts_stay_valid_witness :
  countsValid
    (fold_left (perform sampleParse isObjectIdHex)
               [CallDecrement no_faults sampleTripId;
                CallDecrement no_faults sampleTripId;
                CallSetCount no_faults sampleTripId (Str "0");
                CallUpdate no_faults sampleTripId (tripBody (Str "2024-01-05") (Number (-4)));
                CallIncrement no_faults sampleTripId]
               (dbWithTrip (Val 2))).
Proof.
  apply counts_stay_valid.
  intros id t Hid. the_one Hid. destruct Hid as [_ <-].
  right. exists 2. split; [reflexivity | lia].
Defined.

Lemma trip_round_trip_witness :
  (exists t,
     sampleCreation.2 = mkResponse 201 (Payload (TripRoutes.OneTrip sampleTripId t))
     /\ TripQueries.get isObjectIdHex no_faults sampleCreation.1 sampleTripId
        = mkResponse 200 (Payload (TripRoutes.OneTrip sampleTripId t)))
  /\ status (TripEdits.remove isObjectIdHex no_faults sampleCreation.1 sampleTripId).2
     = 200
  /\ TripQueries.get isObjectIdHex no_faults
       (TripEdits.remove isObjectIdHex no_faults sampleCreation.1 sampleTripId).1
       sampleTripId
     = TripRoutes.notFound.
Proof.
  split; [| split].
  - destruct (trip_round_trip sampleParse isObjectIdHex no_faults no_faults emptyDb
                sampleTripId eq_refl eq_refl eq_refl) as [Hcreate _].
    destruct (Hcreate (tripBody (Str "2024-01-05") (Number 3))
                      ltac:(vm_compute; reflexivity)) as (t & Hanswer & _ & Hget).
    exists t. split; [exact Hanswer | exact Hget].
  - vm_compute. reflexivity.
  - destruct (trip_round_trip sampleParse isObjectIdHex no_faults no_faults
                sampleCreation.1 sampleTripId eq_refl eq_refl eq_refl) as [_ Hdelete].
    destruct (Hdelete ltac:(vm_compute; reflexivity)) as [_ Hget]. exact Hget.
Defined.

Lemma trip_found_by_its_date_witness :
  exists t l,
    (TripRoutes.create sampleParse no_faults emptyDb sampleTripId
                       (tripBody (Str "2024-01-05") (Number 3))).2
    = mkResponse 201 (Payload (TripRoutes.OneTrip sampleTripId t))
    /\ TripRoutes.byDate sampleParse no_faults
         (TripRoutes.create sampleParse no_faults emptyDb sampleTripId
                            (tripBody (Str "2024-01-05") (Number 3))).1 "2024-01-05"
       = mkResponse 200 (Payload (TripRoutes.ManyTrips l))
    /\ (sampleTripId, t) ∈ l
    /\ (forall k t', (k, t') ∈ l <->
          trips (TripRoutes.create sampleParse no_faults emptyDb sampleTripId
                                   (tripBody (Str "2024-01-05") (Number 3))).1 !! k
          = Some t'
          /\ Trip.tripDate t' = Trip.tripDate t).
Proof.
  apply (trip_found_by_its_date sampleParse no_faults no_faults emptyDb sampleTripId
           (tripBody (Str "2024-01-05") (Number 3)) "2024-01-05");
    vm_compute; reflexivity.
Defined.

Lemma admin_reaches_handler_witness :
  PassengerCrud.postRoute isObjectIdHex sampleVerify no_faults no_faults
    samplePassengerId passengerBody dbWithAdmin goodRequest
  = ((PassengerCrud.create no_faults dbWithAdmin samplePassengerId passengerBody).1,
     Express.Handled
       (PassengerCrud.create no_faults dbWithAdmin samplePassengerId passengerBody).2).
Proof.
  destruct (admin_reaches_handler sampleVerify isObjectIdHex Js.toLowerCase no_faults
              no_faults dbWithAdmin
              goodRequest samplePassengerId passengerBody "Bearer good" adminId adminUser
              eq_refl eq_refl eq_refl eq_refl ltac:(discriminate) eq_refl eq_refl
              eq_refl eq_refl) as (Hpost & _).
  exact Hpost.
Defined.

Lemma passenger_round_trip_witness :
  exists p,
    (PassengerCrud.create no_faults emptyDb samplePassengerId passengerBody).2
    = mkResponse 201 (Payload (PassengerCrud.OnePassenger samplePassengerId p))
    /\ Passenger.firstName p = Js.trimOf (PassengerCrud.b_firstName passengerBody)
    /\ Passenger.lastName p = Js.trimOf (PassengerCrud.b_lastName passengerBody)
    /\ Passenger.firstName p <> "" /\ Passenger.lastName p <> ""
    /\ PassengerCrud.get isObjectIdHex no_faults
         (PassengerCrud.create no_faults emptyDb samplePassengerId passengerBody).1
         samplePassengerId
       = mkResponse 200 (Payload (PassengerCrud.OnePassenger samplePassengerId p))
    /\ PassengerRoutes.remove isObjectIdHex Js.toLowerCase no_faults
         (PassengerCrud.create no_faults emptyDb samplePassengerId passengerBody).1
         samplePassengerId
       = (TripRoutes.setTrips emptyDb
            (PassengerRoutes.deleteTripsOf samplePassengerId (trips emptyDb)),
          PassengerRoutes.deleted samplePassengerId).
Proof.
  destruct (passenger_round_trip isObjectIdHex Js.toLowerCase no_faults no_faults emptyDb
              samplePassengerId passengerBody eq_refl eq_refl (fun _ => eq_refl))
    as (p & Hanswer & Hfirst & Hlast & Hn1 & Hn2 & Hget & Hremove).
  exists p. repeat (split; [assumption |]). exact (Hremove eq_refl).
Defined.

Lemma passenger_update_job_role_witness :
  PassengerCrud.update isObjectIdHex no_faults dbWithPassenger samplePassengerId
                       passengerBody
  = (PassengerRoutes.setPassengers dbWithPassenger
       (<[samplePassengerId := Passenger.mkDoc "Ada" "Lovelace" (Some "Driller")]>
          (passengers dbWithPassenger)),
     mkResponse 200
       (Payload (PassengerCrud.OnePassenger samplePassengerId
                   (Passenger.mkDoc "Ada" "Lovelace" (Some "Driller"))))).
Proof.
  destruct (passenger_update_job_role isObjectIdHex no_faults dbWithPassenger
              samplePassengerId passengerBody storedPassenger
              eq_refl eq_refl eq_refl eq_refl eq_refl eq_refl) as (Hrole & _).
  exact (Hrole (Some "Driller") eq_refl).
Defined.

Lemma passengers_index_sorted_witness :
  exists l,
    PassengerCrud.index no_faults dbWithPassenger
    = mkResponse 200 (Payload (PassengerCrud.ManyPassengers l))
    /\ Permutation l (map_to_list (passengers dbWithPassenger))
    /\ (forall id p, (id, p) ∈ l <-> passengers dbWithPassenger !! id = Some p)
    /\ inOrder PassengerCrud.byName l
    /\ (forall i j a b, (i < j)%nat -> l !! i = Some a -> l !! j = Some b ->
          String.leb (Passenger.firstName a.2) (Passenger.firstName b.2) = true).
Proof. apply (passengers_index_sorted no_faults dbWithPassenger); reflexivity. Defined.

Lemma optional_agrees_with_auth_witness :
  match Auth.auth sampleVerify isObjectIdHex no_faults dbWithAdmin goodRequest with
  | Next req' =>
      AuthOptional.optional sampleVerify isObjectIdHex no_faults dbWithAdmin goodRequest
      = Next req'
  | Respond _ =>
      AuthOptional.optional sampleVerify isObjectIdHex no_faults dbWithAdmin goodRequest
      = Next goodRequest
  end.
Proof.
  apply (optional_agrees_with_auth sampleVerify isObjectIdHex no_faults dbWithAdmin
           goodRequest).
  eexists. reflexivity.
Defined.

Lemma sites_listed_in_order_witness :
  exists l,
    SiteEdits.index no_faults dbWithSites
    = mkResponse 200 (Payload (SiteEdits.ManySites l))
    /\ Permutation l (sites dbWithSites) /\ inOrder bySiteName l.
Proof.
  destruct (sites_listed_in_order no_faults 1704450600000 dbWithSites eq_refl eq_refl)
    as (Hlist & _).
  exact Hlist.
Defined.

Lemma sites_stay_well_formed_witness :
  pobBounds
    (sites (fold_left performSite
              [CallInitialize no_faults 1704450600000;
               CallSiteUpdate no_faults 1704537000000 "NSC" Undefined (Number 14);
               CallSiteUpdate no_faults 1704537000000 "NSC" (Number 0) Undefined]
              dbWithSites))
  /\ distinctNames
       (sites (fold_left performSite
                 [CallInitialize no_faults 1704450600000;
                  CallSiteUpdate no_faults 1704537000000 "NSC" Undefined (Number 14);
                  CallSiteUpdate no_faults 1704537000000 "NSC" (Number 0) Undefined]
                 dbWithSites)).
Proof.
  apply sites_stay_well_formed.
  - repeat constructor; simpl; lia.
  - unfold distinctNames. simpl. apply NoDup_cons. split; [| apply NoDup_singleton].
    intros Hin. apply list_elem_of_singleton in Hin. discriminate.
Defined.

Lemma initialize_then_get_witness :
  exists s,
    SiteEdits.get no_faults (SiteRoutes.initialize no_faults 1704450600000 emptyDb).1 "NDT"
    = mkResponse 200 (Payload (SiteEdits.OneSite s))
    /\ Site.siteName s = "NDT".
Proof.
  apply (initialize_then_get no_faults no_faults 1704450600000 emptyDb "NDT");
    try reflexivity.
  simpl. tauto.
Defined.

Lemma login_failures_alike_witness :
  UserRoutes.login toyHash toyCompare toySign true no_faults dbWithAdmin sampleEnv
                   (UserRoutes.mkLoginBody (Str "Root-01") (Str "not the password"))
  = (dbWithAdmin, fail 401 "Authentication failed" "Invalid credentials").
Proof.
  apply (login_failures_alike toyHash toyCompare toySign true no_faults dbWithAdmin
           sampleEnv (UserRoutes.mkLoginBody (Str "Root-01") (Str "not the password")));
    try reflexivity.
  intros k u Hk _. the_one Hk. destruct Hk as [_ <-].
  reflexivity.
Defined.

Lemma register_rejects_taken_name_witness :
  UserRoutes.register toyHash no_faults dbWithAdmin sampleEnv
    (UserRoutes.mkRegisterBody (Str " ROOT-01 ") (Str "another pass") (Str "Rob")
                               (Str "Roy") Undefined Undefined)
  = (dbWithAdmin, fail 400 "Validation failed" "Username already exists").
Proof.
  apply (register_rejects_taken_name toyHash no_faults dbWithAdmin sampleEnv
           (UserRoutes.mkRegisterBody (Str " ROOT-01 ") (Str "another pass") (Str "Rob")
                                      (Str "Roy") Undefined Undefined)
           adminId adminUser); try reflexivity.
  vm_compute. discriminate.
Defined.

Lemma register_then_login_witness :
  exists u,
    (UserRoutes.login toyHash toyCompare toySign true no_faults
       (UserRoutes.register toyHash no_faults emptyDb sampleEnv sampleRegistration).1
       sampleEnv
       (UserRoutes.mkLoginBody (UserRoutes.r_userName sampleRegistration)
                               (Str "correct horse"))).2
    = mkResponse 200
        (Payload (UserRoutes.LoggedIn u
                    (toySign (UserRoutes.newId sampleEnv)
                             (Js.ToBoolean (UserRoutes.r_isAdmin sampleRegistration))
                             (UserRoutes.now sampleEnv))))
    /\ User._id u = UserRoutes.newId sampleEnv
    /\ User.userName u
       = Js.toLowerCase (Js.trim (Js.trimOf (UserRoutes.r_userName sampleRegistration)))
    /\ User.isAdmin u = Js.ToBoolean (UserRoutes.r_isAdmin sampleRegistration)
    /\ User.lastLogin u = Some (UserRoutes.now sampleEnv)
    /\ User.password u = None /\ User.tokens u = None.
Proof.
  destruct (register_then_login toyHash toyCompare toySign true no_faults no_faults
              emptyDb sampleEnv sampleEnv sampleRegistration "correct horse")
    as (Hmatch & _).
  - vm_compute. reflexivity.
  - reflexivity.
  - reflexivity.
  - vm_compute. split; discriminate.
  - discriminate.
  - apply Hmatch. reflexivity.
Defined.

Lemma login_keeps_accounts_witness :
  accountsKept dbWithAdmin
    (UserRoutes.login toyHash toyCompare toySign true no_faults dbWithAdmin sampleEnv
                      (UserRoutes.mkLoginBody (Str "root-01") (Str "s3cret-pass"))).1
  /\ User.version adminUser = Some 0
  /\ User.version
       <$> users (UserRoutes.login toyHash toyCompare toySign true no_faults dbWithAdmin
                                   sampleEnv
                                   (UserRoutes.mkLoginBody (Str "root-01")
                                                           (Str "s3cret-pass"))).1
           !! adminId
     = Some (Some 1).
Proof.
  destruct (login_keeps_accounts toyHash toyCompare toySign true no_faults dbWithAdmin
              sampleEnv (UserRoutes.mkLoginBody (Str "root-01") (Str "s3cret-pass")))
    as (Hkept & _).
  - intros k u Hk. the_one Hk. destruct Hk as [<- <-].
    reflexivity.
  - split; [exact Hkept |]. split; [reflexivity | vm_compute; reflexivity].
Defined.

Lemma accounts_stay_consistent_witness :
  wellKeyed
    (fold_left (performUser toyHash toyCompare toySign true isObjectIdHex)
               [CallRegister no_faults sampleEnv sampleRegistration;
                CallLogin no_faults sampleEnv
                          (UserRoutes.mkLoginBody (Str "root-01") (Str "s3cret-pass"));
                CallDeleteUser no_faults adminId]
               dbWithAdmin)
  /\ uniqueNames
       (fold_left (performUser toyHash toyCompare toySign true isObjectIdHex)
                  [CallRegister no_faults sampleEnv sampleRegistration;
                   CallLogin no_faults sampleEnv
                             (UserRoutes.mkLoginBody (Str "root-01") (Str "s3cret-pass"));
                   CallDeleteUser no_faults adminId]
                  dbWithAdmin).
Proof.
  apply accounts_stay_consistent.
  - intros k u Hk. the_one Hk. destruct Hk as [<- <-].
    reflexivity.
  - intros k1 k2 u1 u2 H1 H2 _.
    the_one H1. the_one H2.
    destruct H1 as [<- _], H2 as [<- _]. reflexivity.
Defined.

Lemma deleted_user_locked_out_witness :
  Auth.auth sampleVerify isObjectIdHex no_faults
            (UserAdmin.remove isObjectIdHex no_faults dbWithAdmin adminId).1 goodRequest
  = Respond (fail 401 "Invalid token" "User not found").
Proof.
  destruct (deleted_user_locked_out sampleVerify isObjectIdHex no_faults no_faults
              dbWithAdmin adminId goodRequest "Bearer good"
              eq_refl eq_refl eq_refl eq_refl eq_refl ltac:(discriminate) eq_refl)
    as (_ & Hafter & _).
  exact Hafter.
Defined.

Lemma me_returns_caller_witness :
  UserReads.meRoute isObjectIdHex sampleVerify no_faults no_faults dbWithAdmin goodRequest
  = (dbWithAdmin,
     Express.Handled
       (mkResponse 200 (Payload (UserReads.OneUser (User.toJSON adminUser)))))
  /\ User._id (User.toJSON adminUser) = adminId.
Proof.
  apply (me_returns_caller sampleVerify isObjectIdHex no_faults no_faults dbWithAdmin
           goodRequest "Bearer good" adminId adminUser); try reflexivity.
  - intros k u Hk. the_one Hk. destruct Hk as [<- <-].
    reflexivity.
  - discriminate.
Defined.
